(** * Real-time market-data dashboard: streaming pipeline

    A shallow embedding of the streaming core of the dashboard:

    - [Indicators]: the static methods of [DataCalculator]
      (frontend/live/js/data-storage.js): [calculateMA], [calculateEMA],
      [calculateMACD], [calculateKDJ];
    - [Buffer]: the bounded series buffers of [ChartsManager]
      ([updateChartsData], [updatePPIEData], [updateVVIEData],
      [clearChartsData], [calculateMemoryUsage], [destroy]);
    - [Grid]: the buffers and the update cycle of [GridController]
      ([updateChartsData], [updateGrid1Data], [limitDataBuffer],
      [setGridVisibility], [clearChartsData], [getMemoryUsage], [destroy]);
    - [Socket]: the connection state machine, the packet validation, the
      history responses and the statistics of [WebSocketManager];
    - [Callbacks]: the listener registries behind [on] and [off];
    - [Database]: the write-behind cache of [DatabaseManager]
      ([saveRealtimeData]);
    - [App]: the packet handlers of [Application] (main.js) and
      [DualGridApplication];
    - [Toolbar]: the pause flag and the connection state of
      [ToolbarManager].

    The DOM, the chart library and the socket transport are collaborators:
    what they do is not modelled, only what the code above does with them.

    JavaScript numbers are IEEE-754 binary64 values; they are modelled by
    Rocq's primitive floats, so every arithmetic fact below is a fact about
    the doubles the program computes, and concrete runs are evaluated by the
    kernel. *)

From Stdlib Require Import ZArith Lia Floats Uint63.
From stdpp Require Import base option list strings pretty gmap.

Set Warnings "-register-all".

(** ** JavaScript values and array primitives *)

Module JS.

(** The three kinds of value an indicator array cell or an array read can
    hold: [undefined] (a read past the end), [null] (a warm-up marker) and a
    number. *)
Inductive jsnum : Type :=
  | JUndefined
  | JNull
  | JNumber (x : float).

(** [v !== null] *)
Definition not_null (v : jsnum) : bool :=
  match v with JNull => false | _ => true end.

(** ToNumber: [undefined] is NaN, [null] is 0. *)
Definition to_number (v : jsnum) : float :=
  match v with
  | JUndefined => nan
  | JNull => 0%float
  | JNumber x => x
  end.

(** ToBoolean on a number: 0, -0 and NaN are falsy. *)
Definition float_truthy (x : float) : bool :=
  negb (PrimFloat.is_zero x || PrimFloat.is_nan x).

Definition truthy (v : jsnum) : bool :=
  match v with
  | JUndefined | JNull => false
  | JNumber x => float_truthy x
  end.

(** [v || d] for a numeric default [d]. *)
Definition or_default (v : jsnum) (d : float) : float :=
  if truthy v then to_number v else d.

(** An integer-valued JavaScript number (a period, a count): the double
    nearest to the integer [z], by the IEEE-754 rounding of the Standard
    Library's specification.  It is [z] itself whenever a double holds [z],
    as it does every integer below 2^53 in absolute value; no integer
    wraps. *)
Definition sf_of_Z (z : Z) : spec_float :=
  binary_normalize prec emax z 0 false.

Definition num_of_Z (z : Z) : float := SF2Prim (sf_of_Z z).

(** The double with sign [s], mantissa [m] and exponent [e] is
    [(-1)^s * m * 2^e]: it is the integer [z] when that number is [z]. *)
Definition sf_integer (x : spec_float) (z : Z) : Prop :=
  match x with
  | S754_zero _ => z = 0%Z
  | S754_finite s m e =>
      (cond_Zopp s (Zpos m) * 2 ^ Z.max e 0 = z * 2 ^ Z.max (- e) 0)%Z
  | _ => False
  end.

(** The double [x] is the integer [z]. *)
Definition is_integer (x : float) (z : Z) : Prop := sf_integer (Prim2SF x) z.

(** [a[i]]: a read past the end (or at a negative index) is [undefined]. *)
Definition index (a : list jsnum) (i : Z) : jsnum :=
  if (i <? 0)%Z then JUndefined else default JUndefined (a !! Z.to_nat i).

(** [a.slice(s, e)] with JavaScript's relative indices: a negative index
    counts from the end, and both ends are clamped to the array. *)
Definition rel_index (len i : Z) : Z :=
  if (i <? 0)%Z then Z.max (len + i) 0 else Z.min i len.

Definition slice {A} (a : list A) (s e : Z) : list A :=
  let len := Z.of_nat (length a) in
  let k := rel_index len s in
  let final := rel_index len e in
  take (Z.to_nat (final - k)) (drop (Z.to_nat k) a).

(** [a.slice(s)]: the end defaults to the length. *)
Definition slice_from {A} (a : list A) (s : Z) : list A :=
  slice a s (Z.of_nat (length a)).

Definition is_pos_zero (x : float) : bool :=
  match PrimFloat.classify x with PZero => true | _ => false end.

Definition is_neg_zero (x : float) : bool :=
  match PrimFloat.classify x with NZero => true | _ => false end.

(** [Math.max(...xs)]: starts from -Infinity, any NaN argument gives NaN,
    and +0 is larger than -0. *)
Fixpoint math_max_from (highest : float) (xs : list float) : float :=
  match xs with
  | [] => highest
  | x :: rest =>
      if PrimFloat.is_nan x then nan
      else if is_pos_zero x && is_neg_zero highest then math_max_from x rest
      else if PrimFloat.ltb highest x then math_max_from x rest
      else math_max_from highest rest
  end.

Definition math_max (xs : list jsnum) : float :=
  math_max_from neg_infinity (map to_number xs).

(** [Math.min(...xs)]: starts from +Infinity, any NaN argument gives NaN,
    and -0 is smaller than +0. *)
Fixpoint math_min_from (lowest : float) (xs : list float) : float :=
  match xs with
  | [] => lowest
  | x :: rest =>
      if PrimFloat.is_nan x then nan
      else if is_neg_zero x && is_pos_zero lowest then math_min_from x rest
      else if PrimFloat.ltb x lowest then math_min_from x rest
      else math_min_from lowest rest
  end.

Definition math_min (xs : list jsnum) : float :=
  math_min_from infinity (map to_number xs).

(** [for (let i = 0; i < n; i++) body]: the loop variables after [n]
    iterations, starting from [init]. *)
Definition for_loop {St : Type} (body : St -> nat -> St) (init : St) (n : nat)
    : St :=
  fold_left body (seq 0 n) init.

(** NaN or an infinity: what [Number.isFinite] rejects. *)
Definition non_finite (x : float) : Prop :=
  x = nan \/ x = infinity \/ x = neg_infinity.

(** The same, on the specification of a double. *)
Definition sf_non_finite (s : spec_float) : Prop :=
  s = S754_nan \/ exists b, s = S754_infinity b.


End JS.

(** ** The indicator engine ([DataCalculator]) *)

Module Indicators.
Import JS.

(** *** [calculateEMA(prices, period)] *)

(** The loop variables: the [result] array built so far and [ema]. *)
Record ema_state : Type := EmaState {
  ema_result : list jsnum;
  ema_value : jsnum
}.

(** One iteration of the [for] loop at index [i]. *)
Definition ema_body (prices : list jsnum) (multiplier : float)
    (st : ema_state) (i : nat) : ema_state :=
  let p := index prices (Z.of_nat i) in
  if negb (not_null p) then
    EmaState (ema_result st ++ [JNull]) (ema_value st)
  else if (length (ema_result st) =? 0)%nat then
    EmaState (ema_result st ++ [p]) p
  else
    let ema := (to_number p * multiplier
                + to_number (ema_value st) * (1 - multiplier))%float in
    EmaState (ema_result st ++ [JNumber ema]) (JNumber ema).

(** [prices.find(price => price !== null)] *)
Definition find_not_null (prices : list jsnum) : jsnum :=
  default JUndefined (head (filter (fun v => not_null v = true) prices)).

Definition ema_multiplier (period : Z) : float :=
  (2 / (num_of_Z period + 1))%float.

Definition calculateEMA (prices : list jsnum) (period : Z) : list jsnum :=
  let multiplier := ema_multiplier period in
  let ema := find_not_null prices in
  ema_result
    (for_loop (ema_body prices multiplier) (EmaState [] ema) (length prices)).

(** The exponential moving average as the specification words it: the
    seed is the first input, and every later output is
    [input * α + previous * (1 - α)]. *)
Fixpoint ema_from (α prev : float) (inputs : list float) : list float :=
  match inputs with
  | [] => []
  | v :: rest =>
      let e := (v * α + prev * (1 - α))%float in
      e :: ema_from α e rest
  end.

Definition ema_spec (α : float) (inputs : list float) : list float :=
  match inputs with
  | [] => []
  | v :: rest => v :: ema_from α v rest
  end.

(** *** [calculateMACD(prices, fastPeriod, slowPeriod, signalPeriod)] *)

Record macd_result : Type := MacdResult {
  dif : list jsnum;
  dea : list jsnum;
  macd : list jsnum
}.

Definition calculateMACD (prices : list jsnum)
    (fastPeriod slowPeriod signalPeriod : Z) : macd_result :=
  let ema12 := calculateEMA prices fastPeriod in
  let ema26 := calculateEMA prices slowPeriod in
  let dif :=
    imap (fun idx value =>
            if not_null value && not_null (index ema26 (Z.of_nat idx))
            then JNumber (to_number value
                          - to_number (index ema26 (Z.of_nat idx)))%float
            else JNull) ema12 in
  let dea :=
    calculateEMA (filter (fun v => not_null v = true) dif) signalPeriod in
  let macd :=
    imap (fun idx difValue =>
            if not_null difValue && not_null (index dea (Z.of_nat idx))
            then JNumber (2 * (to_number difValue
                               - to_number (index dea (Z.of_nat idx))))%float
            else JNull) dif in
  MacdResult dif dea macd.

(** The default periods of the signature: 12, 26, 9. *)
Definition calculateMACD_default (prices : list jsnum) : macd_result :=
  calculateMACD prices 12 26 9.

(** *** [calculateKDJ(highs, lows, closes, period)] *)

Record kdj_result : Type := KdjResult {
  k : list jsnum;
  d : list jsnum;
  j : list jsnum;
  rsv : list jsnum
}.

(** The raw stochastic value of the window that ends at [i]. *)
Definition kdj_rsv (highs lows closes : list jsnum) (period : Z) (i : Z)
    : float :=
  let periodHighs := slice highs (i - period + 1) (i + 1) in
  let periodLows := slice lows (i - period + 1) (i + 1) in
  let currentClose := to_number (index closes i) in
  let highestHigh := math_max periodHighs in
  let lowestLow := math_min periodLows in
  ((currentClose - lowestLow) / (highestHigh - lowestLow) * 100)%float.

(** One iteration of the [for] loop at index [i]. *)
Definition kdj_body (highs lows closes : list jsnum) (period : Z)
    (st : kdj_result) (n : nat) : kdj_result :=
  let i := Z.of_nat n in
  if (i <? period - 1)%Z then
    KdjResult (k st ++ [JNull]) (d st ++ [JNull]) (j st ++ [JNull])
              (rsv st ++ [JNull])
  else
    let currentRSV := kdj_rsv highs lows closes period i in
    let prevK := or_default (index (k st) (i - 1)) 50 in
    let currentK := ((2 * prevK + currentRSV) / 3)%float in
    let prevD := or_default (index (d st) (i - 1)) 50 in
    let currentD := ((2 * prevD + currentK) / 3)%float in
    let currentJ := (3 * currentK - 2 * currentD)%float in
    KdjResult (k st ++ [JNumber currentK]) (d st ++ [JNumber currentD])
              (j st ++ [JNumber currentJ]) (rsv st ++ [JNumber currentRSV]).

Definition calculateKDJ (highs lows closes : list jsnum) (period : Z)
    : kdj_result :=
  for_loop (kdj_body highs lows closes period) (KdjResult [] [] [] [])
           (length closes).

(** *** [calculateMA(prices, period)] *)

(** [window.reduce((a, b) => a + b, 0)] *)
Definition sum_from_zero (window : list jsnum) : float :=
  fold_left (fun a b => (a + to_number b)%float) window 0%float.

(** One iteration of the [for] loop at index [n]. *)
Definition ma_body (prices : list jsnum) (period : Z) (result : list jsnum)
    (n : nat) : list jsnum :=
  let i := Z.of_nat n in
  if (i <? period - 1)%Z then result ++ [JNull]
  else
    let sum := sum_from_zero (slice prices (i - period + 1) (i + 1)) in
    result ++ [JNumber (sum / num_of_Z period)%float].

Definition calculateMA (prices : list jsnum) (period : Z) : list jsnum :=
  for_loop (ma_body prices period) [] (length prices).

End Indicators.

(** ** Packets: JSON-like values *)

Module Json.
Import JS.

(** A value received from the transport.  An object keeps its own
    properties in insertion order, the order [Object.entries] yields. *)
Inductive jsval : Type :=
  | VUndefined
  | VNull
  | VBool (b : bool)
  | VNum (x : float)
  | VStr (s : string)
  | VArr (items : list jsval)
  | VObj (fields : list (string * jsval)).

(** ToBoolean *)
Definition truthy (v : jsval) : bool :=
  match v with
  | VUndefined | VNull => false
  | VBool b => b
  | VNum x => float_truthy x
  | VStr s => negb (String.eqb s EmptyString)
  | VArr _ | VObj _ => true
  end.

(** [typeof v === 'object'] *)
Definition typeof_object (v : jsval) : bool :=
  match v with
  | VNull | VArr _ | VObj _ => true
  | _ => false
  end.

(** [typeof v === 'number'] *)
Definition typeof_number (v : jsval) : bool :=
  match v with VNum _ => true | _ => false end.

(** [Array.isArray(v)] *)
Definition isArray (v : jsval) : bool :=
  match v with VArr _ => true | _ => false end.

(** [v !== undefined] *)
Definition not_undefined (v : jsval) : bool :=
  match v with VUndefined => false | _ => true end.

Fixpoint assoc (name : string) (fields : list (string * jsval))
    : option jsval :=
  match fields with
  | [] => None
  | (key, v) :: rest => if String.eqb key name then Some v else assoc name rest
  end.

(** [v.name] for a property name that is neither an array index nor a
    built-in: [None] is the TypeError of a read on [undefined] or [null]; a
    primitive or an array has no such property. *)
Definition prop (v : jsval) (name : string) : option jsval :=
  match v with
  | VUndefined | VNull => None
  | VObj fields => Some (default VUndefined (assoc name fields))
  | _ => Some VUndefined
  end.

(** [v?.name] *)
Definition prop_opt (v : jsval) (name : string) : jsval :=
  default VUndefined (prop v name).

Definition chars (s : string) : list jsval :=
  (fun c => VStr (String c EmptyString)) <$> String.list_ascii_of_string s.

(** [Object.entries(v)]: [None] is the TypeError on [undefined] or [null];
    an array or a string yields its indexed elements. *)
Definition entries (v : jsval) : option (list (string * jsval)) :=
  match v with
  | VUndefined | VNull => None
  | VObj fields => Some fields
  | VArr items => Some (imap (fun i x => (pretty i, x)) items)
  | VStr s => Some (imap (fun i x => (pretty i, x)) (chars s))
  | _ => Some []
  end.

(** The values a [for ... of] loop over [v] visits, and what the pattern
    [[a, b]] destructures: [None] when [v] is not iterable. *)
Definition iterate (v : jsval) : option (list jsval) :=
  match v with
  | VArr items => Some items
  | VStr s => Some (chars s)
  | _ => None
  end.

End Json.

(** ** Bounded series buffers ([ChartsManager]) *)

(** How a statement ends: normally, or by throwing.  The state reached is
    kept in both cases, since a mutation made before a throw persists. *)
Inductive completion (S : Type) : Type :=
  | Normal (s : S)
  | Thrown (s : S).
Arguments Normal {S} s.
Arguments Thrown {S} s.

Definition state_of {S} (c : completion S) : S :=
  match c with Normal s | Thrown s => s end.

(** [try { ... } catch (error) { console.error(...) }] *)
Definition caught {S} (c : completion S) : S := state_of c.

Module Buffer.
Import JS Json.

(** The four named series of one data group, each an array of points. *)
Abbreviation group := (gmap string (list jsval)).

(** [if (buf.length > maxPoints) buf = buf.slice(-maxPoints)] *)
Definition limit (maxPoints : Z) (buf : list jsval) : list jsval :=
  if (maxPoints <? Z.of_nat (length buf))%Z
  then slice_from buf (- maxPoints)
  else buf.

Record ChartsManager : Type := MkChartsManager {
  isInitialized : bool;
  ppieChart : bool;   (* whether the chart instance exists (container found) *)
  vvieChart : bool;
  ppie : group;       (* dataBuffer.ppie *)
  vvie : group;       (* dataBuffer.vvie *)
  maxDataPoints : Z
}.

Definition empty_group (names : list string) : group :=
  list_to_map ((fun name => (name, [])) <$> names).

Definition ppie_names : list string :=
  ["p_data"; "pib_data"; "psd_data"; "peb_data"].
Definition vvie_names : list string :=
  ["v_data"; "vib_data"; "vsd_data"; "veb_data"].

(** The constructor, for a page that has both chart containers. *)
Definition new_ChartsManager : ChartsManager :=
  MkChartsManager true true true
    (empty_group ppie_names) (empty_group vvie_names) 1000.

(** The names every object inherits from [Object.prototype]: reading one
    of them on a buffer group finds the inherited member, which is truthy
    and has no [push]. *)
Definition inherited_names : list string :=
  ["constructor"; "hasOwnProperty"; "isPrototypeOf"; "propertyIsEnumerable";
   "toLocaleString"; "toString"; "valueOf"; "__proto__"; "__defineGetter__";
   "__defineSetter__"; "__lookupGetter__"; "__lookupSetter__"].

Definition inherited (name : string) : bool :=
  bool_decide (name ∈ inherited_names).

(** The loop over [Object.entries(groupData)] with the body
    [if (buffer[key] && Array.isArray(value)) { buffer[key].push(...value);
    if (buffer[key].length > max) buffer[key] = buffer[key].slice(-max) }].
    The loop stops at a TypeError, keeping what it has done. *)
Fixpoint push_entries (maxPoints : Z) (buffer : group)
    (es : list (string * jsval)) : completion group :=
  match es with
  | [] => Normal buffer
  | (key, value) :: rest =>
      match buffer !! key with
      | Some buf =>
          match value with
          | VArr items =>
              push_entries maxPoints
                (<[key := limit maxPoints (buf ++ items)]> buffer) rest
          | _ => push_entries maxPoints buffer rest
          end
      | None =>
          if inherited key && isArray value then Thrown buffer
          else push_entries maxPoints buffer rest
      end
  end.

Definition set_ppie (g : group) (cm : ChartsManager) : ChartsManager :=
  MkChartsManager (isInitialized cm) (ppieChart cm) (vvieChart cm)
    g (vvie cm) (maxDataPoints cm).

Definition set_vvie (g : group) (cm : ChartsManager) : ChartsManager :=
  MkChartsManager (isInitialized cm) (ppieChart cm) (vvieChart cm)
    (ppie cm) g (maxDataPoints cm).

(** [updatePPIEData(ppieData)]: the buffers are updated first, then the
    chart is redrawn; [this.ppieChart.setOption] throws when the chart
    instance is [null]. *)
Definition updatePPIEData (cm : ChartsManager) (ppieData : jsval)
    : completion ChartsManager :=
  match entries ppieData with
  | None => Thrown cm
  | Some es =>
      match push_entries (maxDataPoints cm) (ppie cm) es with
      | Thrown g => Thrown (set_ppie g cm)
      | Normal g =>
          if ppieChart cm then Normal (set_ppie g cm)
          else Thrown (set_ppie g cm)
      end
  end.

Definition updateVVIEData (cm : ChartsManager) (vvieData : jsval)
    : completion ChartsManager :=
  match entries vvieData with
  | None => Thrown cm
  | Some es =>
      match push_entries (maxDataPoints cm) (vvie cm) es with
      | Thrown g => Thrown (set_vvie g cm)
      | Normal g =>
          if vvieChart cm then Normal (set_vvie g cm)
          else Thrown (set_vvie g cm)
      end
  end.

(** The [try] block of [updateChartsData]. *)
Definition updateChartsData_try (cm : ChartsManager) (newData : jsval)
    : completion ChartsManager :=
  match prop newData "ppie_group" with
  | None => Thrown cm
  | Some ppie_group =>
      let after_ppie :=
        if truthy ppie_group then updatePPIEData cm ppie_group
        else Normal cm in
      match after_ppie with
      | Thrown cm1 => Thrown cm1
      | Normal cm1 =>
          match prop newData "vvie_group" with
          | None => Thrown cm1
          | Some vvie_group =>
              if truthy vvie_group then updateVVIEData cm1 vvie_group
              else Normal cm1
          end
      end
  end.

Definition updateChartsData (cm : ChartsManager) (newData : jsval)
    : ChartsManager :=
  if negb (isInitialized cm) then cm
  else caught (updateChartsData_try cm newData).

(** The series [name] of the price group after a run of packets. *)
Definition ppie_series (cm : ChartsManager) (name : string) : list jsval :=
  default [] (ppie cm !! name).

(** A packet that carries the batch [values] for the price series [name]. *)
Definition ppie_packet (name : string) (values : list jsval) : jsval :=
  VObj [("ppie_group", VObj [(name, VArr values)])].

(** The last [n] elements of a list, in order. *)
Definition last_n {A} (n : nat) (l : list A) : list A :=
  drop (length l - n) l.

(** A manager whose capacity field has been set to [c]. *)
Definition with_capacity (c : Z) (cm : ChartsManager) : ChartsManager :=
  MkChartsManager (isInitialized cm) (ppieChart cm) (vvieChart cm)
    (ppie cm) (vvie cm) c.

(** The point [[t, t]]. *)
Definition point (t : float) : jsval := VArr [VNum t; VNum t].

(** Every series of a group is within the capacity. *)
Definition bounded (maxPoints : Z) (g : group) : Prop :=
  map_Forall (fun _ buf => (Z.of_nat (length buf) <= maxPoints)%Z) g.

(** The invariant of the chart manager: both groups within capacity. *)
Definition cm_bounded (cm : ChartsManager) : Prop :=
  bounded (maxDataPoints cm) (ppie cm) /\ bounded (maxDataPoints cm) (vvie cm).

(** The series [name] of the volume group. *)
Definition vvie_series (cm : ChartsManager) (name : string) : list jsval :=
  default [] (vvie cm !! name).

(** A manager whose constructor found both chart containers. *)
Definition cm_ready (cm : ChartsManager) : Prop :=
  isInitialized cm = true /\ ppieChart cm = true /\ vvieChart cm = true.

(** The points that the entries [es] of a group hold for the series
    [name]: the arrays under that name, in the order of the entries. *)
Definition batches_for (name : string) (es : list (string * jsval))
    : list jsval :=
  List.concat
    (omap (fun e : string * jsval =>
             if String.eqb e.1 name
             then match e.2 with VArr items => Some items | _ => None end
             else None) es).

(** What the packet [data] carries for the series [name] of the group
    [grp], which is ["ppie_group"] or ["vvie_group"]. *)
Definition packet_batch (grp name : string) (data : jsval) : list jsval :=
  batches_for name (default [] (entries (prop_opt data grp))).

(** No array sits under a name that objects inherit from
    [Object.prototype], such as [toString]: the one shape of a group on
    which the update loop raises a TypeError. *)
Definition plain_group (groupData : jsval) : bool :=
  forallb (fun e : string * jsval => negb (inherited e.1 && isArray e.2))
          (default [] (entries groupData)).

Definition plain_packet (data : jsval) : bool :=
  plain_group (prop_opt data "ppie_group")
  && plain_group (prop_opt data "vvie_group").

(** Two series-wise descriptions of a group after an update: every series
    holds the last [maxPoints] points of what it held followed by the batch
    given for it, or by some appended points. *)
Definition exact_after (maxPoints : Z) (g g' : group)
    (batch : string -> list jsval) : Prop :=
  forall name held,
    g !! name = Some held ->
    (Z.of_nat (length held) <= maxPoints)%Z ->
    g' !! name = Some (last_n (Z.to_nat maxPoints) (held ++ batch name)).

Definition suffix_after (maxPoints : Z) (g g' : group) : Prop :=
  forall name held,
    g !! name = Some held ->
    (Z.of_nat (length held) <= maxPoints)%Z ->
    exists added,
      g' !! name = Some (last_n (Z.to_nat maxPoints) (held ++ added)).

(** [for (const key of Object.keys(group)) group[key] = []] *)
Definition clear_group (g : group) : group := (fun _ => []) <$> g.

(** [clearChartsData()]: the redraws are guarded by [if (this.ppieChart)]
    and cannot throw. *)
Definition clearChartsData (cm : ChartsManager) : ChartsManager :=
  MkChartsManager (isInitialized cm) (ppieChart cm) (vvieChart cm)
    (clear_group (ppie cm)) (clear_group (vvie cm)) (maxDataPoints cm).

(** [for (const series of Object.values(group)) totalPoints += series.length]:
    a sum of integers, the same in every order of the keys. *)
Definition group_points (g : group) : Z :=
  map_fold (fun _ series total => (total + Z.of_nat (length series))%Z) 0%Z g.

(** The result of [calculateMemoryUsage()], without the formatted [mb]
    string. *)
Record memory_usage : Type := MkMemoryUsage {
  points : Z;
  bytes : Z
}.

Definition calculateMemoryUsage (cm : ChartsManager) : memory_usage :=
  let totalPoints := (group_points (ppie cm) + group_points (vvie cm))%Z in
  MkMemoryUsage totalPoints (totalPoints * 16).

(** [destroy()]: both chart instances are disposed of and set to [null];
    the buffers are left as they are. *)
Definition destroy (cm : ChartsManager) : ChartsManager :=
  MkChartsManager false false false (ppie cm) (vvie cm) (maxDataPoints cm).

(** A manager built on a page where the price chart's container is
    missing: [initCharts] skips that chart and still completes. *)
Definition without_ppieChart (cm : ChartsManager) : ChartsManager :=
  MkChartsManager (isInitialized cm) false (vvieChart cm) (ppie cm) (vvie cm)
    (maxDataPoints cm).

Definition with_ppieChart (cm : ChartsManager) : ChartsManager :=
  MkChartsManager (isInitialized cm) true (vvieChart cm) (ppie cm) (vvie cm)
    (maxDataPoints cm).

End Buffer.

(** ** The dual-grid controller ([GridController]) *)

Module Grid.
Import JS Json.
Export Buffer (group, limit, empty_group, last_n).

Record GridController : Type := MkGridController {
  isInitialized : bool;
  isUpdating : bool;
  grid1Chart : bool;    (* charts.grid1 is not null *)
  grid2Chart : bool;
  grid1Visible : bool;  (* state.grid1Visible *)
  grid2Visible : bool;
  grid1 : group;        (* dataBuffer.grid1 *)
  grid2 : group;        (* dataBuffer.grid2 *)
  maxDataPoints : Z;    (* config.maxDataPoints *)
  updateCount : Z;      (* performance.updateCount *)
  dataUpdates : Z       (* onDataUpdate events delivered so far *)
}.

Definition grid1_names : list string :=
  ["p_data"; "pib_data"; "psd_data"; "peb_data"].
Definition grid2_names : list string :=
  ["v_data"; "vib_data"; "vsd_data"; "veb_data"].

(** The controller once [init] has completed with both containers. *)
Definition new_GridController : GridController :=
  MkGridController true false true true true true
    (empty_group grid1_names) (empty_group grid2_names) 1000 0 0.

Definition set_isUpdating (b : bool) (s : GridController) : GridController :=
  MkGridController (isInitialized s) b (grid1Chart s) (grid2Chart s)
    (grid1Visible s) (grid2Visible s) (grid1 s) (grid2 s) (maxDataPoints s)
    (updateCount s) (dataUpdates s).

Definition set_grid1 (g : group) (s : GridController) : GridController :=
  MkGridController (isInitialized s) (isUpdating s) (grid1Chart s)
    (grid2Chart s) (grid1Visible s) (grid2Visible s) g (grid2 s)
    (maxDataPoints s) (updateCount s) (dataUpdates s).

Definition set_grid2 (g : group) (s : GridController) : GridController :=
  MkGridController (isInitialized s) (isUpdating s) (grid1Chart s)
    (grid2Chart s) (grid1Visible s) (grid2Visible s) (grid1 s) g
    (maxDataPoints s) (updateCount s) (dataUpdates s).

(** [updatePerformanceStats]: the counter; the two timing averages are
    clock readings and are not part of the model. *)
Definition updatePerformanceStats (s : GridController) : GridController :=
  MkGridController (isInitialized s) (isUpdating s) (grid1Chart s)
    (grid2Chart s) (grid1Visible s) (grid2Visible s) (grid1 s) (grid2 s)
    (maxDataPoints s) (updateCount s + 1) (dataUpdates s).

Definition emit_onDataUpdate (s : GridController) : GridController :=
  MkGridController (isInitialized s) (isUpdating s) (grid1Chart s)
    (grid2Chart s) (grid1Visible s) (grid2Visible s) (grid1 s) (grid2 s)
    (maxDataPoints s) (updateCount s) (dataUpdates s + 1).

(** [validateDataFormat(data)] *)
Definition validateDataFormat (data : jsval) : bool :=
  if negb (truthy data) || negb (typeof_object data) then false
  else truthy (prop_opt data "ppie") || truthy (prop_opt data "vvie").

(** [if (groupData.F !== undefined) buffer.key.push([timestamp, groupData.F])] *)
Definition push_field (groupData : jsval) (timestamp : jsval)
    (buffer : group) (field : string * string) : group :=
  let v := prop_opt groupData field.1 in
  if not_undefined v
  then alter (fun buf => buf ++ [VArr [timestamp; v]]) field.2 buffer
  else buffer.

(** [limitDataBuffer(gridId)]: every series of the grid is cut down. *)
Definition limitDataBuffer (maxPoints : Z) (buffer : group) : group :=
  limit maxPoints <$> buffer.

(** [metadata?.timestamp || Date.now()] *)
Definition packet_timestamp (now : float) (metadata : jsval) : jsval :=
  let t := prop_opt metadata "timestamp" in
  if truthy t then t else VNum now.

Definition grid1_fields : list (string * string) :=
  [("P", "p_data"); ("PIB", "pib_data"); ("PSD", "psd_data");
   ("PEB", "peb_data")].
Definition grid2_fields : list (string * string) :=
  [("V", "v_data"); ("VIB", "vib_data"); ("VSD", "vsd_data");
   ("VEB", "veb_data")].

Definition updateGridBuffer (fields : list (string * string)) (maxPoints : Z)
    (now : float) (buffer : group) (groupData metadata : jsval) : group :=
  let timestamp := packet_timestamp now metadata in
  limitDataBuffer maxPoints
    (fold_left (push_field groupData timestamp) fields buffer).

Definition updateGrid1Data (now : float) (s : GridController)
    (ppieData metadata : jsval) : GridController :=
  set_grid1 (updateGridBuffer grid1_fields (maxDataPoints s) now (grid1 s)
                              ppieData metadata) s.

Definition updateGrid2Data (now : float) (s : GridController)
    (vvieData metadata : jsval) : GridController :=
  set_grid2 (updateGridBuffer grid2_fields (maxDataPoints s) now (grid2 s)
                              vvieData metadata) s.

(** The guard at the top of [updateChartsData]. *)
Definition busy (s : GridController) : bool :=
  negb (isInitialized s) || isUpdating s.

(** The [try] block up to [updatePerformanceStats], entered with
    [isUpdating] set: [(false, s)] is the early [return false] on an invalid
    packet. *)
Definition cycle_body (now : float) (s : GridController) (data : jsval)
    : bool * GridController :=
  if negb (validateDataFormat data) then (false, s)
  else
    let ppieData := prop_opt data "ppie" in
    let vvieData := prop_opt data "vvie" in
    let metadata := prop_opt data "metadata" in
    let s1 :=
      if truthy ppieData && grid1Chart s && grid1Visible s
      then updateGrid1Data now s ppieData metadata else s in
    let s2 :=
      if truthy vvieData && grid2Chart s1 && grid2Visible s1
      then updateGrid2Data now s1 vvieData metadata else s1 in
    (true, updatePerformanceStats s2).

(** [updateChartsData(data)].  The listeners of [onDataUpdate] run inside
    the cycle, before the [finally] block clears [isUpdating]; a listener
    may submit packets of its own, which re-enters [updateChartsData].
    [listeners] lists the packets so submitted; [fuel] bounds the nesting
    of calls ([None] when it runs out). *)
Fixpoint updateChartsData (fuel : nat) (listeners : list jsval) (now : float)
    (s : GridController) (data : jsval) : option (bool * GridController) :=
  match fuel with
  | O => None
  | S fuel' =>
      if busy s then Some (false, s)
      else
        let '(ok, s1) := cycle_body now (set_isUpdating true s) data in
        if ok then
          s2 ← foldl (fun acc request =>
                        a ← acc;
                        snd <$> updateChartsData fuel' listeners now a request)
                     (Some (emit_onDataUpdate s1)) listeners;
          Some (true, set_isUpdating false s2)
        else Some (false, set_isUpdating false s1)
  end.

(** The same call when no listener submits anything. *)
Definition updateChartsData_plain (now : float) (s : GridController)
    (data : jsval) : bool * GridController :=
  if busy s then (false, s)
  else
    let '(ok, s1) := cycle_body now (set_isUpdating true s) data in
    if ok then (true, set_isUpdating false (emit_onDataUpdate s1))
    else (false, set_isUpdating false s1).

(** A tick that carries the value [v] for the price field [P]. *)
Definition tick (timestamp : jsval) (v : jsval) : jsval :=
  VObj [("metadata", VObj [("timestamp", timestamp)]);
        ("ppie", VObj [("P", v)])].

(** The point that tick pushes onto [p_data]. *)
Definition tick_point (now : float) (t : jsval * jsval) : jsval :=
  VArr [packet_timestamp now (VObj [("timestamp", t.1)]); t.2].

Definition grid1_series (s : GridController) (name : string) : list jsval :=
  default [] (grid1 s !! name).

(** The invariant of the grid controller: both grids within capacity. *)
Definition gc_bounded (s : GridController) : Prop :=
  Buffer.bounded (maxDataPoints s) (grid1 s)
  /\ Buffer.bounded (maxDataPoints s) (grid2 s).

(** A controller that is ready to take a tick for the upper grid. *)
Definition gc_ready (s : GridController) : Prop :=
  isInitialized s = true /\ isUpdating s = false
  /\ grid1Chart s = true /\ grid1Visible s = true.

(** Ticks processed one after another. *)
Definition feed_ticks (now : float) (ticks : list (jsval * jsval))
    (s : GridController) : GridController :=
  fold_left (fun acc t => (updateChartsData_plain now acc (tick t.1 t.2)).2)
            ticks s.

(** Packets of any shape processed one after another. *)
Definition feed (now : float) (packets : list jsval) (s : GridController)
    : GridController :=
  fold_left (fun acc data => (updateChartsData_plain now acc data).2) packets s.

(** Packets processed one after another, each with the clock reading of its
    own update. *)
Definition run_packets (packets : list (float * jsval)) (s : GridController)
    : GridController :=
  fold_left (fun acc p => (updateChartsData_plain p.1 acc p.2).2) packets s.

Definition grid2_series (s : GridController) (name : string) : list jsval :=
  default [] (grid2 s !! name).

(** A controller that is idle, with both charts present and visible. *)
Definition gc_ready_all (s : GridController) : Prop :=
  isInitialized s = true /\ isUpdating s = false
  /\ grid1Chart s = true /\ grid1Visible s = true
  /\ grid2Chart s = true /\ grid2Visible s = true.

(** The point that the packet [data] pushes onto the series of the field
    [F] of the group [grp], which is ["ppie"] or ["vvie"]: none when the
    packet fails the format check, when the group is missing, or when the
    field is [undefined]. *)
Definition packet_points (now : float) (grp F : string) (data : jsval)
    : list jsval :=
  if validateDataFormat data && truthy (prop_opt data grp) then
    let v := prop_opt (prop_opt data grp) F in
    if not_undefined v
    then [VArr [packet_timestamp now (prop_opt data "metadata"); v]]
    else []
  else [].

(** [setGridVisibility(gridId, visible)]; [visible] stands for the
    truthiness of the value passed, which is all the update guard reads. *)
Definition setGridVisibility (gridId : string) (visible : bool)
    (s : GridController) : GridController :=
  if String.eqb gridId "grid1" then
    MkGridController (isInitialized s) (isUpdating s) (grid1Chart s)
      (grid2Chart s) visible (grid2Visible s) (grid1 s) (grid2 s)
      (maxDataPoints s) (updateCount s) (dataUpdates s)
  else if String.eqb gridId "grid2" then
    MkGridController (isInitialized s) (isUpdating s) (grid1Chart s)
      (grid2Chart s) (grid1Visible s) visible (grid1 s) (grid2 s)
      (maxDataPoints s) (updateCount s) (dataUpdates s)
  else s.

(** [clearChartsData()]: the redraws are guarded and cannot throw. *)
Definition clearChartsData (s : GridController) : GridController :=
  set_grid2 (Buffer.clear_group (grid2 s))
    (set_grid1 (Buffer.clear_group (grid1 s)) s).

(** [getMemoryUsage().totalDataPoints] *)
Definition totalDataPoints (s : GridController) : Z :=
  (Buffer.group_points (grid1 s) + Buffer.group_points (grid2 s))%Z.

(** [destroy()] *)
Definition destroy (s : GridController) : GridController :=
  MkGridController false false false false (grid1Visible s) (grid2Visible s)
    (Buffer.clear_group (grid1 s)) (Buffer.clear_group (grid2 s))
    (maxDataPoints s) (updateCount s) (dataUpdates s).

End Grid.

(** ** The connection manager ([WebSocketManager]) *)

Module Socket.
Import JS Json.

(** The argument of [updateConnectionStatus]. *)
Inductive status : Type :=
  | Connected
  | Connecting
  | Disconnected
  | Reconnecting
  | Error
  | Failed.

(** What the manager writes to the console, as far as the claims go. *)
Inductive log_line : Type :=
  | WarnInvalidData (data : jsval)
  | WarnAlreadyConnected
  | LogReconnect (delay attempt : Z)
  | ErrorMaxReconnect.

Record WebSocketManager : Type := MkWebSocketManager {
  isConnected : bool;
  isConnecting : bool;
  reconnectAttempts : Z;
  maxReconnectAttempts : Z;
  reconnectDelay : Z;        (* milliseconds *)
  maxReconnectDelay : Z;
  lastDataTime : option Z;
  receivedDataCount : Z;
  lastStatus : option status; (* the last status shown and broadcast *)
  timers : list Z;           (* pending [setTimeout] reconnects, by delay *)
  dataEvents : list jsval;   (* packets handed to the [onData] listeners *)
  errorEvents : nat;         (* [onError] broadcasts *)
  console : list log_line
}.

(** The constructor. *)
Definition new_WebSocketManager : WebSocketManager :=
  MkWebSocketManager false false 0 10 1000 30000 None 0 None [] [] 0 [].

Definition with_flags (connected connecting : bool) (s : WebSocketManager)
    : WebSocketManager :=
  MkWebSocketManager connected connecting (reconnectAttempts s)
    (maxReconnectAttempts s) (reconnectDelay s) (maxReconnectDelay s)
    (lastDataTime s) (receivedDataCount s) (lastStatus s) (timers s)
    (dataEvents s) (errorEvents s) (console s).

Definition with_attempts (n : Z) (s : WebSocketManager) : WebSocketManager :=
  MkWebSocketManager (isConnected s) (isConnecting s) n
    (maxReconnectAttempts s) (reconnectDelay s) (maxReconnectDelay s)
    (lastDataTime s) (receivedDataCount s) (lastStatus s) (timers s)
    (dataEvents s) (errorEvents s) (console s).

Definition with_timers (ts : list Z) (s : WebSocketManager)
    : WebSocketManager :=
  MkWebSocketManager (isConnected s) (isConnecting s) (reconnectAttempts s)
    (maxReconnectAttempts s) (reconnectDelay s) (maxReconnectDelay s)
    (lastDataTime s) (receivedDataCount s) (lastStatus s) ts
    (dataEvents s) (errorEvents s) (console s).

Definition with_data (now : Z) (data : jsval) (s : WebSocketManager)
    : WebSocketManager :=
  MkWebSocketManager (isConnected s) (isConnecting s) (reconnectAttempts s)
    (maxReconnectAttempts s) (reconnectDelay s) (maxReconnectDelay s)
    (Some now) (receivedDataCount s + 1) (lastStatus s) (timers s)
    (dataEvents s ++ [data]) (errorEvents s) (console s).

Definition with_lastDataTime (now : Z) (s : WebSocketManager)
    : WebSocketManager :=
  MkWebSocketManager (isConnected s) (isConnecting s) (reconnectAttempts s)
    (maxReconnectAttempts s) (reconnectDelay s) (maxReconnectDelay s)
    (Some now) (receivedDataCount s) (lastStatus s) (timers s)
    (dataEvents s) (errorEvents s) (console s).

Definition updateConnectionStatus (st : status) (s : WebSocketManager)
    : WebSocketManager :=
  MkWebSocketManager (isConnected s) (isConnecting s) (reconnectAttempts s)
    (maxReconnectAttempts s) (reconnectDelay s) (maxReconnectDelay s)
    (lastDataTime s) (receivedDataCount s) (Some st) (timers s)
    (dataEvents s) (errorEvents s) (console s).

Definition emit_onError (s : WebSocketManager) : WebSocketManager :=
  MkWebSocketManager (isConnected s) (isConnecting s) (reconnectAttempts s)
    (maxReconnectAttempts s) (reconnectDelay s) (maxReconnectDelay s)
    (lastDataTime s) (receivedDataCount s) (lastStatus s) (timers s)
    (dataEvents s) (S (errorEvents s)) (console s).

Definition log (l : log_line) (s : WebSocketManager) : WebSocketManager :=
  MkWebSocketManager (isConnected s) (isConnecting s) (reconnectAttempts s)
    (maxReconnectAttempts s) (reconnectDelay s) (maxReconnectDelay s)
    (lastDataTime s) (receivedDataCount s) (lastStatus s) (timers s)
    (dataEvents s) (errorEvents s) (console s ++ [l]).

(** [connect()] *)
Definition connect (s : WebSocketManager) : WebSocketManager :=
  if isConnected s || isConnecting s then log WarnAlreadyConnected s
  else updateConnectionStatus Connecting (with_flags (isConnected s) true s).

(** [disconnect()] *)
Definition disconnect (s : WebSocketManager) : WebSocketManager :=
  if negb (isConnected s) && negb (isConnecting s) then s
  else updateConnectionStatus Disconnected (with_flags false false s).

(** The delay [Math.min(reconnectDelay * Math.pow(2, attempts - 1),
    maxReconnectDelay)], on integers: the product of two integers is exact
    in doubles below 2^53, far above any delay cap, and [attempts] is at
    least 1 here. *)
Definition backoff_delay (s : WebSocketManager) (attempts : Z) : Z :=
  Z.min (reconnectDelay s * 2 ^ (attempts - 1)) (maxReconnectDelay s).

(** [scheduleReconnect()] *)
Definition scheduleReconnect (s : WebSocketManager) : WebSocketManager :=
  if (maxReconnectAttempts s <=? reconnectAttempts s)%Z then
    updateConnectionStatus Failed (log ErrorMaxReconnect s)
  else
    let s1 := with_attempts (reconnectAttempts s + 1) s in
    let delay := backoff_delay s1 (reconnectAttempts s1) in
    with_timers (timers s1 ++ [delay])
      (updateConnectionStatus Reconnecting
         (log (LogReconnect delay (reconnectAttempts s1)) s1)).

(** The callback of the reconnect timer: [if (!this.isConnected)
    this.connect()].  The oldest pending timer fires. *)
Definition timer_fired (s : WebSocketManager) : WebSocketManager :=
  match timers s with
  | [] => s
  | _ :: rest =>
      let s1 := with_timers rest s in
      if negb (isConnected s1) then connect s1 else s1
  end.

(** The handler of the transport's [connect] event. *)
Definition on_connect (now : Z) (s : WebSocketManager) : WebSocketManager :=
  updateConnectionStatus Connected
    (with_lastDataTime now (with_attempts 0 (with_flags true false s))).

(** The handler of the transport's [disconnect] event. *)
Definition on_disconnect (reason : string) (s : WebSocketManager)
    : WebSocketManager :=
  let s1 := updateConnectionStatus Disconnected (with_flags false false s) in
  if negb (String.eqb reason "io client disconnect")
  then scheduleReconnect s1 else s1.

(** The handler of the transport's [connect_error] event. *)
Definition on_connect_error (s : WebSocketManager) : WebSocketManager :=
  scheduleReconnect
    (emit_onError
       (updateConnectionStatus Error (with_flags (isConnected s) false s))).

(** *** Packet validation *)

Definition requiredPpieFields : list string :=
  ["p_data"; "pib_data"; "psd_data"; "peb_data"].
Definition requiredVvieFields : list string :=
  ["v_data"; "vib_data"; "vsd_data"; "veb_data"].

(** [fields.every(field => Array.isArray(group[field]))]; [None] is a
    TypeError raised by a property read. *)
Fixpoint every_isArray (grp : jsval) (fields : list string) : option bool :=
  match fields with
  | [] => Some true
  | field :: rest =>
      v ← prop grp field;
      if isArray v then every_isArray grp rest else Some false
  end.

(** [validateRealtimeData(data)]; [None] is a TypeError. *)
Definition validateRealtimeData (data : jsval) : option bool :=
  if negb (truthy data) || negb (typeof_object data) then Some false
  else
    metadata ← prop data "metadata";
    if negb (truthy metadata) then Some false
    else
      ppieGroup ← prop data "ppie_group";
      if negb (truthy ppieGroup) then Some false
      else
        vvieGroup ← prop data "vvie_group";
        if negb (truthy vvieGroup) then Some false
        else
          timestamp ← prop metadata "timestamp";
          if negb (truthy timestamp) then Some false
          else
            sequence_id ← prop metadata "sequence_id";
            if negb (truthy sequence_id) then Some false
            else
              ppie_ok ← every_isArray ppieGroup requiredPpieFields;
              if negb ppie_ok then Some false
              else every_isArray vvieGroup requiredVvieFields.

(** Whether [v] has a property [name] whose value satisfies [p]. *)
Definition has (v : jsval) (name : string) (p : jsval -> bool) : bool :=
  match prop v name with
  | Some x => p x
  | None => false
  end.

(** Acceptance as the specification words it: a metadata block with a
    numeric timestamp and a numeric sequence id, and each of the four
    expected series of both groups present as a sequence. *)
Definition spec_valid (data : jsval) : bool :=
  match prop data "metadata", prop data "ppie_group",
        prop data "vvie_group" with
  | Some metadata, Some ppieGroup, Some vvieGroup =>
      has metadata "timestamp" typeof_number
      && has metadata "sequence_id" typeof_number
      && forallb (fun field => has ppieGroup field isArray) requiredPpieFields
      && forallb (fun field => has vvieGroup field isArray) requiredVvieFields
  | _, _, _ => false
  end.

(** Acceptance as the code decides it, in the same words: the packet is an
    object, its metadata block and both groups are present and truthy, the
    timestamp and the sequence id are present and truthy (of any type, so
    not 0 and not the empty string), and each of the four expected series
    of both groups is an array. *)
Definition accepts (data : jsval) : bool :=
  truthy data && typeof_object data
  && has data "metadata" truthy
  && has data "ppie_group" truthy
  && has data "vvie_group" truthy
  && has (prop_opt data "metadata") "timestamp" truthy
  && has (prop_opt data "metadata") "sequence_id" truthy
  && forallb (fun field => has (prop_opt data "ppie_group") field isArray)
             requiredPpieFields
  && forallb (fun field => has (prop_opt data "vvie_group") field isArray)
             requiredVvieFields.

(** [handleRealtimeData(data)].  The [onData] listeners act on the rest of
    the page, a state of type [X]; [onData data x] is what they do to it.  A
    TypeError inside the [try] block would be caught and broadcast as
    [onError]. *)
Definition handleRealtimeData {X} (onData : jsval -> X -> X) (now : Z)
    (data : jsval) (p : WebSocketManager * X) : WebSocketManager * X :=
  match validateRealtimeData data with
  | None => (emit_onError p.1, p.2)
  | Some false => (log (WarnInvalidData data) p.1, p.2)
  | Some true => (with_data now data p.1, onData data p.2)
  end.

(** *** Traces *)

(** What can happen to the manager. *)
Inductive input : Type :=
  | CallConnect
  | CallDisconnect
  | SockConnect (now : Z)
  | SockDisconnect (reason : string)
  | SockConnectError
  | TimerFired.

Definition step (s : WebSocketManager) (i : input) : WebSocketManager :=
  match i with
  | CallConnect => connect s
  | CallDisconnect => disconnect s
  | SockConnect now => on_connect now s
  | SockDisconnect reason => on_disconnect reason s
  | SockConnectError => on_connect_error s
  | TimerFired => timer_fired s
  end.

Definition run (s : WebSocketManager) (inputs : list input)
    : WebSocketManager :=
  fold_left step inputs s.

(** [n] connection attempts in a row that all fail: the first is the
    user's [connect()], each later one is started by the reconnect timer. *)
Fixpoint failures (n : nat) : list input :=
  match n with
  | O => []
  | S m =>
      match m with
      | O => [CallConnect; SockConnectError]
      | S _ => failures m ++ [TimerFired; SockConnectError]
      end
  end.

(** The events that need neither a call to [connect()] nor a live
    connection: [disconnect()], a reconnect timer, a connection error, and a
    disconnect that the client did not ask for. *)
Definition without_connect (i : input) : bool :=
  match i with
  | CallDisconnect | TimerFired | SockConnectError => true
  | SockDisconnect reason => negb (String.eqb reason "io client disconnect")
  | CallConnect | SockConnect _ => false
  end.

(** The failed state at rest: retries exhausted, nothing in flight and no
    reconnect timer pending. *)
Definition failed_at_rest (s : WebSocketManager) : Prop :=
  lastStatus s = Some Failed /\ isConnected s = false
  /\ isConnecting s = false
  /\ (maxReconnectAttempts s <= reconnectAttempts s)%Z
  /\ timers s = [].

(** The delays of the reconnects scheduled so far, as logged, in order. *)
Definition reconnect_delays (s : WebSocketManager) : list Z :=
  omap (fun l => match l with LogReconnect delay _ => Some delay | _ => None end)
       (console s).

(** What every event preserves, relative to the manager [s0] the trace
    started from. *)
Definition socket_inv (s0 s : WebSocketManager) : Prop :=
  maxReconnectAttempts s = maxReconnectAttempts s0
  /\ reconnectDelay s = reconnectDelay s0
  /\ maxReconnectDelay s = maxReconnectDelay s0
  /\ (0 <= reconnectAttempts s <= maxReconnectAttempts s0)%Z
  /\ isConnected s && isConnecting s = false
  /\ Forall (fun d => (d <= maxReconnectDelay s0)%Z) (timers s)
  /\ (lastStatus s = Some Failed ->
      reconnectAttempts s = maxReconnectAttempts s0).

(** *** History responses and statistics *)

(** [triggerCallback('onData', data)] on its own, as the history handler
    calls it: the counters of received packets are not touched. *)
Definition emit_onData (data : jsval) (s : WebSocketManager)
    : WebSocketManager :=
  MkWebSocketManager (isConnected s) (isConnecting s) (reconnectAttempts s)
    (maxReconnectAttempts s) (reconnectDelay s) (maxReconnectDelay s)
    (lastDataTime s) (receivedDataCount s) (lastStatus s) (timers s)
    (dataEvents s ++ [data]) (errorEvents s) (console s).

(** [v === 'success'] and the like *)
Definition is_string (v : jsval) (str : string) : bool :=
  match v with VStr x => String.eqb x str | _ => false end.

(** [handleHistoryResponse(response)].  Reading [response.status] on
    [undefined] or [null] throws inside the [try] block, and the [catch]
    block broadcasts [onError]. *)
Definition handleHistoryResponse {X} (onData : jsval -> X -> X)
    (response : jsval) (p : WebSocketManager * X) : WebSocketManager * X :=
  match prop response "status" with
  | None => (emit_onError p.1, p.2)
  | Some st =>
      if is_string st "success" then
        let data := prop_opt response "data" in
        (emit_onData data p.1, onData data p.2)
      else (emit_onError p.1, p.2)
  end.

(** [resetStatistics()] *)
Definition resetStatistics (s : WebSocketManager) : WebSocketManager :=
  MkWebSocketManager (isConnected s) (isConnecting s) (reconnectAttempts s)
    (maxReconnectAttempts s) (reconnectDelay s) (maxReconnectDelay s)
    None 0 (lastStatus s) (timers s)
    (dataEvents s) (errorEvents s) (console s).

Inductive quality : Type :=
  | QualityDisconnected
  | QualityGood
  | QualityFair
  | QualityPoor.

(** [getNetworkQuality()] at the clock reading [now]: the [quality] field
    and [timeSinceLastData].  With no packet time recorded
    [timeSinceLastData] is [null], and a comparison [null > n] reads
    [null] as 0. *)
Definition getNetworkQuality (now : Z) (s : WebSocketManager)
    : quality * option Z :=
  if negb (isConnected s) then (QualityDisconnected, None)
  else
    let timeSinceLastData := (fun t => now - t)%Z <$> lastDataTime s in
    let elapsed := default 0%Z timeSinceLastData in
    let q :=
      if (10000 <? elapsed)%Z then QualityPoor
      else if (5000 <? elapsed)%Z then QualityFair
      else QualityGood in
    (q, timeSinceLastData).

(** What the transport can deliver to the two data handlers. *)
Inductive transport_event : Type :=
  | RealtimeData (now : Z) (data : jsval)
  | HistoryResponse (response : jsval).

Definition receive {X} (onData : jsval -> X -> X)
    (p : WebSocketManager * X) (e : transport_event) : WebSocketManager * X :=
  match e with
  | RealtimeData now data => handleRealtimeData onData now data p
  | HistoryResponse response => handleHistoryResponse onData response p
  end.

(** What an event hands to the [onData] listeners, if anything. *)
Definition delivered (e : transport_event) : option jsval :=
  match e with
  | RealtimeData _ data => if accepts data then Some data else None
  | HistoryResponse response =>
      if is_string (prop_opt response "status") "success"
      then Some (prop_opt response "data") else None
  end.

Definition is_accepted_realtime (e : transport_event) : bool :=
  match e with
  | RealtimeData _ data => accepts data
  | HistoryResponse _ => false
  end.

End Socket.

(** ** Listener registries ([on], [off]) *)

Module Callbacks.
Import JS Json.

(** The [callbacks] object of [WebSocketManager] and the [eventCallbacks]
    object of the toolbar manager: an array of listeners per event name.
    Listeners are function objects, told apart by identity, here a
    number. *)
Abbreviation registry := (gmap string (list nat)).

(** [on(event, callback)]: [None] is the TypeError of calling [push] on an
    inherited member such as [callbacks.toString]. *)
Definition on (event : string) (callback : nat) (reg : registry)
    : option registry :=
  match reg !! event with
  | Some listeners => Some (<[event := listeners ++ [callback]]> reg)
  | None => if Buffer.inherited event then None else Some reg
  end.

(** [listeners.indexOf(callback)]: the first position, if any. *)
Fixpoint indexOf (callback : nat) (listeners : list nat) : option nat :=
  match listeners with
  | [] => None
  | c :: rest =>
      if Nat.eqb c callback then Some 0 else S <$> indexOf callback rest
  end.

(** [off(event, callback)]: [splice(index, 1)] at the first position. *)
Definition off (event : string) (callback : nat) (reg : registry)
    : option registry :=
  match reg !! event with
  | Some listeners =>
      match indexOf callback listeners with
      | Some i => Some (<[event := delete i listeners]> reg)
      | None => Some reg
      end
  | None => if Buffer.inherited event then None else Some reg
  end.

(** The listeners of an event, in calling order. *)
Definition listeners_of (event : string) (reg : registry) : list nat :=
  default [] (reg !! event).

End Callbacks.

(** ** The persistent cache ([DatabaseManager]) *)

Module Database.
Import JS Json.

(** A row of the [realtime_series] table. *)
Record record : Type := MkRecord {
  timestamp : jsval;
  series_name : string;
  value : jsval;
  trading_session : jsval;
  sequence_id : jsval;
  data_group : string
}.

Record DatabaseManager : Type := MkDatabaseManager {
  isInitialized : bool;
  realtime_series : list record;
  totalRecords : Z           (* cacheStats.totalRecords *)
}.

Fixpoint string_drop (n : nat) (s : string) : string :=
  match n, s with
  | O, _ => s
  | S m, String _ rest => string_drop m rest
  | S _, EmptyString => EmptyString
  end.

(** [s.replace(pat, '')]: the first occurrence of [pat] is removed. *)
Fixpoint remove_first (pat s : string) : string :=
  if String.prefix pat s then string_drop (String.length pat) s
  else
    match s with
    | EmptyString => EmptyString
    | String c rest => String c (remove_first pat rest)
    end.

(** [s.toUpperCase()], on ASCII letters. *)
Definition upper_char (c : Ascii.ascii) : Ascii.ascii :=
  let n := Ascii.nat_of_ascii c in
  if (97 <=? n)%nat && (n <=? 122)%nat then Ascii.ascii_of_nat (n - 32)
  else c.

Fixpoint toUpperCase (s : string) : string :=
  match s with
  | EmptyString => EmptyString
  | String c rest => String (upper_char c) (toUpperCase rest)
  end.

(** [seriesName.replace('_data', '').toUpperCase()] *)
Definition series_label (seriesName : string) : string :=
  toUpperCase (remove_first "_data" seriesName).

(** The element of an iterated array at [i], [undefined] past the end. *)
Definition item (items : list jsval) (i : nat) : jsval :=
  default VUndefined (items !! i).

(** The rows of one series: [for (const [pointTime, pointValue] of
    dataPoints) records.push({...})]; [None] is a TypeError (a value that
    is not iterable). *)
Definition series_records (grp : string) (session seq : jsval)
    (entry : string * jsval) : option (list record) :=
  dataPoints ← iterate entry.2;
  mapM (fun point =>
          items ← iterate point;
          Some (MkRecord (item items 0) (series_label entry.1) (item items 1)
                         session seq grp))
       dataPoints.

Definition group_records (grp : string) (session seq : jsval)
    (groupData : jsval) : option (list record) :=
  es ← entries groupData;
  (fun rows => List.concat rows) <$> mapM (series_records grp session seq) es.

(** The rows [saveRealtimeData] builds before the bulk insert; [None] when
    the [try] block throws, in which case nothing is written. *)
Definition packet_records (dataPacket : jsval) : option (list record) :=
  metadata ← prop dataPacket "metadata";
  ppie_group ← prop dataPacket "ppie_group";
  vvie_group ← prop dataPacket "vvie_group";
  _ ← prop metadata "timestamp";
  session ← prop metadata "trading_session";
  let trading_session := if truthy session then session else VStr EmptyString in
  sequence_id ← prop metadata "sequence_id";
  ppie_rows ← group_records "PPIE" trading_session sequence_id ppie_group;
  vvie_rows ← group_records "VVIE" trading_session sequence_id vvie_group;
  Some (ppie_rows ++ vvie_rows).

(** [saveRealtimeData(dataPacket)]: the write-behind insert, once it has
    settled.  A rejected promise is logged by the caller and leaves the
    table as it was. *)
Definition saveRealtimeData (db : DatabaseManager) (dataPacket : jsval)
    : DatabaseManager :=
  if negb (isInitialized db) then db
  else
    match packet_records dataPacket with
    | None => db
    | Some records =>
        MkDatabaseManager (isInitialized db) (realtime_series db ++ records)
          (totalRecords db + Z.of_nat (length records))
    end.

Definition new_DatabaseManager : DatabaseManager :=
  MkDatabaseManager true [] 0.

(** The rows a packet contributes to the table: none when building them
    throws. *)
Definition rows_of (dataPacket : jsval) : list record :=
  default [] (packet_records dataPacket).

(** What every row built for one packet carries. *)
Definition row_of (grp : string) (session seq : jsval) (r : record) : Prop :=
  data_group r = grp /\ trading_session r = session /\ sequence_id r = seq.

(** The number of points that a group carries, over all its series. *)
Definition group_size (groupData : jsval) : nat :=
  sum_list ((fun entry : string * jsval =>
               length (default [] (iterate entry.2)))
              <$> default [] (entries groupData)).

End Database.

(** ** The pipeline coordinators ([Application], [DualGridApplication]) *)

Module App.
Import JS Json.

(** The page of the single-chart layout (main.js).  [paused] is the global
    [window.isDataUpdatePaused]. *)
Record Application : Type := MkApplication {
  paused : bool;
  totalDataReceived : Z;     (* stats.totalDataReceived *)
  totalErrors : Z;           (* stats.totalErrors *)
  charts : option Buffer.ChartsManager;       (* modules.charts *)
  database : option Database.DatabaseManager  (* modules.database *)
}.

Definition set_paused (b : bool) (a : Application) : Application :=
  MkApplication b (totalDataReceived a) (totalErrors a) (charts a)
    (database a).

(** The toolbar's pause and resume actions. *)
Definition pause : Application -> Application := set_paused true.
Definition resume : Application -> Application := set_paused false.

(** [Application.handleRealtimeData(data)].  Reading [data.metadata] on
    [undefined] or [null] throws; the [catch] block counts the error. *)
Definition handleRealtimeData (data : jsval) (a : Application)
    : Application :=
  if paused a then a
  else
    let charts' := (fun cm => Buffer.updateChartsData cm data) <$> charts a in
    let database' :=
      (fun db => Database.saveRealtimeData db data) <$> database a in
    let errors :=
      match prop data "metadata" with
      | None => (totalErrors a + 1)%Z
      | Some _ => totalErrors a
      end in
    MkApplication (paused a) (totalDataReceived a + 1) errors charts'
      database'.

Definition new_Application : Application :=
  MkApplication false 0 0 (Some Buffer.new_ChartsManager)
    (Some Database.new_DatabaseManager).

(** The page of the dual-grid layout. *)
Record DualGridApplication : Type := MkDualGridApplication {
  dg_paused : bool;
  dg_totalDataReceived : Z;
  dg_totalErrors : Z;
  gridController : option Grid.GridController;
  dg_database : option Database.DatabaseManager
}.

Definition dg_set_paused (b : bool) (a : DualGridApplication)
    : DualGridApplication :=
  MkDualGridApplication b (dg_totalDataReceived a) (dg_totalErrors a)
    (gridController a) (dg_database a).

Definition dg_pause : DualGridApplication -> DualGridApplication :=
  dg_set_paused true.
Definition dg_resume : DualGridApplication -> DualGridApplication :=
  dg_set_paused false.

(** [DualGridApplication.handleRealtimeData(data)]; [now] is the clock
    reading [Date.now()] of the grid update. *)
Definition dg_handleRealtimeData (now : float) (data : jsval)
    (a : DualGridApplication) : DualGridApplication :=
  if dg_paused a then a
  else
    let grid' :=
      (fun gc => (Grid.updateChartsData_plain now gc data).2)
        <$> gridController a in
    let database' :=
      (fun db => Database.saveRealtimeData db data) <$> dg_database a in
    let errors :=
      match prop data "metadata" with
      | None => (dg_totalErrors a + 1)%Z
      | Some _ => dg_totalErrors a
      end in
    MkDualGridApplication (dg_paused a) (dg_totalDataReceived a + 1) errors
      grid' database'.

Definition new_DualGridApplication : DualGridApplication :=
  MkDualGridApplication false 0 0 (Some Grid.new_GridController)
    (Some Database.new_DatabaseManager).

(** Packets processed one after another, in arrival order. *)
Definition feed (packets : list jsval) (a : Application) : Application :=
  fold_left (fun acc data => handleRealtimeData data acc) packets a.

Definition dg_feed (packets : list (float * jsval)) (a : DualGridApplication)
    : DualGridApplication :=
  fold_left (fun acc p => dg_handleRealtimeData p.1 p.2 acc) packets a.

(** The transport's [realtime_data] event on a page whose [onData]
    listener is [Application.handleRealtimeData]. *)
Definition on_realtime_data (now : Z) (data : jsval)
    (p : Socket.WebSocketManager * Application)
    : Socket.WebSocketManager * Application :=
  Socket.handleRealtimeData handleRealtimeData now data p.

(** A packet with all eight series as empty arrays and the given timestamp
    and sequence id. *)
Definition packet_with (timestamp sequence_id : jsval) : jsval :=
  VObj [("metadata", VObj [("timestamp", timestamp);
                           ("sequence_id", sequence_id)]);
        ("ppie_group", VObj [("p_data", VArr []); ("pib_data", VArr []);
                             ("psd_data", VArr []); ("peb_data", VArr [])]);
        ("vvie_group", VObj [("v_data", VArr []); ("vib_data", VArr []);
                             ("vsd_data", VArr []); ("veb_data", VArr [])])].

(** A well-formed packet that carries the point [[t, t]] for each of the
    eight series. *)
Definition full_packet (t : float) : jsval :=
  VObj [("metadata", VObj [("timestamp", VNum t); ("sequence_id", VNum 1)]);
        ("ppie_group",
         VObj ((fun name => (name, VArr [Buffer.point t]))
                 <$> Buffer.ppie_names));
        ("vvie_group",
         VObj ((fun name => (name, VArr [Buffer.point t]))
                 <$> Buffer.vvie_names))].

(** A well-formed packet that carries one point for the price series. *)
Definition sample_packet (t : float) (v : float) : jsval :=
  VObj [("metadata", VObj [("timestamp", VNum t); ("sequence_id", VNum 1)]);
        ("ppie_group", VObj [("p_data", VArr [VArr [VNum t; VNum v]]);
                             ("pib_data", VArr []); ("psd_data", VArr []);
                             ("peb_data", VArr [])]);
        ("vvie_group", VObj [("v_data", VArr []); ("vib_data", VArr []);
                             ("vsd_data", VArr []); ("veb_data", VArr [])])].

End App.

(** ** The toolbar of the single-chart page ([ToolbarManager]) *)

Module Toolbar.
Import JS Json.

(** The globals of the page that the toolbar reads and writes. *)
Record window : Type := MkWindow {
  isDataUpdatePaused : bool;  (* window.isDataUpdatePaused *)
  chartsManager : bool        (* window.chartsManager is not null *)
}.

Record ToolbarManager : Type := MkToolbarManager {
  isDataFlowPaused : bool;
  connectionState : string
}.

(** The constructor. *)
Definition new_ToolbarManager : ToolbarManager :=
  MkToolbarManager false "disconnected".

(** [handleDataFlowToggle()]: the flag of the toolbar is flipped, and
    copied to the global flag when the chart manager exists. *)
Definition handleDataFlowToggle (p : ToolbarManager * window)
    : ToolbarManager * window :=
  let toolbar :=
    MkToolbarManager (negb (isDataFlowPaused p.1)) (connectionState p.1) in
  let w :=
    if chartsManager p.2
    then MkWindow (isDataFlowPaused toolbar) (chartsManager p.2)
    else p.2 in
  (toolbar, w).

(** The cases ['disconnected'], ['error'] and ['failed'] of the [switch]. *)
Definition resets_pause (state : string) : bool :=
  String.eqb state "disconnected" || String.eqb state "error"
  || String.eqb state "failed".

(** [updateConnectionState(state)] *)
Definition updateConnectionState (state : string)
    (p : ToolbarManager * window) : ToolbarManager * window :=
  (MkToolbarManager
     (if resets_pause state then false else isDataFlowPaused p.1) state,
   p.2).

(** What can happen to the toolbar: a click on the data-flow button, or a
    status change of the connection. *)
Inductive action : Type :=
  | ClickDataFlow
  | StatusChange (state : string).

Definition act (p : ToolbarManager * window) (a : action)
    : ToolbarManager * window :=
  match a with
  | ClickDataFlow => handleDataFlowToggle p
  | StatusChange state => updateConnectionState state p
  end.

Definition run (p : ToolbarManager * window) (actions : list action)
    : ToolbarManager * window :=
  fold_left act actions p.

(** Whenever the toolbar shows the data flow as paused, it is paused. *)
Definition toolbar_inv (p : ToolbarManager * window) : Prop :=
  chartsManager p.2 = true
  /\ (isDataFlowPaused p.1 = true -> isDataUpdatePaused p.2 = true).

End Toolbar.

(** * Properties *)

(** ** Array primitives *)

Section ArrayFacts.
Import JS.

Lemma index_app_l (a b : list jsnum) (i : nat) :
  i < length a -> index (a ++ b) (Z.of_nat i) = index a (Z.of_nat i).
Proof.
  intros Hi. unfold index.
  destruct (Z.ltb_spec (Z.of_nat i) 0) as [|_]; [lia|].
  rewrite Nat2Z.id, lookup_app_l by done. done.
Qed.

Lemma index_lookup (a : list jsnum) (i : nat) (v : jsnum) :
  a !! i = Some v -> index a (Z.of_nat i) = v.
Proof.
  intros H. unfold index.
  destruct (Z.ltb_spec (Z.of_nat i) 0) as [|_]; [lia|].
  by rewrite Nat2Z.id, H.
Qed.

Lemma index_snoc (a : list jsnum) (v : jsnum) :
  index (a ++ [v]) (Z.of_nat (length a)) = v.
Proof. apply index_lookup. by rewrite lookup_app_r, Nat.sub_diag. Qed.

(** A window that lies inside the array is the [period] elements that end
    at [i]. *)
Lemma slice_window {A} (a : list A) (period i : Z) :
  (1 <= period)%Z -> (period - 1 <= i)%Z -> (i < Z.of_nat (length a))%Z ->
  slice a (i - period + 1) (i + 1)
  = take (Z.to_nat period) (drop (Z.to_nat (i - period + 1)) a)
  /\ length (slice a (i - period + 1) (i + 1)) = Z.to_nat period.
Proof.
  intros Hp Hi Hlen. unfold slice, rel_index.
  destruct (Z.ltb_spec (i - period + 1) 0) as [|_]; [lia|].
  destruct (Z.ltb_spec (i + 1) 0) as [|_]; [lia|].
  rewrite !Z.min_l by lia.
  replace (i + 1 - (i - period + 1))%Z with period by lia.
  split; [done|].
  rewrite length_take, length_drop. lia.
Qed.

End ArrayFacts.

(** ** Integers as doubles *)

Section IntegerFacts.
Import JS.

Lemma digits2_lower (p : positive) :
  (2 ^ (Zpos (digits2_pos p) - 1) <= Zpos p)%Z.
Proof.
  induction p as [p IH|p IH|]; cbn [digits2_pos]; [| |done].
  - rewrite Pos2Z.inj_succ.
    replace (Z.succ (Zpos (digits2_pos p)) - 1)%Z
      with (Z.succ (Zpos (digits2_pos p) - 1))%Z by lia.
    rewrite Z.pow_succ_r by lia. lia.
  - rewrite Pos2Z.inj_succ.
    replace (Z.succ (Zpos (digits2_pos p)) - 1)%Z
      with (Z.succ (Zpos (digits2_pos p) - 1))%Z by lia.
    rewrite Z.pow_succ_r by lia. lia.
Qed.

(** An integer below 2^53 has at most 53 binary digits. *)
Lemma digits2_safe (p : positive) :
  (Zpos p < 2 ^ 53)%Z -> (Zpos (digits2_pos p) <= 53)%Z.
Proof.
  intros Hp. pose proof (digits2_lower p) as Hl.
  destruct (Z.le_gt_cases (Zpos (digits2_pos p)) 53) as [|Hgt]; [done|].
  assert (2 ^ 53 <= 2 ^ (Zpos (digits2_pos p) - 1))%Z
    by (apply Z.pow_le_mono_r; lia).
  lia.
Qed.

Lemma digits2_iter_xO (p d : positive) :
  digits2_pos (Pos.iter xO p d) = (digits2_pos p + d)%positive.
Proof.
  induction d as [|d IH] using Pos.peano_ind.
  - simpl. lia.
  - rewrite Pos.iter_succ. cbn [digits2_pos]. rewrite IH. lia.
Qed.

Lemma iter_xO_value (p d : positive) :
  Zpos (Pos.iter xO p d) = (Zpos p * 2 ^ Zpos d)%Z.
Proof.
  induction d as [|d IH] using Pos.peano_ind.
  - simpl. lia.
  - rewrite Pos.iter_succ, Pos2Z.inj_xO, IH, Pos2Z.inj_succ, Z.pow_succ_r
      by lia.
    lia.
Qed.

(** A mantissa of exactly 53 digits is not rounded. *)
Lemma binary_round_aux_aligned (sx : bool) (mz : positive) (ez : Z) :
  Zpos (digits2_pos mz) = 53%Z -> (-1074 <= ez <= 971)%Z ->
  binary_round_aux prec emax sx (Zpos mz) ez loc_Exact = S754_finite sx mz ez.
Proof.
  intros Hd He. unfold binary_round_aux, shr_fexp, Zdigits2.
  cbn [shr_record_of_loc]. rewrite Hd.
  assert (fexp prec emax (53 + ez) - ez = 0)%Z as ->.
  { unfold fexp, emin, prec, emax. lia. }
  cbn [shr shr_m loc_of_shr_record round_nearest_even Zdigits2
       shr_record_of_loc].
  rewrite Hd.
  assert (fexp prec emax (53 + ez) - ez = 0)%Z as ->.
  { unfold fexp, emin, prec, emax. lia. }
  cbn [shr shr_m].
  destruct (Z.leb_spec ez (emax - prec)) as [|Hgt]; [done|].
  unfold emax, prec in Hgt. lia.
Qed.

(** Rounding an integer below 2^53 only shifts it to 53 digits. *)
Lemma binary_round_safe (sx : bool) (p : positive) :
  (Zpos p < 2 ^ 53)%Z ->
  exists m e,
    binary_round prec emax sx p 0 = S754_finite sx m e
    /\ (-52 <= e <= 0)%Z /\ Zpos m = (Zpos p * 2 ^ (- e))%Z
    /\ Zpos (digits2_pos m) = 53%Z.
Proof.
  intros Hp. pose proof (digits2_safe p Hp) as Hd.
  unfold binary_round, shl_align.
  assert (fexp prec emax (Zpos (digits2_pos p) + 0)
          = Zpos (digits2_pos p) - 53)%Z as ->.
  { unfold fexp, emin, prec, emax. lia. }
  destruct (Zpos (digits2_pos p) - 53 - 0)%Z as [|d|d] eqn:Hshift; [|lia|].
  - exists p, 0%Z. rewrite binary_round_aux_aligned by lia.
    repeat split; try lia.
  - exists (Pos.iter xO p d), (Zpos (digits2_pos p) - 53)%Z.
    assert (Zpos (digits2_pos (Pos.iter xO p d)) = 53%Z) as Hal
      by (rewrite digits2_iter_xO; lia).
    rewrite binary_round_aux_aligned by (done || lia).
    repeat split; try lia; try done.
    rewrite iter_xO_value. f_equal. f_equal. lia.
Qed.

Lemma sf_of_Z_safe (z : Z) :
  (- 2 ^ 53 < z < 2 ^ 53)%Z ->
  valid_binary (sf_of_Z z) = true /\ sf_integer (sf_of_Z z) z
  /\ ((z < 0)%Z -> exists m e, sf_of_Z z = S754_finite true m e).
Proof.
  intros Hz. unfold sf_of_Z, binary_normalize.
  destruct z as [|p|p]; [split; [done|split; [done|lia]]| |].
  - destruct (binary_round_safe false p ltac:(lia))
      as (m & e & -> & He & Hm & Hd).
    split; [|split; [|lia]].
    + unfold valid_binary, bounded, canonical_mantissa. rewrite Hd.
      apply andb_true_intro. split.
      * apply Z.eqb_eq. unfold fexp, emin, prec, emax. lia.
      * apply Z.leb_le. unfold prec, emax. lia.
    + unfold sf_integer, cond_Zopp. rewrite Z.max_r, Z.max_l by lia.
      rewrite Hm. simpl. lia.
  - destruct (binary_round_safe true p ltac:(lia))
      as (m & e & -> & He & Hm & Hd).
    split; [|split; [|by eexists; eexists]].
    + unfold valid_binary, bounded, canonical_mantissa. rewrite Hd.
      apply andb_true_intro. split.
      * apply Z.eqb_eq. unfold fexp, emin, prec, emax. lia.
      * apply Z.leb_le. unfold prec, emax. lia.
    + unfold sf_integer, cond_Zopp. rewrite Z.max_r, Z.max_l by lia.
      rewrite Hm. simpl. lia.
Qed.

(** Every integer below 2^53 in absolute value is a double, and
    [num_of_Z] is that double. *)
Lemma num_of_Z_exact (z : Z) :
  (- 2 ^ 53 < z < 2 ^ 53)%Z -> is_integer (num_of_Z z) z.
Proof.
  intros Hz. destruct (sf_of_Z_safe z Hz) as (Hv & Hi & _).
  unfold is_integer, num_of_Z. by rewrite Prim2SF_SF2Prim.
Qed.

(** Zero divided by a negative integer is the negative zero. *)
Lemma zero_div_negative (z : Z) :
  (- 2 ^ 53 < z < 0)%Z -> (0 / num_of_Z z)%float = (-0)%float.
Proof.
  intros Hz. destruct (sf_of_Z_safe z ltac:(lia)) as (Hv & _ & Hneg).
  destruct (Hneg ltac:(lia)) as (m & e & Hsf).
  rewrite <- (SF2Prim_Prim2SF (0 / num_of_Z z)), FloatAxioms.div_spec.
  unfold num_of_Z. rewrite Prim2SF_SF2Prim by done. rewrite Hsf.
  reflexivity.
Qed.

End IntegerFacts.

(** ** The exponential moving average *)

Section EmaFacts.
Import JS Indicators.

Variable prices : list jsnum.
Variable multiplier : float.

(** Every iteration appends exactly one cell, and that cell is [null]
    exactly when the price at that index is. *)
Lemma ema_body_appends (st : ema_state) (i : nat) :
  exists x, ema_result (ema_body prices multiplier st i) = ema_result st ++ [x]
            /\ (x = JNull <-> index prices (Z.of_nat i) = JNull).
Proof.
  unfold ema_body.
  destruct (index prices (Z.of_nat i)) as [| |p] eqn:Hp; simpl.
  - destruct (length (ema_result st) =? 0)%nat; eexists; (split; [done|]);
      split; discriminate.
  - eexists; split; done.
  - destruct (length (ema_result st) =? 0)%nat; eexists; (split; [done|]);
      split; discriminate.
Qed.

Lemma ema_loop_cells (n : nat) (st : ema_state) :
  ema_result st = [] ->
  length (ema_result (for_loop (ema_body prices multiplier) st n)) = n
  /\ forall i, i < n ->
       exists x,
         ema_result (for_loop (ema_body prices multiplier) st n) !! i = Some x
         /\ (x = JNull <-> index prices (Z.of_nat i) = JNull).
Proof.
  intros Hst. unfold for_loop. induction n as [|n [IHlen IHcells]].
  - simpl. rewrite Hst. split; [done|]. intros; lia.
  - rewrite seq_S, fold_left_app. simpl.
    destruct (ema_body_appends
                (fold_left (ema_body prices multiplier) (seq 0 n) st) n)
      as (x & -> & Hx).
    split; [rewrite length_app; simpl; lia|].
    intros i Hi. destruct (decide (i = n)) as [->|Hne].
    + exists x. split; [|done].
      rewrite lookup_app_r by lia. by rewrite IHlen, Nat.sub_diag.
    + destruct (IHcells i) as (y & Hy & Hnull); [lia|].
      exists y. split; [|done]. by rewrite lookup_app_l by lia.
Qed.

End EmaFacts.

Section EmaNumeric.
Import JS Indicators.

Lemma calculateEMA_length (prices : list jsnum) (period : Z) :
  length (calculateEMA prices period) = length prices.
Proof. unfold calculateEMA. by apply ema_loop_cells. Qed.

Lemma calculateEMA_null (prices : list jsnum) (period : Z) (i : nat) :
  calculateEMA prices period !! i = Some JNull <-> prices !! i = Some JNull.
Proof.
  destruct (decide (i < length prices)) as [Hi|Hi].
  - destruct (ema_loop_cells prices (ema_multiplier period) (length prices)
                (EmaState [] (find_not_null prices)) eq_refl)
      as [_ Hcells].
    destruct (Hcells i Hi) as (x & Hx & Hnull).
    unfold calculateEMA. rewrite Hx.
    destruct (lookup_lt_is_Some_2 prices i Hi) as [v Hv].
    rewrite (index_lookup _ _ _ Hv) in Hnull. rewrite Hv.
    split; intros [= ->]; f_equal; by apply Hnull.
  - assert (calculateEMA prices period !! i = None) as ->.
    { apply lookup_ge_None. rewrite calculateEMA_length. lia. }
    assert (prices !! i = None) as -> by (apply lookup_ge_None; lia).
    done.
Qed.

(** On numbers only, the loop past the seed follows [ema_from]. *)
Lemma ema_loop_numeric (multiplier : float) (suffix : list float) :
  forall (pre : list float) (res : list jsnum) (e : float),
    length res = length pre -> pre <> [] ->
    ema_result
      (fold_left (ema_body (JNumber <$> (pre ++ suffix)) multiplier)
                 (seq (length pre) (length suffix))
                 (EmaState res (JNumber e)))
    = res ++ (JNumber <$> ema_from multiplier e suffix).
Proof.
  induction suffix as [|v suffix IH]; intros pre res e Hlen Hpre; simpl.
  - by rewrite app_nil_r.
  - assert (index (JNumber <$> (pre ++ v :: suffix)) (Z.of_nat (length pre))
            = JNumber v) as Hidx.
    { apply index_lookup. rewrite list_lookup_fmap, lookup_app_r by lia.
      by rewrite Nat.sub_diag. }
    unfold ema_body at 2. rewrite Hidx. simpl.
    destruct (length res =? 0)%nat eqn:Hz.
    + apply Nat.eqb_eq in Hz. destruct pre; [done|simpl in Hlen; lia].
    + assert (length (pre ++ [v]) = S (length pre)) as Hsnoc
        by (rewrite length_app; simpl; lia).
      specialize (IH (pre ++ [v])
                     (res ++ [JNumber (v * multiplier
                                       + e * (1 - multiplier))%float])
                     (v * multiplier + e * (1 - multiplier))%float).
      rewrite <- app_assoc, Hsnoc in IH. simpl in IH.
      rewrite IH.
      * by rewrite <- app_assoc.
      * rewrite length_app. simpl. lia.
      * by destruct pre.
Qed.

Lemma calculateEMA_spec (x : float) (xs : list float) (period : Z) :
  calculateEMA (JNumber <$> (x :: xs)) period
  = JNumber <$> ema_spec (ema_multiplier period) (x :: xs).
Proof.
  unfold calculateEMA, for_loop. rewrite length_fmap. simpl.
  exact (ema_loop_numeric (ema_multiplier period) xs [x] [JNumber x] x
           eq_refl ltac:(done)).
Qed.

Lemma ema_spec_length (α x : float) (xs : list float) :
  length (ema_spec α (x :: xs)) = length (x :: xs).
Proof.
  simpl. f_equal. revert x.
  induction xs as [|v xs IH]; intros x; simpl; auto.
Qed.

Lemma ema_from_step (α : float) (inputs : list float) :
  forall (prev : float) (i : nat) (v : float),
    inputs !! i = Some v ->
    exists p, (prev :: ema_from α prev inputs) !! i = Some p
              /\ ema_from α prev inputs !! i = Some (v * α + p * (1 - α))%float.
Proof.
  induction inputs as [|w inputs IH]; intros prev i v Hv; [done|].
  destruct i as [|i]; simpl in *.
  - injection Hv as ->. by exists prev.
  - by apply IH.
Qed.

End EmaNumeric.

(** C7. On a non-empty input of numbers, [calculateEMA] uses the
    multiplier 2/(p+1), where [p] is the period as a double: the integer
    [period] itself for every period below 2^53 in absolute value.  Its
    first output is the first input, every later output is
    [input[i]*α + ema[i-1]*(1-α)], no output is [null], and EMA(3) of
    [10,12,11,13,15] is [10,11,11,12,13.5]. *)
Theorem calculateEMA_numeric (x : float) (xs : list float) (period : Z) :
  let inputs := x :: xs in
  let p := JS.num_of_Z period in
  let α := (2 / (p + 1))%float in
  let out := Indicators.calculateEMA (JS.JNumber <$> inputs) period in
  Indicators.ema_multiplier period = α
  /\ ((- 2 ^ 53 < period < 2 ^ 53)%Z -> JS.is_integer p period)
  /\ length out = length inputs
  /\ out !! 0 = Some (JS.JNumber x)
  /\ (forall i v,
        inputs !! S i = Some v ->
        exists prev,
          out !! i = Some (JS.JNumber prev)
          /\ out !! S i = Some (JS.JNumber (v * α + prev * (1 - α))%float))
  /\ (forall i, i < length inputs -> exists e, out !! i = Some (JS.JNumber e))
  /\ Indicators.calculateEMA (JS.JNumber <$> [10; 12; 11; 13; 15]%float) 3
     = JS.JNumber <$> [10; 11; 11; 12; 13.5]%float.
Proof.
  intros inputs p α out. subst inputs out p.
  rewrite calculateEMA_spec, length_fmap.
  fold (Indicators.ema_multiplier period) in α. subst α.
  split; [reflexivity|].
  split; [apply num_of_Z_exact|].
  split; [apply ema_spec_length|].
  split; [reflexivity|].
  split; [|split].
  - intros i v Hv. simpl in Hv.
    destruct (ema_from_step (Indicators.ema_multiplier period) xs x i v Hv)
      as (p & Hp & Hstep).
    exists p. rewrite !list_lookup_fmap. simpl.
    rewrite Hstep. by rewrite Hp.
  - intros i Hi. rewrite list_lookup_fmap.
    destruct (lookup_lt_is_Some_2
                (Indicators.ema_spec (Indicators.ema_multiplier period)
                                     (x :: xs)) i) as [e He].
    { by rewrite ema_spec_length. }
    exists e. by rewrite He.
  - vm_compute. reflexivity.
Qed.

(** ** The MACD *)

Section MacdFacts.
Import JS Indicators.


Lemma dif_null_of_ema (prices : list jsnum) (fast slow signal : Z) (i : nat) :
  calculateEMA prices fast !! i = Some JNull
  \/ calculateEMA prices slow !! i = Some JNull ->
  dif (calculateMACD prices fast slow signal) !! i = Some JNull.
Proof.
  unfold calculateMACD. simpl. rewrite list_lookup_imap.
  intros [Hfast|Hslow].
  - by rewrite Hfast.
  - destruct (lookup_lt_is_Some_2 (calculateEMA prices fast) i) as [v Hv].
    { rewrite calculateEMA_length, <- (calculateEMA_length prices slow).
      by apply lookup_lt_is_Some_1; eexists. }
    rewrite Hv. simpl. rewrite (index_lookup _ _ _ Hslow). simpl.
    by rewrite andb_false_r.
Qed.

End MacdFacts.

Section NanFacts.

Lemma sub_nan (x : float) : (x - nan)%float = nan.
Proof.
  rewrite <- (SF2Prim_Prim2SF (x - nan)), FloatAxioms.sub_spec.
  change (Prim2SF nan) with S754_nan.
  by destruct (Prim2SF x).
Qed.

End NanFacts.

Section MacdShape.
Import JS Indicators.

Lemma filter_length_related {A B} (P : A -> Prop) (Q : B -> Prop)
    `{!forall x, Decision (P x)} `{!forall y, Decision (Q y)}
    (l : list A) (k : list B) :
  Forall2 (fun a b => P a <-> Q b) l k ->
  length (filter P l) = length (filter Q k).
Proof.
  induction 1 as [|a b l k Hab _ IH]; [done|].
  destruct (decide (P a)) as [Ha|Ha].
  - rewrite !filter_cons_True by tauto. simpl. by rewrite IH.
  - rewrite !filter_cons_False by tauto. done.
Qed.

Lemma not_null_true (v : jsnum) : not_null v = true <-> v <> JNull.
Proof. destruct v; simpl; split; try done; intros H; by destruct H. Qed.

Lemma dif_cell (prices : list jsnum) (fast slow signal : Z) (i : nat)
    (f : jsnum) :
  calculateEMA prices fast !! i = Some f ->
  dif (calculateMACD prices fast slow signal) !! i
  = Some (if not_null f
             && not_null (index (calculateEMA prices slow) (Z.of_nat i))
          then JNumber (to_number f
                        - to_number (index (calculateEMA prices slow)
                                           (Z.of_nat i)))%float
          else JNull).
Proof.
  intros Hf. unfold calculateMACD. simpl.
  by rewrite list_lookup_imap, Hf.
Qed.

Lemma macd_cell (prices : list jsnum) (fast slow signal : Z) (i : nat)
    (x : jsnum) :
  let r := calculateMACD prices fast slow signal in
  dif r !! i = Some x ->
  macd r !! i
  = Some (if not_null x && not_null (index (dea r) (Z.of_nat i))
          then JNumber (2 * (to_number x
                             - to_number (index (dea r) (Z.of_nat i))))%float
          else JNull).
Proof.
  intros r Hx. subst r. revert Hx. unfold calculateMACD. simpl.
  intros Hx. by rewrite list_lookup_imap, Hx.
Qed.

(** The difference line is a number exactly where the price is not
    [null]. *)
Lemma dif_number (prices : list jsnum) (fast slow signal : Z) (i : nat)
    (v : jsnum) :
  prices !! i = Some v -> v <> JNull ->
  exists x, dif (calculateMACD prices fast slow signal) !! i
            = Some (JNumber x).
Proof.
  intros Hv Hnn.
  assert (forall p, exists e, calculateEMA prices p !! i = Some e
                              /\ e <> JNull) as Hema.
  { intros p.
    destruct (lookup_lt_is_Some_2 (calculateEMA prices p) i) as [e He].
    { rewrite calculateEMA_length. by apply lookup_lt_is_Some_1; eexists. }
    exists e. split; [done|]. intros ->.
    apply calculateEMA_null in He. rewrite Hv in He. by injection He. }
  destruct (Hema fast) as (f & Hf & Hfn), (Hema slow) as (s & Hs & Hsn).
  rewrite (dif_cell _ _ _ _ _ _ Hf), (index_lookup _ _ _ Hs).
  apply not_null_true in Hfn, Hsn. rewrite Hfn, Hsn. by eexists.
Qed.

Lemma dif_null_iff (prices : list jsnum) (fast slow signal : Z) (i : nat)
    (x v : jsnum) :
  dif (calculateMACD prices fast slow signal) !! i = Some x ->
  prices !! i = Some v ->
  not_null x = true <-> not_null v = true.
Proof.
  intros Hx Hv. destruct (not_null v) eqn:Hnn.
  - apply not_null_true in Hnn.
    destruct (dif_number prices fast slow signal i v Hv Hnn) as [y Hy].
    rewrite Hx in Hy. by injection Hy as ->.
  - assert (v = JNull) as -> by (by destruct v).
    assert (dif (calculateMACD prices fast slow signal) !! i = Some JNull)
      as Hnull by (apply dif_null_of_ema; left; by apply calculateEMA_null).
    rewrite Hx in Hnull. by injection Hnull as ->.
Qed.

Lemma dif_length (prices : list jsnum) (fast slow signal : Z) :
  length (dif (calculateMACD prices fast slow signal)) = length prices.
Proof.
  unfold calculateMACD. simpl. by rewrite length_imap, calculateEMA_length.
Qed.

Lemma dea_length (prices : list jsnum) (fast slow signal : Z) :
  length (dea (calculateMACD prices fast slow signal))
  = length (filter (fun v => not_null v = true) prices).
Proof.
  unfold calculateMACD at 1. cbn [dea]. rewrite calculateEMA_length.
  apply filter_length_related.
  apply Forall2_same_length_lookup_2.
  - exact (dif_length prices fast slow signal).
  - intros i x v Hx Hv. by apply (dif_null_iff prices fast slow signal i).
Qed.




End MacdShape.




(** ** The stochastic oscillator *)

(** A loop whose body pushes one cell onto an array per iteration. *)
Section PushLoop.
Import JS.

Context {St : Type} (body : St -> nat -> St) (arr : St -> list jsnum)
        (init : St).
Hypothesis body_pushes :
  forall st n, exists x, arr (body st n) = arr st ++ [x].
Hypothesis init_empty : arr init = [].

Local Abbreviation loop := (for_loop body init).

Lemma loop_S (n : nat) : loop (S n) = body (loop n) n.
Proof. unfold for_loop. by rewrite seq_S, fold_left_app. Qed.

Lemma loop_length (n : nat) : length (arr (loop n)) = n.
Proof.
  induction n as [|n IH]; [by unfold for_loop; simpl; rewrite init_empty|].
  rewrite loop_S. destruct (body_pushes (loop n) n) as [x ->].
  rewrite length_app, IH. simpl. lia.
Qed.

Lemma loop_prefix (n m : nat) :
  n <= m -> arr (loop n) `prefix_of` arr (loop m).
Proof.
  induction 1 as [|m _ IH]; [done|].
  rewrite loop_S. destruct (body_pushes (loop m) m) as [x ->].
  by apply prefix_app_r.
Qed.

(** The cell at [i] is the one pushed by iteration [i]. *)
Lemma loop_lookup (i m : nat) :
  i < m -> arr (loop m) !! i = arr (loop (S i)) !! i.
Proof.
  intros Him.
  destruct (lookup_lt_is_Some_2 (arr (loop (S i))) i) as [x Hx];
    [rewrite loop_length; lia|].
  rewrite Hx. eapply prefix_lookup_Some; [exact Hx|].
  apply loop_prefix. lia.
Qed.

(** What iteration [i] reads at [i - 1] is what the final array holds. *)
Lemma loop_index_prev (i m : nat) :
  i <= m ->
  index (arr (loop i)) (Z.of_nat i - 1) = index (arr (loop m)) (Z.of_nat i - 1).
Proof.
  intros Him. destruct i as [|i]; [done|].
  replace (Z.of_nat (S i) - 1)%Z with (Z.of_nat i) by lia.
  destruct (lookup_lt_is_Some_2 (arr (loop (S i))) i) as [x Hx];
    [rewrite loop_length; lia|].
  rewrite (index_lookup _ _ _ Hx). symmetry. apply index_lookup.
  eapply prefix_lookup_Some; [exact Hx|]. by apply loop_prefix.
Qed.

End PushLoop.

Section KdjFacts.
Import JS Indicators.

Variables highs lows closes : list jsnum.
Variable period : Z.

Let body := kdj_body highs lows closes period.
Let init := KdjResult [] [] [] [].

Lemma kdj_pushes_k st n : exists x, k (body st n) = k st ++ [x].
Proof. unfold body, kdj_body. destruct (_ <? _)%Z; by eexists. Qed.

Lemma kdj_pushes_d st n : exists x, d (body st n) = d st ++ [x].
Proof. unfold body, kdj_body. destruct (_ <? _)%Z; by eexists. Qed.

Lemma kdj_pushes_j st n : exists x, j (body st n) = j st ++ [x].
Proof. unfold body, kdj_body. destruct (_ <? _)%Z; by eexists. Qed.

Lemma kdj_pushes_rsv st n : exists x, rsv (body st n) = rsv st ++ [x].
Proof. unfold body, kdj_body. destruct (_ <? _)%Z; by eexists. Qed.

Lemma calculateKDJ_loop :
  calculateKDJ highs lows closes period = for_loop body init (length closes).
Proof. reflexivity. Qed.

(** The four cells that iteration [i] pushes once the window is full,
    in terms of the arrays as they stand before it. *)
Lemma kdj_step (i : nat) :
  (period - 1 <= Z.of_nat i)%Z ->
  let st := for_loop body init i in
  let r := kdj_rsv highs lows closes period (Z.of_nat i) in
  let kv := ((2 * or_default (index (k st) (Z.of_nat i - 1)) 50 + r) / 3)%float in
  let dv := ((2 * or_default (index (d st) (Z.of_nat i - 1)) 50 + kv) / 3)%float in
  let st' := for_loop body init (S i) in
  rsv st' !! i = Some (JNumber r)
  /\ k st' !! i = Some (JNumber kv)
  /\ d st' !! i = Some (JNumber dv)
  /\ j st' !! i = Some (JNumber (3 * kv - 2 * dv)%float).
Proof.
  intros Hi st r kv dv st'. subst st'. rewrite loop_S. fold st.
  pose proof (loop_length body k init kdj_pushes_k eq_refl i) as Hk.
  pose proof (loop_length body d init kdj_pushes_d eq_refl i) as Hd.
  pose proof (loop_length body j init kdj_pushes_j eq_refl i) as Hj.
  pose proof (loop_length body rsv init kdj_pushes_rsv eq_refl i) as Hr.
  fold st in Hk, Hd, Hj, Hr.
  unfold body, kdj_body.
  destruct (Z.ltb_spec (Z.of_nat i) (period - 1)) as [|_]; [lia|].
  simpl. repeat split; rewrite lookup_app_r by lia;
    match goal with |- context [i - length ?l] =>
      replace (i - length l) with 0 by lia end; reflexivity.
Qed.

(** A warm-up iteration pushes [null] onto all four arrays. *)
Lemma kdj_warmup (i : nat) :
  (Z.of_nat i < period - 1)%Z ->
  let st' := for_loop body init (S i) in
  rsv st' !! i = Some JNull /\ k st' !! i = Some JNull
  /\ d st' !! i = Some JNull /\ j st' !! i = Some JNull.
Proof.
  intros Hi st'. subst st'. rewrite loop_S.
  pose proof (loop_length body k init kdj_pushes_k eq_refl i) as Hk.
  pose proof (loop_length body d init kdj_pushes_d eq_refl i) as Hd.
  pose proof (loop_length body j init kdj_pushes_j eq_refl i) as Hj.
  pose proof (loop_length body rsv init kdj_pushes_rsv eq_refl i) as Hr.
  unfold body at 1 3 5 7, kdj_body.
  destruct (Z.ltb_spec (Z.of_nat i) (period - 1)) as [_|]; [|lia].
  simpl. repeat split; rewrite lookup_app_r by lia;
    match goal with |- context [i - length ?l] =>
      replace (i - length l) with 0 by lia end; reflexivity.
Qed.

(** The cells of the returned arrays at a valid index, in terms of the
    returned arrays themselves. *)
Lemma calculateKDJ_cells (i : nat) :
  (period - 1 <= Z.of_nat i)%Z -> i < length closes ->
  let out := calculateKDJ highs lows closes period in
  let r := kdj_rsv highs lows closes period (Z.of_nat i) in
  let kv := ((2 * or_default (index (k out) (Z.of_nat i - 1)) 50 + r) / 3)%float in
  let dv := ((2 * or_default (index (d out) (Z.of_nat i - 1)) 50 + kv) / 3)%float in
  rsv out !! i = Some (JNumber r)
  /\ k out !! i = Some (JNumber kv)
  /\ d out !! i = Some (JNumber dv)
  /\ j out !! i = Some (JNumber (3 * kv - 2 * dv)%float).
Proof.
  intros Hp Hi out r kv dv. subst out kv dv.
  rewrite calculateKDJ_loop.
  rewrite <- (loop_index_prev body k init kdj_pushes_k eq_refl i (length closes))
    by lia.
  rewrite <- (loop_index_prev body d init kdj_pushes_d eq_refl i (length closes))
    by lia.
  rewrite (loop_lookup body rsv init kdj_pushes_rsv eq_refl i (length closes) Hi).
  rewrite (loop_lookup body k init kdj_pushes_k eq_refl i (length closes) Hi).
  rewrite (loop_lookup body d init kdj_pushes_d eq_refl i (length closes) Hi).
  rewrite (loop_lookup body j init kdj_pushes_j eq_refl i (length closes) Hi).
  exact (kdj_step i Hp).
Qed.

End KdjFacts.

(** ** Doubles: division by a zero range *)

Section FloatFacts.
Import JS.

Lemma non_finite_spec (x : float) : non_finite x <-> sf_non_finite (Prim2SF x).
Proof.
  split.
  - intros [->|[->| ->]];
      [by left|right; by exists false|right; by exists true].
  - intros [H|[s H]]; rewrite <- (SF2Prim_Prim2SF x), H.
    + by left.
    + destruct s; right; [by right|by left].
Qed.

(** The difference of two doubles that compare equal is a zero, or NaN
    when both are the same infinity. *)
Lemma sub_of_eqb (x y : float) :
  (x =? y)%float = true ->
  Prim2SF (x - y)%float = S754_nan
  \/ exists s, Prim2SF (x - y)%float = S754_zero s.
Proof.
  rewrite FloatAxioms.eqb_spec, FloatAxioms.sub_spec.
  unfold SFeqb, SFcompare, SF64sub, SFsub.
  destruct (Prim2SF x) as [s1|s1| |s1 m1 e1],
           (Prim2SF y) as [s2|s2| |s2 m2 e2];
    try discriminate;
    try (destruct s1; discriminate); try (destruct s2; discriminate).
  - intros _. right. destruct s1, s2; by eexists.
  - destruct s1, s2; try discriminate; intros _; by left.
  - intros Heq. right. exists false.
    assert (e1 = e2 /\ m1 = m2 /\ s1 = s2) as (-> & -> & ->).
    { rewrite Pos.compare_cont_spec in Heq.
      destruct s1, s2; try discriminate;
        destruct (Z.compare_spec e1 e2); try discriminate;
        destruct (Pos.compare_spec m1 m2); try discriminate; done. }
    by rewrite Z.sub_diag.
Qed.

(** Anything divided by a zero, or by NaN, is NaN or an infinity. *)
Lemma div_by_zero_or_nan (x y : float) :
  Prim2SF y = S754_nan \/ (exists s, Prim2SF y = S754_zero s) ->
  non_finite (x / y)%float.
Proof.
  rewrite non_finite_spec, FloatAxioms.div_spec. unfold SF64div, SFdiv.
  intros [->|[s ->]]; destruct (Prim2SF x) as [s1|s1| |s1 m1 e1];
    try (by left); right; by eexists.
Qed.

Lemma mul_100_non_finite (x : float) :
  non_finite x -> non_finite (x * 100)%float.
Proof.
  rewrite !non_finite_spec, FloatAxioms.mul_spec.
  change (Prim2SF 100) with (S754_finite false 7036874417766400 (-46)).
  intros [->|[s ->]]; [by left|right; by eexists].
Qed.

(** Over a flat range the raw stochastic value is never a finite number. *)
Lemma flat_range_non_finite (close high low : float) :
  (high =? low)%float = true ->
  non_finite ((close - low) / (high - low) * 100)%float.
Proof.
  intros Hflat.
  apply mul_100_non_finite, div_by_zero_or_nan, sub_of_eqb, Hflat.
Qed.

(** NaN and the infinities are absorbing in the sums, differences and
    scalings of the K, D and J formulas. *)
Lemma add_non_finite (x y : float) : non_finite y -> non_finite (x + y)%float.
Proof.
  rewrite !non_finite_spec, FloatAxioms.add_spec. unfold SF64add, SFadd.
  intros [->|[b ->]]; destruct (Prim2SF x) as [s1|s1| |s1 m1 e1];
    try (by left); try (right; by eexists).
  destruct s1, b; try (by left); right; by eexists.
Qed.

Lemma sub_non_finite (x y : float) : non_finite x -> non_finite (x - y)%float.
Proof.
  rewrite !non_finite_spec, FloatAxioms.sub_spec. unfold SF64sub, SFsub.
  intros [->|[b ->]]; [by left|].
  destruct (Prim2SF y) as [s1|s1| |s1 m1 e1];
    try (by left); try (right; by eexists).
  destruct b, s1; try (by left); right; by eexists.
Qed.

Lemma mul_3_non_finite (x : float) : non_finite x -> non_finite (3 * x)%float.
Proof.
  rewrite !non_finite_spec, FloatAxioms.mul_spec.
  change (Prim2SF 3) with (S754_finite false 6755399441055744 (-51)).
  intros [->|[b ->]]; [by left|right; by eexists].
Qed.

Lemma div_3_non_finite (x : float) : non_finite x -> non_finite (x / 3)%float.
Proof.
  rewrite !non_finite_spec, FloatAxioms.div_spec.
  change (Prim2SF 3) with (S754_finite false 6755399441055744 (-51)).
  intros [->|[b ->]]; [by left|right; by eexists].
Qed.

End FloatFacts.

(** C1, as the code has it.  At every index [i >= period - 1] of the
    closes, [RSV[i]] is [(close[i] - min(low window)) / (max(high window) -
    min(low window)) * 100] in double arithmetic, where a window that lies
    inside the arrays is the [period] points ending at [i], and [K[i]],
    [D[i]], [J[i]] are computed from that value.  There is no special case
    for a flat window: when the highest high equals the lowest low, the
    division by the zero range makes [RSV[i]] NaN or an infinity, never 0,
    and [K[i]], [D[i]] and [J[i]] are NaN or infinite as well. *)
Theorem calculateKDJ_rsv (highs lows closes : list JS.jsnum) (period : Z)
    (i : nat) :
  (period - 1 <= Z.of_nat i)%Z -> i < length closes ->
  let out := Indicators.calculateKDJ highs lows closes period in
  let periodHighs := JS.slice highs (Z.of_nat i - period + 1) (Z.of_nat i + 1) in
  let periodLows := JS.slice lows (Z.of_nat i - period + 1) (Z.of_nat i + 1) in
  let highestHigh := JS.math_max periodHighs in
  let lowestLow := JS.math_min periodLows in
  let currentRSV :=
    ((JS.to_number (JS.index closes (Z.of_nat i)) - lowestLow)
     / (highestHigh - lowestLow) * 100)%float in
  let prevK := JS.or_default (JS.index (Indicators.k out) (Z.of_nat i - 1)) 50 in
  let prevD := JS.or_default (JS.index (Indicators.d out) (Z.of_nat i - 1)) 50 in
  let currentK := ((2 * prevK + currentRSV) / 3)%float in
  let currentD := ((2 * prevD + currentK) / 3)%float in
  let currentJ := (3 * currentK - 2 * currentD)%float in
  Indicators.rsv out !! i = Some (JS.JNumber currentRSV)
  /\ Indicators.k out !! i = Some (JS.JNumber currentK)
  /\ Indicators.d out !! i = Some (JS.JNumber currentD)
  /\ Indicators.j out !! i = Some (JS.JNumber currentJ)
  /\ ((1 <= period)%Z -> i < length highs -> i < length lows ->
      periodHighs
      = take (Z.to_nat period) (drop (Z.to_nat (Z.of_nat i - period + 1)) highs)
      /\ periodLows
         = take (Z.to_nat period) (drop (Z.to_nat (Z.of_nat i - period + 1)) lows)
      /\ length periodHighs = Z.to_nat period
      /\ length periodLows = Z.to_nat period)
  /\ ((highestHigh =? lowestLow)%float = true ->
      JS.non_finite currentRSV /\ currentRSV <> 0%float
      /\ JS.non_finite currentK /\ JS.non_finite currentD
      /\ JS.non_finite currentJ).
Proof.
  intros Hp Hi out periodHighs periodLows highestHigh lowestLow currentRSV
         prevK prevD currentK currentD currentJ.
  destruct (calculateKDJ_cells highs lows closes period i Hp Hi)
    as (Hr & Hk & Hd & Hj).
  split; [exact Hr|]. split; [exact Hk|]. split; [exact Hd|].
  split; [exact Hj|]. split.
  - intros Hperiod Hh Hl. repeat split; apply slice_window; lia.
  - intros Hflat.
    assert (JS.non_finite currentRSV) as Hrsv
      by (by apply flat_range_non_finite).
    assert (JS.non_finite currentK) as HK
      by (by apply div_3_non_finite, add_non_finite).
    assert (JS.non_finite currentD) as HD
      by (by apply div_3_non_finite, add_non_finite).
    repeat split; try assumption.
    + intros Hzero. rewrite Hzero in Hrsv.
      destruct Hrsv as [H|[H|H]];
        apply (f_equal PrimFloat.classify) in H; vm_compute in H;
        discriminate.
    + by apply sub_non_finite, mul_3_non_finite.
Qed.

(** The theorem at a full window of a rising series. *)
Lemma calculateKDJ_rsv_witness :
  let c := JS.JNumber <$> [10; 11; 9; 12]%float in
  Indicators.rsv (Indicators.calculateKDJ c c c 3) !! 3
  = Some (JS.JNumber 100).
Proof.
  intros c.
  exact (proj1 (calculateKDJ_rsv c c c 3 3 ltac:(simpl; lia)
                  ltac:(simpl; lia))).
Defined.

(** C1, as stated, fails: on the flat one-point window high = low = close
    = 5 with period 1 the range is zero, and [RSV[0]] is NaN, not 0; NaN
    then appears in K, D and J. *)
Lemma calculateKDJ_flat_window_nan :
  let flat := [JS.JNumber 5] in
  let out := Indicators.calculateKDJ flat flat flat 1 in
  JS.math_max flat = JS.math_min flat
  /\ Indicators.rsv out = [JS.JNumber nan]
  /\ Indicators.rsv out <> [JS.JNumber 0]
  /\ Indicators.k out = [JS.JNumber nan]
  /\ Indicators.d out = [JS.JNumber nan]
  /\ Indicators.j out = [JS.JNumber nan].
Proof.
  vm_compute. repeat split.
  intros H.
  apply (f_equal (fun l => PrimFloat.is_nan (JS.to_number (JS.index l 0)))) in H.
  vm_compute in H. discriminate.
Qed.

(** C10. [K[i]] is [(2*prevK + RSV[i])/3] where [prevK] is [K[i-1]]
    unless that cell is falsy, in which case it is the seed 50; so a
    previous value of exactly 0 is replaced by 50, and the recurrence on
    [K[i-1]] itself holds when [K[i-1]] is a truthy number.  The same holds
    for D.  On highs 1, lows 0 and closes [-1, 0.5] with period 1, [K[0]]
    is exactly 0 and [K[1]] is 50, not [(2*0 + 50)/3]. *)
Theorem calculateKDJ_falsy_previous (highs lows closes : list JS.jsnum)
    (period : Z) (i : nat) :
  (period - 1 <= Z.of_nat i)%Z -> i < length closes ->
  let out := Indicators.calculateKDJ highs lows closes period in
  let prevK := JS.index (Indicators.k out) (Z.of_nat i - 1) in
  let prevD := JS.index (Indicators.d out) (Z.of_nat i - 1) in
  exists r kv : float,
    Indicators.rsv out !! i = Some (JS.JNumber r)
    /\ Indicators.k out !! i = Some (JS.JNumber kv)
    /\ (JS.truthy prevK = false -> kv = ((2 * 50 + r) / 3)%float)
    /\ (prevK = JS.JNumber 0 -> kv = ((2 * 50 + r) / 3)%float)
    /\ (forall x, prevK = JS.JNumber x -> JS.float_truthy x = true ->
                  kv = ((2 * x + r) / 3)%float)
    /\ (JS.truthy prevD = false ->
        Indicators.d out !! i = Some (JS.JNumber ((2 * 50 + kv) / 3)%float))
    /\ (prevD = JS.JNumber 0 ->
        Indicators.d out !! i = Some (JS.JNumber ((2 * 50 + kv) / 3)%float))
    /\ (forall x, prevD = JS.JNumber x -> JS.float_truthy x = true ->
                  Indicators.d out !! i
                  = Some (JS.JNumber ((2 * x + kv) / 3)%float))
    /\ (let run := Indicators.calculateKDJ
                     (JS.JNumber <$> [1; 1]%float) (JS.JNumber <$> [0; 0]%float)
                     (JS.JNumber <$> [-1; 0.5]%float) 1 in
        Indicators.rsv run = JS.JNumber <$> [-100; 50]%float
        /\ Indicators.k run = JS.JNumber <$> [0; 50]%float
        /\ ((2 * 0 + 50) / 3 <> 50)%float).
Proof.
  intros Hp Hi out prevK prevD.
  destruct (calculateKDJ_cells highs lows closes period i Hp Hi)
    as (Hr & Hk & Hd & _).
  fold out in Hr, Hk, Hd. fold prevK in Hk, Hd. fold prevD in Hd.
  eexists _, _. split; [exact Hr|]. split; [exact Hk|].
  unfold JS.or_default in *.
  split; [by intros ->|].
  split; [by intros ->|].
  split; [intros x -> Hx; simpl; by rewrite Hx|].
  split; [intros Hf; rewrite Hf in Hd; exact Hd|].
  split; [intros Hf; rewrite Hf in Hd; exact Hd|].
  split; [intros x Hx Ht; rewrite Hx in Hd; simpl in Hd; rewrite Ht in Hd;
          exact Hd|].
  vm_compute. repeat split.
  intros H. apply (f_equal (fun x => PrimFloat.ltb x 50)) in H.
  vm_compute in H. discriminate.
Qed.

(** The theorem on the run whose first K is exactly 0. *)
Lemma calculateKDJ_falsy_previous_witness :
  let highs := JS.JNumber <$> [1; 1]%float in
  let lows := JS.JNumber <$> [0; 0]%float in
  let closes := JS.JNumber <$> [-1; 0.5]%float in
  let out := Indicators.calculateKDJ highs lows closes 1 in
  JS.index (Indicators.k out) 0 = JS.JNumber 0
  /\ exists r kv : float,
       Indicators.rsv out !! 1 = Some (JS.JNumber r)
       /\ Indicators.k out !! 1 = Some (JS.JNumber kv)
       /\ kv = ((2 * 50 + r) / 3)%float.
Proof.
  intros highs lows closes out. split; [reflexivity|].
  destruct (calculateKDJ_falsy_previous highs lows closes 1 1
              ltac:(simpl; lia) ltac:(simpl; lia))
    as (r & kv & Hr & Hk & _ & Hzero & _).
  exists r, kv. split; [exact Hr|]. split; [exact Hk|].
  apply Hzero. reflexivity.
Defined.

(** ** Bounded buffers *)

Section LimitFacts.
Import JS Json Buffer.

Lemma last_n_length {A} (n : nat) (l : list A) :
  length (last_n n l) = n `min` length l.
Proof. unfold last_n. rewrite length_drop. lia. Qed.

Lemma last_n_suffix {A} (n : nat) (l : list A) :
  l = take (length l - n) l ++ last_n n l.
Proof. unfold last_n. by rewrite take_drop. Qed.

(** Cutting down, appending and cutting down again keeps the same points
    as appending and cutting down once. *)
Lemma last_n_app {A} (n : nat) (a b : list A) :
  last_n n (last_n n a ++ b) = last_n n (a ++ b).
Proof.
  pose proof (last_n_suffix n (last_n n a ++ b)) as H1.
  pose proof (last_n_suffix n (a ++ b)) as H2.
  pose proof (last_n_suffix n a) as Ha.
  assert (a ++ b
          = (take (length a - n) a
             ++ take (length (last_n n a ++ b) - n) (last_n n a ++ b))
            ++ last_n n (last_n n a ++ b)) as H3.
  { rewrite <- app_assoc, <- H1, app_assoc, <- Ha. done. }
  rewrite H3 in H2 at 1.
  apply app_inj_2 in H2; [by destruct H2|].
  rewrite !last_n_length, !length_app, last_n_length. lia.
Qed.

Lemma last_n_all {A} (n : nat) (l : list A) :
  length l <= n -> last_n n l = l.
Proof. intros H. unfold last_n. by replace (length l - n) with 0 by lia. Qed.

(** For a capacity of at least one point, [limit] keeps the last
    [maxPoints] points. *)
Lemma limit_last_n (maxPoints : Z) (buf : list jsval) :
  (1 <= maxPoints)%Z -> limit maxPoints buf = last_n (Z.to_nat maxPoints) buf.
Proof.
  intros Hmax. unfold limit.
  destruct (Z.ltb_spec maxPoints (Z.of_nat (length buf))) as [Hlt|Hge].
  - unfold slice_from, slice, rel_index, last_n.
    destruct (Z.ltb_spec (- maxPoints) 0) as [_|]; [|lia].
    destruct (Z.ltb_spec (Z.of_nat (length buf)) 0) as [|_]; [lia|].
    rewrite Z.max_l, Z.min_l by lia.
    replace (Z.to_nat (Z.of_nat (length buf) + - maxPoints))
      with (length buf - Z.to_nat maxPoints) by lia.
    apply take_ge. rewrite length_drop. lia.
  - symmetry. apply last_n_all. lia.
Qed.

Lemma limit_length (maxPoints : Z) (buf : list jsval) :
  (1 <= maxPoints)%Z -> (Z.of_nat (length (limit maxPoints buf)) <= maxPoints)%Z.
Proof. intros H. rewrite limit_last_n, last_n_length by done. lia. Qed.

Lemma push_entries_bounded (maxPoints : Z) (es : list (string * jsval)) :
  forall g, (1 <= maxPoints)%Z -> bounded maxPoints g ->
            bounded maxPoints (state_of (push_entries maxPoints g es)).
Proof.
  induction es as [|[key value] es IH]; intros g Hmax Hg; [done|].
  simpl. destruct (g !! key) as [buf|].
  - destruct value; try by apply IH.
    apply IH; [done|].
    apply map_Forall_insert_2; [|done]. by apply limit_length.
  - destruct (inherited key && isArray value); [done|]. by apply IH.
Qed.

Lemma updatePPIEData_bounded (cm : ChartsManager) (data : jsval) :
  (1 <= maxDataPoints cm)%Z -> Buffer.cm_bounded cm ->
  Buffer.cm_bounded (state_of (updatePPIEData cm data))
  /\ maxDataPoints (state_of (updatePPIEData cm data)) = maxDataPoints cm
  /\ isInitialized (state_of (updatePPIEData cm data)) = isInitialized cm.
Proof.
  intros Hmax [Hp Hv]. unfold updatePPIEData.
  destruct (entries data) as [es|]; [|done].
  pose proof (push_entries_bounded _ es _ Hmax Hp) as Hb.
  destruct (push_entries (maxDataPoints cm) (ppie cm) es) as [g|g];
    [destruct (ppieChart cm)|]; done.
Qed.

Lemma updateVVIEData_bounded (cm : ChartsManager) (data : jsval) :
  (1 <= maxDataPoints cm)%Z -> Buffer.cm_bounded cm ->
  Buffer.cm_bounded (state_of (updateVVIEData cm data)).
Proof.
  intros Hmax [Hp Hv]. unfold updateVVIEData.
  destruct (entries data) as [es|]; [|done].
  pose proof (push_entries_bounded _ es _ Hmax Hv) as Hb.
  destruct (push_entries (maxDataPoints cm) (vvie cm) es) as [g|g];
    [destruct (vvieChart cm)|]; done.
Qed.

Lemma updateChartsData_bounded (cm : ChartsManager) (data : jsval) :
  (1 <= maxDataPoints cm)%Z -> Buffer.cm_bounded cm ->
  Buffer.cm_bounded (updateChartsData cm data).
Proof.
  intros Hmax Hcm. unfold updateChartsData, caught, updateChartsData_try.
  destruct (isInitialized cm); [|done]. simpl.
  destruct (prop data "ppie_group") as [pg|]; [|done].
  destruct (updatePPIEData_bounded cm pg Hmax Hcm) as (Hb & Hm & _).
  assert (Buffer.cm_bounded (state_of (if truthy pg then updatePPIEData cm pg
                                else Normal cm))
          /\ maxDataPoints (state_of (if truthy pg then updatePPIEData cm pg
                                      else Normal cm)) = maxDataPoints cm)
    as [Hb1 Hm1] by (destruct (truthy pg); done).
  destruct (if truthy pg then updatePPIEData cm pg else Normal cm)
    as [cm1|cm1]; simpl in *; [|done].
  destruct (prop data "vvie_group") as [vg|]; [|done].
  destruct (truthy vg); [|done].
  apply updateVVIEData_bounded; [lia|done].
Qed.

End LimitFacts.

Section BufferRuns.
Import JS Json Buffer.

(** One packet that carries a batch for one price series. *)
Lemma updateChartsData_ppie_packet (cm : ChartsManager) (name : string)
    (values buf : list jsval) :
  isInitialized cm = true -> ppie cm !! name = Some buf ->
  let cm' := updateChartsData cm (ppie_packet name values) in
  ppie cm' = <[name := limit (maxDataPoints cm) (buf ++ values)]> (ppie cm)
  /\ isInitialized cm' = true
  /\ maxDataPoints cm' = maxDataPoints cm.
Proof.
  intros Hinit Hbuf. unfold updateChartsData, caught, updateChartsData_try.
  rewrite Hinit. simpl. unfold updatePPIEData. simpl. rewrite Hbuf.
  destruct (ppieChart cm); simpl; done.
Qed.

Lemma feed_batches (name : string) (batches : list (list jsval)) :
  forall (cm : ChartsManager) (buf : list jsval),
    (1 <= maxDataPoints cm)%Z -> isInitialized cm = true ->
    ppie cm !! name = Some buf ->
    (Z.of_nat (length buf) <= maxDataPoints cm)%Z ->
    ppie (fold_left updateChartsData (ppie_packet name <$> batches) cm) !! name
    = Some (last_n (Z.to_nat (maxDataPoints cm)) (buf ++ concat batches))
    /\ maxDataPoints
         (fold_left updateChartsData (ppie_packet name <$> batches) cm)
       = maxDataPoints cm.
Proof.
  induction batches as [|values batches IH];
    intros cm buf Hmax Hinit Hbuf Hlen.
  - simpl. rewrite app_nil_r, last_n_all by lia. done.
  - rewrite fmap_cons. cbn [fold_left concat].
    destruct (updateChartsData_ppie_packet cm name values buf Hinit Hbuf)
      as (Hppie & Hinit' & Hmax').
    set (cm1 := updateChartsData cm (ppie_packet name values)) in *.
    destruct (IH cm1 (limit (maxDataPoints cm) (buf ++ values))) as [Hs Hm].
    + lia.
    + done.
    + by rewrite Hppie, lookup_insert_eq.
    + rewrite Hmax'. by apply limit_length.
    + rewrite Hs, Hm, Hmax'. split; [|done]. f_equal.
      rewrite limit_last_n by done. by rewrite last_n_app, app_assoc.
Qed.

Lemma last_n_app_ge {A} (n : nat) (a b : list A) :
  n <= length b -> last_n n (a ++ b) = last_n n b.
Proof.
  intros Hn. unfold last_n. rewrite length_app, drop_app_ge by lia.
  f_equal. lia.
Qed.

Lemma limitDataBuffer_bounded (maxPoints : Z) (g : group) :
  (1 <= maxPoints)%Z -> bounded maxPoints (Grid.limitDataBuffer maxPoints g).
Proof.
  intros Hmax name buf. unfold Grid.limitDataBuffer.
  rewrite lookup_fmap. destruct (g !! name); intros [= <-].
  by apply limit_length.
Qed.

Lemma grid_updateChartsData_bounded (now : float) (s : Grid.GridController)
    (data : jsval) :
  (1 <= Grid.maxDataPoints s)%Z -> Grid.gc_bounded s ->
  Grid.gc_bounded (Grid.updateChartsData_plain now s data).2.
Proof.
  intros Hmax [H1 H2]. unfold Grid.updateChartsData_plain.
  destruct (Grid.busy s); [done|].
  unfold Grid.cycle_body.
  destruct (Grid.validateDataFormat data); simpl; [|done].
  destruct (truthy (prop_opt data "ppie") && Grid.grid1Chart s
            && Grid.grid1Visible s);
    destruct (truthy (prop_opt data "vvie") && _ && _);
    simpl; split; simpl; try done; by apply limitDataBuffer_bounded.
Qed.

Lemma empty_group_bounded (maxPoints : Z) (names : list string) :
  (0 <= maxPoints)%Z -> bounded maxPoints (empty_group names).
Proof.
  intros Hmax. unfold empty_group.
  induction names as [|name names IH]; simpl.
  - apply map_Forall_empty.
  - apply map_Forall_insert_2; [simpl; lia|done].
Qed.

Lemma new_ChartsManager_bounded (c : Z) :
  (0 <= c)%Z -> Buffer.cm_bounded (with_capacity c new_ChartsManager).
Proof. intros Hc. split; by apply empty_group_bounded. Qed.

Lemma grid_tick (now : float) (s : Grid.GridController) (t : jsval * jsval)
    (buf : list jsval) :
  Grid.gc_ready s -> not_undefined t.2 = true ->
  Grid.grid1 s !! "p_data" = Some buf ->
  let s' := (Grid.updateChartsData_plain now s (Grid.tick t.1 t.2)).2 in
  Grid.grid1 s' !! "p_data"
  = Some (limit (Grid.maxDataPoints s) (buf ++ [Grid.tick_point now t]))
  /\ Grid.gc_ready s' /\ Grid.maxDataPoints s' = Grid.maxDataPoints s.
Proof.
  intros (Hinit & Hupd & Hchart & Hvis) Hv Hbuf.
  unfold Grid.updateChartsData_plain, Grid.busy. rewrite Hinit, Hupd. simpl.
  unfold Grid.cycle_body. simpl. rewrite Hchart, Hvis. simpl.
  unfold Grid.updateGridBuffer, Grid.push_field. simpl.
  unfold prop_opt at 1. simpl. rewrite Hv.
  unfold Grid.limitDataBuffer.
  rewrite lookup_fmap, lookup_alter_eq, Hbuf. simpl.
  repeat split; done.
Qed.

Lemma grid_feed_ticks (now : float) (ticks : list (jsval * jsval)) :
  forall (s : Grid.GridController) (buf : list jsval),
    (1 <= Grid.maxDataPoints s)%Z -> Grid.gc_ready s ->
    Forall (fun t => not_undefined t.2 = true) ticks ->
    Grid.grid1 s !! "p_data" = Some buf ->
    (Z.of_nat (length buf) <= Grid.maxDataPoints s)%Z ->
    Grid.grid1 (Grid.feed_ticks now ticks s) !! "p_data"
    = Some (last_n (Z.to_nat (Grid.maxDataPoints s))
                   (buf ++ (Grid.tick_point now <$> ticks))).
Proof.
  induction ticks as [|t ticks IH]; intros s buf Hmax Hready Hticks Hbuf Hlen.
  - simpl. rewrite app_nil_r, last_n_all by lia. done.
  - apply Forall_cons in Hticks as [Ht Hticks].
    destruct (grid_tick now s t buf Hready Ht Hbuf) as (Hs & Hready' & Hmax').
    unfold Grid.feed_ticks. rewrite fmap_cons. cbn [fold_left].
    fold (Grid.feed_ticks now ticks
            (Grid.updateChartsData_plain now s (Grid.tick t.1 t.2)).2).
    rewrite (IH _ (limit (Grid.maxDataPoints s)
                         (buf ++ [Grid.tick_point now t])));
      [|by rewrite Hmax'|done|done|done
       |rewrite Hmax'; by apply limit_length].
    rewrite Hmax'. f_equal.
    rewrite limit_last_n by done.
    rewrite last_n_app, <- app_assoc. done.
Qed.

End BufferRuns.

Section GridFrame.
Import JS Json Grid.

Lemma set_isUpdating_idle (s : GridController) :
  isUpdating s = false -> set_isUpdating false (set_isUpdating true s) = s.
Proof. destruct s. simpl. by intros ->. Qed.

(** The fields a cycle never touches. *)
Lemma cycle_body_config (now : float) (s : GridController) (data : jsval) :
  let s' := (cycle_body now s data).2 in
  isInitialized s' = isInitialized s /\ isUpdating s' = isUpdating s
  /\ grid1Chart s' = grid1Chart s /\ grid2Chart s' = grid2Chart s
  /\ grid1Visible s' = grid1Visible s /\ grid2Visible s' = grid2Visible s
  /\ maxDataPoints s' = maxDataPoints s.
Proof.
  unfold cycle_body. destruct (validateDataFormat data); simpl; [|done].
  destruct (truthy (prop_opt data "ppie") && grid1Chart s && grid1Visible s);
    by destruct (truthy (prop_opt data "vvie") && _ && _).
Qed.

Lemma cycle_body_ok (now : float) (s : GridController) (data : jsval) :
  (cycle_body now s data).1 = validateDataFormat data.
Proof. unfold cycle_body. by destruct (validateDataFormat data). Qed.

Lemma cycle_body_invalid (now : float) (s : GridController) (data : jsval) :
  validateDataFormat data = false -> cycle_body now s data = (false, s).
Proof. intros H. unfold cycle_body. by rewrite H. Qed.

Lemma cycle_body_counters (now : float) (s : GridController) (data : jsval) :
  validateDataFormat data = true ->
  updateCount (cycle_body now s data).2 = (updateCount s + 1)%Z
  /\ dataUpdates (cycle_body now s data).2 = dataUpdates s.
Proof.
  intros H. unfold cycle_body. rewrite H. simpl.
  destruct (truthy (prop_opt data "ppie") && grid1Chart s && grid1Visible s);
    by destruct (truthy (prop_opt data "vvie") && _ && _).
Qed.

(** A cycle on a controller whose upper grid is hidden or has no chart. *)
Lemma cycle_body_grid1_off (now : float) (s : GridController) (data : jsval) :
  grid1Chart s && grid1Visible s = false ->
  grid1 (cycle_body now s data).2 = grid1 s.
Proof.
  intros Hoff. unfold cycle_body.
  destruct (validateDataFormat data); simpl; [|done].
  rewrite <- (andb_assoc (truthy (prop_opt data "ppie")) (grid1Chart s)
                (grid1Visible s)), Hoff, andb_false_r.
  by destruct (truthy (prop_opt data "vvie") && _ && _).
Qed.

Lemma plain_config (now : float) (s : GridController) (data : jsval) :
  let s' := (updateChartsData_plain now s data).2 in
  isInitialized s' = isInitialized s
  /\ grid1Chart s' = grid1Chart s /\ grid2Chart s' = grid2Chart s
  /\ grid1Visible s' = grid1Visible s /\ grid2Visible s' = grid2Visible s
  /\ maxDataPoints s' = maxDataPoints s
  /\ (isUpdating s = false -> isUpdating s' = false).
Proof.
  unfold updateChartsData_plain. destruct (busy s); [done|].
  pose proof (cycle_body_config now (set_isUpdating true s) data) as H.
  destruct (cycle_body now (set_isUpdating true s) data) as [[] s1];
    simpl in *; destruct H as (? & _ & ? & ? & ? & ? & ?); done.
Qed.

Lemma plain_grid1_off (now : float) (s : GridController) (data : jsval) :
  grid1Chart s && grid1Visible s = false ->
  grid1 (updateChartsData_plain now s data).2 = grid1 s.
Proof.
  intros Hoff. unfold updateChartsData_plain. destruct (busy s); [done|].
  pose proof (cycle_body_grid1_off now (set_isUpdating true s) data Hoff) as H.
  by destruct (cycle_body now (set_isUpdating true s) data) as [[] s1].
Qed.

Lemma feed_grid1_off (now : float) (packets : list jsval) :
  forall s : GridController,
    grid1Chart s && grid1Visible s = false ->
    grid1 (feed now packets s) = grid1 s
    /\ grid1Chart (feed now packets s) = grid1Chart s
    /\ grid1Visible (feed now packets s) = grid1Visible s.
Proof.
  induction packets as [|data packets IH]; intros s Hoff; [done|].
  unfold feed. cbn [fold_left].
  fold (feed now packets (updateChartsData_plain now s data).2).
  destruct (plain_config now s data) as (_ & Hc & _ & Hv & _).
  destruct (IH (updateChartsData_plain now s data).2) as (I1 & I2 & I3).
  { by rewrite Hc, Hv. }
  rewrite I1, I2, I3, Hc, Hv. by rewrite plain_grid1_off.
Qed.

(** The fields of one group are pushed onto distinct series. *)
Lemma push_fields_other (groupData timestamp : jsval)
    (fields : list (string * string)) (key : string) :
  key ∉ fields.*2 ->
  forall buffer : group,
    fold_left (push_field groupData timestamp) fields buffer !! key
    = buffer !! key.
Proof.
  induction fields as [|[F k] fields IH]; intros Hkey buffer; [done|].
  rewrite fmap_cons in Hkey. apply not_elem_of_cons in Hkey as [Hne Hkey].
  cbn [fold_left]. rewrite IH by done. unfold push_field. simpl.
  destruct (not_undefined (prop_opt groupData F)); [|done].
  by rewrite lookup_alter_ne.
Qed.

Lemma push_fields_lookup (groupData timestamp : jsval)
    (fields : list (string * string)) :
  NoDup fields.*2 ->
  forall (buffer : group) (F key : string),
    (F, key) ∈ fields ->
    fold_left (push_field groupData timestamp) fields buffer !! key
    = (fun buf =>
         buf ++ (if not_undefined (prop_opt groupData F)
                 then [VArr [timestamp; prop_opt groupData F]] else []))
        <$> buffer !! key.
Proof.
  induction fields as [|[F0 k0] fields IH]; intros Hnd buffer F key Hin.
  - by apply elem_of_nil in Hin.
  - rewrite fmap_cons in Hnd. apply NoDup_cons in Hnd as [Hk0 Hnd].
    cbn [fold_left]. apply elem_of_cons in Hin as [[= -> ->]|Hin].
    + rewrite push_fields_other by done. unfold push_field. simpl.
      destruct (not_undefined (prop_opt groupData F0)).
      * by rewrite lookup_alter_eq.
      * destruct (buffer !! k0); simpl; [|done]. by rewrite app_nil_r.
    + rewrite (IH Hnd _ F key Hin). unfold push_field. simpl.
      assert (k0 <> key) as Hne.
      { intros ->. apply Hk0. apply list_elem_of_fmap.
        by exists (F, key). }
      destruct (not_undefined (prop_opt groupData F0)); [|done].
      by rewrite lookup_alter_ne.
Qed.

End GridFrame.

Section SeriesStreams.
Import JS Json Buffer.

Lemma batches_for_cons (name key : string) (value : jsval)
    (es : list (string * jsval)) :
  batches_for name ((key, value) :: es)
  = (if String.eqb key name
     then match value with VArr items => items | _ => [] end
     else [])
    ++ batches_for name es.
Proof.
  unfold batches_for. cbn [omap list_omap fst snd].
  destruct (String.eqb key name); [|done]. by destruct value.
Qed.

(** A group that is falsy, or not an object, has no entries that count. *)
Lemma entries_falsy (v : jsval) :
  truthy v = false -> default [] (entries v) = [].
Proof.
  destruct v as [| |b|x|str|items|fields]; try done.
  simpl. destruct str; [done|discriminate].
Qed.

Lemma entries_truthy (v : jsval) :
  truthy v = true -> entries v = Some (default [] (entries v)).
Proof. by destruct v. Qed.

Lemma prop_opt_of_prop (data v : jsval) (name : string) :
  prop data name = Some v -> prop_opt data name = v.
Proof. unfold prop_opt. by intros ->. Qed.

Lemma prop_some (data v : jsval) (name other : string) :
  prop data name = Some v ->
  prop data other = Some (prop_opt data other).
Proof. by destruct data. Qed.

Lemma prop_none (data : jsval) (name other : string) :
  prop data name = None -> prop_opt data other = VUndefined.
Proof. by destruct data. Qed.

(** The update loop on a plain group: it completes, and every series ends
    with the last [maxPoints] points of what it held and what the group
    carries for it. *)
Lemma push_entries_exact (maxPoints : Z) (es : list (string * jsval)) :
  (1 <= maxPoints)%Z ->
  forallb (fun e : string * jsval => negb (inherited e.1 && isArray e.2)) es
  = true ->
  forall g : group,
    exists g',
      push_entries maxPoints g es = Normal g'
      /\ forall name held,
           g !! name = Some held ->
           (Z.of_nat (length held) <= maxPoints)%Z ->
           g' !! name
           = Some (last_n (Z.to_nat maxPoints) (held ++ batches_for name es)).
Proof.
  intros Hmax. induction es as [|[key value] es IH]; intros Hplain g.
  - exists g. split; [done|]. intros name held Hg Hlen.
    rewrite app_nil_r, last_n_all by lia. done.
  - cbn [forallb fst snd] in Hplain.
    apply andb_prop in Hplain as [Hhead Htail].
    cbn [push_entries]. destruct (g !! key) as [buf|] eqn:Hkey.
    + destruct value as [| |b|x|str|items|fields];
        try (destruct (IH Htail g) as (g' & Hrun & Hcells);
             exists g'; split; [exact Hrun|];
             intros name held Hg Hlen; rewrite batches_for_cons;
             destruct (String.eqb key name); by apply Hcells).
      destruct (IH Htail (<[key := limit maxPoints (buf ++ items)]> g))
        as (g' & Hrun & Hcells).
      exists g'. split; [exact Hrun|]. intros name held Hg Hlen.
      rewrite batches_for_cons.
      destruct (String.eqb_spec key name) as [->|Hne].
      * rewrite Hkey in Hg. injection Hg as ->.
        rewrite (Hcells name (limit maxPoints (held ++ items)))
          by first [by rewrite lookup_insert_eq|by apply limit_length].
        rewrite limit_last_n by done. by rewrite last_n_app, app_assoc.
      * rewrite (Hcells name held)
          by first [by rewrite lookup_insert_ne|done].
        done.
    + apply negb_true_iff in Hhead. rewrite Hhead.
      destruct (IH Htail g) as (g' & Hrun & Hcells).
      exists g'. split; [exact Hrun|]. intros name held Hg Hlen.
      rewrite batches_for_cons.
      destruct (String.eqb_spec key name) as [->|_]; [congruence|].
      by apply Hcells.
Qed.

(** The update loop on any group, also when it stops at a TypeError:
    every series ends with the last [maxPoints] points of what it held
    followed by some appended points. *)
Lemma push_entries_suffix (maxPoints : Z) (es : list (string * jsval)) :
  (1 <= maxPoints)%Z ->
  forall (g : group) name held,
    g !! name = Some held ->
    (Z.of_nat (length held) <= maxPoints)%Z ->
    exists added,
      state_of (push_entries maxPoints g es) !! name
      = Some (last_n (Z.to_nat maxPoints) (held ++ added)).
Proof.
  intros Hmax. induction es as [|[key value] es IH]; intros g name held Hg Hlen.
  - exists []. simpl. rewrite app_nil_r, last_n_all by lia. done.
  - cbn [push_entries]. destruct (g !! key) as [buf|] eqn:Hkey.
    + destruct value as [| |b|x|str|items|fields]; try by apply IH.
      destruct (String.eqb_spec key name) as [->|Hne].
      * rewrite Hkey in Hg. injection Hg as ->.
        destruct (IH (<[name := limit maxPoints (held ++ items)]> g) name
                    (limit maxPoints (held ++ items)))
          as [added Hadded];
          [by rewrite lookup_insert_eq|by apply limit_length|].
        exists (items ++ added). rewrite Hadded.
        rewrite limit_last_n by done. by rewrite last_n_app, app_assoc.
      * apply IH; [by rewrite lookup_insert_ne|done].
    + destruct (inherited key && isArray value); [|by apply IH].
      exists []. simpl. rewrite app_nil_r, last_n_all by lia. done.
Qed.

Lemma exact_after_id (maxPoints : Z) (g : group)
    (batch : string -> list jsval) :
  (forall name, batch name = []) -> exact_after maxPoints g g batch.
Proof.
  intros Hb name held Hg Hlen.
  rewrite Hb, app_nil_r, last_n_all by lia. done.
Qed.

Lemma suffix_after_id (maxPoints : Z) (g : group) :
  suffix_after maxPoints g g.
Proof.
  intros name held Hg Hlen. exists [].
  rewrite app_nil_r, last_n_all by lia. done.
Qed.

(** One packet on a ready manager, when no group of the packet holds an
    array under an inherited name. *)
Lemma updateChartsData_exact (cm : ChartsManager) (data : jsval) :
  (1 <= maxDataPoints cm)%Z -> cm_ready cm -> plain_packet data = true ->
  let cm' := updateChartsData cm data in
  cm_ready cm' /\ maxDataPoints cm' = maxDataPoints cm
  /\ exact_after (maxDataPoints cm) (ppie cm) (ppie cm')
       (fun name => packet_batch "ppie_group" name data)
  /\ exact_after (maxDataPoints cm) (vvie cm) (vvie cm')
       (fun name => packet_batch "vvie_group" name data).
Proof.
  intros Hmax (Hinit & Hpc & Hvc) Hplain cm'. subst cm'.
  apply andb_prop in Hplain as [Hpp Hpv].
  unfold updateChartsData, caught, updateChartsData_try, packet_batch.
  rewrite Hinit. cbn [negb].
  destruct (prop data "ppie_group") as [pg|] eqn:Hpg.
  2:{ cbn [state_of]. rewrite !(prop_none data "ppie_group") by done.
      repeat split; try done; by apply exact_after_id. }
  rewrite (prop_opt_of_prop _ _ _ Hpg) in *.
  rewrite (prop_some data pg "ppie_group" "vvie_group" Hpg).
  set (vg := prop_opt data "vvie_group") in *.
  assert (exists g1,
    (if truthy pg then updatePPIEData cm pg else Normal cm)
    = Normal (set_ppie g1 cm)
    /\ exact_after (maxDataPoints cm) (ppie cm) g1
         (fun name => batches_for name (default [] (entries pg))))
    as (g1 & -> & Hg1).
  { destruct (truthy pg) eqn:Htp.
    - unfold updatePPIEData. rewrite (entries_truthy pg Htp).
      destruct (push_entries_exact (maxDataPoints cm)
                  (default [] (entries pg)) Hmax Hpp (ppie cm))
        as (g1 & -> & Hcells).
      rewrite Hpc. by exists g1.
    - exists (ppie cm). split; [by destruct cm|].
      apply exact_after_id. intros name.
      by rewrite (entries_falsy pg Htp). }
  assert (exists g2,
    state_of (if truthy vg then updateVVIEData (set_ppie g1 cm) vg
              else Normal (set_ppie g1 cm))
    = set_vvie g2 (set_ppie g1 cm)
    /\ exact_after (maxDataPoints cm) (vvie cm) g2
         (fun name => batches_for name (default [] (entries vg))))
    as (g2 & Hg2 & Hcells2).
  { destruct (truthy vg) eqn:Htv.
    - unfold updateVVIEData. rewrite (entries_truthy vg Htv).
      cbn [maxDataPoints vvie set_ppie vvieChart].
      destruct (push_entries_exact (maxDataPoints cm)
                  (default [] (entries vg)) Hmax Hpv (vvie cm))
        as (g2 & -> & Hcells).
      rewrite Hvc. by exists g2.
    - exists (vvie cm). split; [done|].
      apply exact_after_id. intros name.
      by rewrite (entries_falsy vg Htv). }
  rewrite Hg2. cbn [isInitialized ppieChart vvieChart maxDataPoints ppie vvie
                    set_vvie set_ppie].
  repeat split; done.
Qed.

(** One packet of any shape on any manager. *)
Lemma updateChartsData_suffix (cm : ChartsManager) (data : jsval) :
  (1 <= maxDataPoints cm)%Z ->
  let cm' := updateChartsData cm data in
  maxDataPoints cm' = maxDataPoints cm
  /\ suffix_after (maxDataPoints cm) (ppie cm) (ppie cm')
  /\ suffix_after (maxDataPoints cm) (vvie cm) (vvie cm').
Proof.
  intros Hmax cm'. subst cm'.
  unfold updateChartsData, caught, updateChartsData_try.
  destruct (isInitialized cm); cbn [negb];
    [|repeat split; try done; apply suffix_after_id].
  destruct (prop data "ppie_group") as [pg|];
    [|repeat split; try done; apply suffix_after_id].
  assert (exists g1,
    state_of (if truthy pg then updatePPIEData cm pg else Normal cm)
    = set_ppie g1 cm
    /\ suffix_after (maxDataPoints cm) (ppie cm) g1) as (g1 & Hg1 & Hs1).
  { destruct (truthy pg).
    - unfold updatePPIEData. destruct (entries pg) as [es|].
      + exists (state_of (push_entries (maxDataPoints cm) (ppie cm) es)).
        split; [by destruct (push_entries _ _ _); [destruct (ppieChart cm)|]|].
        intros name held Hg Hlen. by apply push_entries_suffix.
      + exists (ppie cm). split; [by destruct cm|apply suffix_after_id].
    - exists (ppie cm). split; [by destruct cm|apply suffix_after_id]. }
  destruct (if truthy pg then updatePPIEData cm pg else Normal cm)
    as [cm1|cm1]; cbn [state_of] in Hg1; subst cm1; cbn [state_of].
  2:{ repeat split; try done. apply suffix_after_id. }
  destruct (prop data "vvie_group") as [vg|]; cbn [state_of].
  2:{ repeat split; try done. apply suffix_after_id. }
  assert (exists g2,
    state_of (if truthy vg then updateVVIEData (set_ppie g1 cm) vg
              else Normal (set_ppie g1 cm))
    = set_vvie g2 (set_ppie g1 cm)
    /\ suffix_after (maxDataPoints cm) (vvie cm) g2) as (g2 & Hg2 & Hs2).
  { destruct (truthy vg).
    - unfold updateVVIEData. destruct (entries vg) as [es|].
      + exists (state_of (push_entries (maxDataPoints cm) (vvie cm) es)).
        split.
        * cbn [maxDataPoints vvie set_ppie vvieChart].
          by destruct (push_entries _ _ _); [destruct (vvieChart cm)|].
        * intros name held Hg Hlen. by apply push_entries_suffix.
      + exists (vvie cm). split; [done|apply suffix_after_id].
    - exists (vvie cm). split; [done|apply suffix_after_id]. }
  rewrite Hg2. repeat split; done.
Qed.

(** A stream of plain packets on a ready manager. *)
Lemma feed_exact (packets : list jsval) :
  forall cm : ChartsManager,
    (1 <= maxDataPoints cm)%Z -> cm_ready cm ->
    Forall (fun data => plain_packet data = true) packets ->
    let cm' := fold_left updateChartsData packets cm in
    exact_after (maxDataPoints cm) (ppie cm) (ppie cm')
      (fun name => List.concat (packet_batch "ppie_group" name <$> packets))
    /\ exact_after (maxDataPoints cm) (vvie cm) (vvie cm')
         (fun name => List.concat (packet_batch "vvie_group" name <$> packets)).
Proof.
  induction packets as [|data packets IH]; intros cm Hmax Hready Hplain.
  - split; by apply exact_after_id.
  - apply Forall_cons in Hplain as [Hd Hplain]. cbn [fold_left].
    destruct (updateChartsData_exact cm data Hmax Hready Hd)
      as (Hready1 & Hmax1 & Hp1 & Hv1).
    destruct (IH (updateChartsData cm data)) as [Hp Hv];
      [by rewrite Hmax1|done|done|].
    rewrite Hmax1 in Hp, Hv.
    split; intros name held Hg Hlen; rewrite fmap_cons; cbn [List.concat].
    + rewrite (Hp name _ (Hp1 name held Hg Hlen))
        by (rewrite last_n_length; lia).
      by rewrite last_n_app, app_assoc.
    + rewrite (Hv name _ (Hv1 name held Hg Hlen))
        by (rewrite last_n_length; lia).
      by rewrite last_n_app, app_assoc.
Qed.

(** A stream of packets of any shape on any manager. *)
Lemma feed_suffix (packets : list jsval) :
  forall cm : ChartsManager,
    (1 <= maxDataPoints cm)%Z ->
    let cm' := fold_left updateChartsData packets cm in
    suffix_after (maxDataPoints cm) (ppie cm) (ppie cm')
    /\ suffix_after (maxDataPoints cm) (vvie cm) (vvie cm').
Proof.
  induction packets as [|data packets IH]; intros cm Hmax.
  - split; apply suffix_after_id.
  - cbn [fold_left].
    destruct (updateChartsData_suffix cm data Hmax) as (Hmax1 & Hp1 & Hv1).
    destruct (IH (updateChartsData cm data)) as [Hp Hv]; [by rewrite Hmax1|].
    rewrite Hmax1 in Hp, Hv.
    split; intros name held Hg Hlen.
    + destruct (Hp1 name held Hg Hlen) as [a1 Ha1].
      destruct (Hp name _ Ha1) as [a2 Ha2]; [rewrite last_n_length; lia|].
      exists (a1 ++ a2). rewrite Ha2. by rewrite last_n_app, app_assoc.
    + destruct (Hv1 name held Hg Hlen) as [a1 Ha1].
      destruct (Hv name _ Ha1) as [a2 Ha2]; [rewrite last_n_length; lia|].
      exists (a1 ++ a2). rewrite Ha2. by rewrite last_n_app, app_assoc.
Qed.

Lemma feed_keeps_bounded (packets : list jsval) :
  forall cm : ChartsManager,
    (1 <= maxDataPoints cm)%Z -> cm_bounded cm ->
    cm_bounded (fold_left updateChartsData packets cm)
    /\ maxDataPoints (fold_left updateChartsData packets cm)
       = maxDataPoints cm.
Proof.
  induction packets as [|data packets IH]; intros cm Hmax Hcm; [done|].
  cbn [fold_left].
  destruct (updateChartsData_suffix cm data Hmax) as (Hmax1 & _).
  destruct (IH (updateChartsData cm data)) as [Hb Hm];
    [by rewrite Hmax1|by apply updateChartsData_bounded|].
  by rewrite Hm.
Qed.

End SeriesStreams.

Section GridStreams.
Import JS Json Grid.

Lemma grid_fields_nodup :
  NoDup grid1_fields.*2 /\ NoDup grid2_fields.*2.
Proof. split; apply (bool_decide_unpack _); vm_compute; reflexivity. Qed.

(** One packet on a ready controller: every series of both grids. *)
Lemma plain_exact (now : float) (s : GridController) (data : jsval) :
  (1 <= maxDataPoints s)%Z -> gc_ready_all s ->
  let s' := (updateChartsData_plain now s data).2 in
  gc_ready_all s' /\ maxDataPoints s' = maxDataPoints s
  /\ (forall F key held,
        (F, key) ∈ grid1_fields -> grid1 s !! key = Some held ->
        (Z.of_nat (length held) <= maxDataPoints s)%Z ->
        grid1 s' !! key
        = Some (last_n (Z.to_nat (maxDataPoints s))
                       (held ++ packet_points now "ppie" F data)))
  /\ (forall F key held,
        (F, key) ∈ grid2_fields -> grid2 s !! key = Some held ->
        (Z.of_nat (length held) <= maxDataPoints s)%Z ->
        grid2 s' !! key
        = Some (last_n (Z.to_nat (maxDataPoints s))
                       (held ++ packet_points now "vvie" F data))).
Proof.
  intros Hmax (Hinit & Hupd & Hc1 & Hv1 & Hc2 & Hv2) s'. subst s'.
  unfold updateChartsData_plain, busy. rewrite Hinit, Hupd. cbn [negb orb].
  unfold cycle_body, packet_points.
  destruct (validateDataFormat data); cbn [negb andb].
  2:{ cbn [snd]. rewrite set_isUpdating_idle by done.
      repeat split; try done;
        intros F key held _ Hg Hlen;
        rewrite app_nil_r, last_n_all by lia; done. }
  cbn [grid1Chart grid1Visible set_isUpdating]. rewrite Hc1, Hv1.
  rewrite !andb_true_r.
  set (s0 := set_isUpdating true s).
  set (s1 := if truthy (prop_opt data "ppie")
             then updateGrid1Data now s0 (prop_opt data "ppie")
                                  (prop_opt data "metadata")
             else s0).
  assert (grid2Chart s1 = true /\ grid2Visible s1 = true
          /\ grid2 s1 = grid2 s /\ maxDataPoints s1 = maxDataPoints s
          /\ isInitialized s1 = true
          /\ grid1Chart s1 = true /\ grid1Visible s1 = true) as
    (Hc2' & Hv2' & Hg2 & Hm1 & Hi1 & Hc1' & Hv1').
  { subst s1 s0. by destruct (truthy (prop_opt data "ppie")). }
  rewrite Hc2', Hv2', !andb_true_r.
  assert (forall F key held,
            (F, key) ∈ grid1_fields -> grid1 s !! key = Some held ->
            (Z.of_nat (length held) <= maxDataPoints s)%Z ->
            grid1 s1 !! key
            = Some (last_n (Z.to_nat (maxDataPoints s))
                      (held ++ (if truthy (prop_opt data "ppie")
                                then
                                  if not_undefined
                                       (prop_opt (prop_opt data "ppie") F)
                                  then [VArr [packet_timestamp now
                                                (prop_opt data "metadata");
                                              prop_opt (prop_opt data "ppie") F]]
                                  else []
                                else []))))
    as Hgrid1.
  { intros F key held Hin Hg Hlen. subst s1 s0.
    destruct (truthy (prop_opt data "ppie")).
    - unfold updateGrid1Data, updateGridBuffer, limitDataBuffer.
      cbn [grid1 set_grid1 maxDataPoints set_isUpdating].
      rewrite lookup_fmap,
        (push_fields_lookup _ _ grid1_fields (proj1 grid_fields_nodup)
           _ F key Hin), Hg.
      cbn [fmap option_fmap option_map]. by rewrite limit_last_n.
    - cbn [grid1 set_isUpdating]. rewrite Hg, app_nil_r, last_n_all by lia.
      done. }
  set (s2 := if truthy (prop_opt data "vvie")
             then updateGrid2Data now s1 (prop_opt data "vvie")
                                  (prop_opt data "metadata")
             else s1).
  assert (grid1 s2 = grid1 s1 /\ maxDataPoints s2 = maxDataPoints s
          /\ isInitialized s2 = true
          /\ grid1Chart s2 = true /\ grid1Visible s2 = true
          /\ grid2Chart s2 = true /\ grid2Visible s2 = true) as
    (Hg1 & Hm2 & Hi2 & Hc1'' & Hv1'' & Hc2'' & Hv2'').
  { subst s2. by destruct (truthy (prop_opt data "vvie")). }
  assert (forall F key held,
            (F, key) ∈ grid2_fields -> grid2 s !! key = Some held ->
            (Z.of_nat (length held) <= maxDataPoints s)%Z ->
            grid2 s2 !! key
            = Some (last_n (Z.to_nat (maxDataPoints s))
                      (held ++ (if truthy (prop_opt data "vvie")
                                then
                                  if not_undefined
                                       (prop_opt (prop_opt data "vvie") F)
                                  then [VArr [packet_timestamp now
                                                (prop_opt data "metadata");
                                              prop_opt (prop_opt data "vvie") F]]
                                  else []
                                else []))))
    as Hgrid2.
  { intros F key held Hin Hg Hlen. subst s2.
    destruct (truthy (prop_opt data "vvie")).
    - unfold updateGrid2Data, updateGridBuffer, limitDataBuffer.
      cbn [grid2 set_grid2]. rewrite Hm1, Hg2.
      rewrite lookup_fmap,
        (push_fields_lookup _ _ grid2_fields (proj2 grid_fields_nodup)
           _ F key Hin), Hg.
      cbn [fmap option_fmap option_map]. by rewrite limit_last_n.
    - rewrite Hg2, Hg, app_nil_r, last_n_all by lia. done. }
  cbn [snd isInitialized isUpdating grid1Chart grid2Chart grid1Visible
       grid2Visible grid1 grid2 maxDataPoints set_isUpdating
       emit_onDataUpdate updatePerformanceStats].
  rewrite Hg1. repeat split; done.
Qed.

Lemma run_packets_exact (packets : list (float * jsval)) :
  forall s : GridController,
    (1 <= maxDataPoints s)%Z -> gc_ready_all s ->
    let s' := run_packets packets s in
    (forall F key held,
       (F, key) ∈ grid1_fields -> grid1 s !! key = Some held ->
       (Z.of_nat (length held) <= maxDataPoints s)%Z ->
       grid1 s' !! key
       = Some (last_n (Z.to_nat (maxDataPoints s))
                 (held ++ List.concat
                            ((fun p => packet_points p.1 "ppie" F p.2)
                               <$> packets))))
    /\ (forall F key held,
          (F, key) ∈ grid2_fields -> grid2 s !! key = Some held ->
          (Z.of_nat (length held) <= maxDataPoints s)%Z ->
          grid2 s' !! key
          = Some (last_n (Z.to_nat (maxDataPoints s))
                    (held ++ List.concat
                               ((fun p => packet_points p.1 "vvie" F p.2)
                                  <$> packets)))).
Proof.
  induction packets as [|[now data] packets IH]; intros s Hmax Hready.
  - split; intros F key held _ Hg Hlen; cbn [run_packets fold_left];
      simpl; rewrite app_nil_r, last_n_all by lia; done.
  - unfold run_packets. cbn [fold_left fst snd].
    fold (run_packets packets (updateChartsData_plain now s data).2).
    destruct (plain_exact now s data Hmax Hready) as (Hready1 & Hmax1 & H1 & H2).
    destruct (IH (updateChartsData_plain now s data).2) as [I1 I2];
      [by rewrite Hmax1|done|].
    rewrite Hmax1 in I1, I2.
    split; intros F key held Hin Hg Hlen; rewrite fmap_cons;
      cbn [List.concat fst snd].
    + rewrite (I1 F key _ Hin (H1 F key held Hin Hg Hlen))
        by (rewrite last_n_length; lia).
      by rewrite last_n_app, app_assoc.
    + rewrite (I2 F key _ Hin (H2 F key held Hin Hg Hlen))
        by (rewrite last_n_length; lia).
      by rewrite last_n_app, app_assoc.
Qed.

Lemma run_packets_bounded (packets : list (float * jsval)) :
  forall s : GridController,
    (1 <= maxDataPoints s)%Z -> gc_bounded s ->
    gc_bounded (run_packets packets s).
Proof.
  induction packets as [|[now data] packets IH]; intros s Hmax Hb; [done|].
  unfold run_packets. cbn [fold_left fst snd].
  fold (run_packets packets (updateChartsData_plain now s data).2).
  apply IH; [|by apply grid_updateChartsData_bounded].
  destruct (plain_config now s data) as (_ & _ & _ & _ & _ & -> & _). done.
Qed.

End GridStreams.

(** C3.  For every capacity [C >= 1], which covers the 1000 that both
    constructors set and nothing changes: every series of the chart
    manager, price or volume, fed with any stream of packets, holds the last
    [C] points of what it held followed by what the packets carry for it, in
    arrival order; so once more than [C] points have been appended its
    length is [C] and it holds exactly the last [C] appended (capacity 5
    with pushes timestamped 1..7 leaves [3,4,5,6,7]).  The same holds for
    every series of both grids of the grid controller.  A full buffer is
    cut, nothing is raised: after packets of any shape every series is
    within capacity and is still the last [C] points of what it held
    followed by appended points. *)
Theorem series_buffer_eviction (cm : Buffer.ChartsManager)
    (packets : list Json.jsval) :
  (1 <= Buffer.maxDataPoints cm)%Z ->
  Buffer.cm_ready cm ->
  Buffer.cm_bounded cm ->
  Forall (fun data => Buffer.plain_packet data = true) packets ->
  let C := Z.to_nat (Buffer.maxDataPoints cm) in
  let cm' := fold_left Buffer.updateChartsData packets cm in
  (forall name held,
     Buffer.ppie cm !! name = Some held ->
     let appended :=
       List.concat (Buffer.packet_batch "ppie_group" name <$> packets) in
     Buffer.ppie_series cm' name = Buffer.last_n C (held ++ appended)
     /\ length (Buffer.ppie_series cm' name) <= C
     /\ (C < length appended ->
         length (Buffer.ppie_series cm' name) = C
         /\ Buffer.ppie_series cm' name = Buffer.last_n C appended))
  /\ (forall name held,
        Buffer.vvie cm !! name = Some held ->
        let appended :=
          List.concat (Buffer.packet_batch "vvie_group" name <$> packets) in
        Buffer.vvie_series cm' name = Buffer.last_n C (held ++ appended)
        /\ length (Buffer.vvie_series cm' name) <= C
        /\ (C < length appended ->
            length (Buffer.vvie_series cm' name) = C
            /\ Buffer.vvie_series cm' name = Buffer.last_n C appended))
  /\ (forall any : list Json.jsval,
        let cm2 := fold_left Buffer.updateChartsData any cm in
        Buffer.cm_bounded cm2
        /\ (forall name held,
              Buffer.ppie cm !! name = Some held ->
              exists added,
                Buffer.ppie_series cm2 name = Buffer.last_n C (held ++ added))
        /\ (forall name held,
              Buffer.vvie cm !! name = Some held ->
              exists added,
                Buffer.vvie_series cm2 name
                = Buffer.last_n C (held ++ added)))
  /\ (forall (s : Grid.GridController) (stream : list (float * Json.jsval)),
        (1 <= Grid.maxDataPoints s)%Z -> Grid.gc_ready_all s ->
        Grid.gc_bounded s ->
        let G := Z.to_nat (Grid.maxDataPoints s) in
        let s' := Grid.run_packets stream s in
        Grid.gc_bounded s'
        /\ (forall F key held,
              (F, key) ∈ Grid.grid1_fields ->
              Grid.grid1 s !! key = Some held ->
              let appended :=
                List.concat
                  ((fun p => Grid.packet_points p.1 "ppie" F p.2) <$> stream) in
              Grid.grid1_series s' key = Buffer.last_n G (held ++ appended)
              /\ (G < length appended ->
                  length (Grid.grid1_series s' key) = G
                  /\ Grid.grid1_series s' key = Buffer.last_n G appended))
        /\ (forall F key held,
              (F, key) ∈ Grid.grid2_fields ->
              Grid.grid2 s !! key = Some held ->
              let appended :=
                List.concat
                  ((fun p => Grid.packet_points p.1 "vvie" F p.2) <$> stream) in
              Grid.grid2_series s' key = Buffer.last_n G (held ++ appended)
              /\ (G < length appended ->
                  length (Grid.grid2_series s' key) = G
                  /\ Grid.grid2_series s' key = Buffer.last_n G appended)))
  /\ (forall (now : float) (s : Grid.GridController) (data : Json.jsval),
        (1 <= Grid.maxDataPoints s)%Z -> Grid.gc_bounded s ->
        Grid.gc_bounded (Grid.updateChartsData_plain now s data).2)
  /\ Buffer.ppie_series
       (fold_left Buffer.updateChartsData
          (Buffer.ppie_packet "p_data"
             <$> [[Buffer.point 1]; [Buffer.point 2; Buffer.point 3];
                  [Buffer.point 4]; [Buffer.point 5]; [Buffer.point 6];
                  [Buffer.point 7]])
          (Buffer.with_capacity 5 Buffer.new_ChartsManager))
       "p_data"
     = Buffer.point <$> [3; 4; 5; 6; 7]%float.
Proof.
  intros Hmax Hready Hcm Hplain C cm'.
  destruct (feed_exact packets cm Hmax Hready Hplain) as [Hp Hv].
  fold cm' in Hp, Hv.
  assert (forall (held appended series : list Json.jsval),
            series = Buffer.last_n C (held ++ appended) ->
            series = Buffer.last_n C (held ++ appended)
            /\ length series <= C
            /\ (C < length appended ->
                length series = C /\ series = Buffer.last_n C appended))
    as Hshape.
  { intros held appended series ->. split; [done|]. split.
    - rewrite last_n_length. lia.
    - intros Hmore. rewrite last_n_app_ge by lia.
      split; [|done]. rewrite last_n_length. lia. }
  split; [|split; [|split; [|split; [|split]]]].
  - intros name held Hheld appended. apply Hshape.
    unfold Buffer.ppie_series.
    by rewrite (Hp name held Hheld (proj1 Hcm name held Hheld)).
  - intros name held Hheld appended. apply Hshape.
    unfold Buffer.vvie_series.
    by rewrite (Hv name held Hheld (proj2 Hcm name held Hheld)).
  - intros any cm2. destruct (feed_suffix any cm Hmax) as [Sp Sv].
    fold cm2 in Sp, Sv.
    split; [exact (proj1 (feed_keeps_bounded any cm Hmax Hcm))|]. split.
    + intros name held Hheld.
      destruct (Sp name held Hheld (proj1 Hcm name held Hheld))
        as [added Hadded].
      exists added. unfold Buffer.ppie_series. by rewrite Hadded.
    + intros name held Hheld.
      destruct (Sv name held Hheld (proj2 Hcm name held Hheld))
        as [added Hadded].
      exists added. unfold Buffer.vvie_series. by rewrite Hadded.
  - intros s stream Hs1 Hsready Hsb G s'.
    destruct (run_packets_exact stream s Hs1 Hsready) as [G1 G2].
    fold s' in G1, G2.
    assert (forall (held appended series : list Json.jsval),
              series = Buffer.last_n G (held ++ appended) ->
              series = Buffer.last_n G (held ++ appended)
              /\ (G < length appended ->
                  length series = G /\ series = Buffer.last_n G appended))
      as Hshape'.
    { intros held appended series ->. split; [done|].
      intros Hmore. rewrite last_n_app_ge by lia.
      split; [|done]. rewrite last_n_length. lia. }
    split; [by apply run_packets_bounded|]. split.
    + intros F key held Hin Hheld appended. apply Hshape'.
      unfold Grid.grid1_series.
      by rewrite (G1 F key held Hin Hheld (proj1 Hsb key held Hheld)).
    + intros F key held Hin Hheld appended. apply Hshape'.
      unfold Grid.grid2_series.
      by rewrite (G2 F key held Hin Hheld (proj2 Hsb key held Hheld)).
  - intros now s data Hs1 Hb. by apply grid_updateChartsData_bounded.
  - vm_compute. reflexivity.
Qed.

(** The theorem on the manager the constructor builds (capacity 1000) and
    three well-formed packets that carry one point for every series: the
    volume series holds the three points, in arrival order. *)
Lemma series_buffer_eviction_witness :
  let packets := App.full_packet <$> [1; 2; 3]%float in
  Buffer.vvie_series
    (fold_left Buffer.updateChartsData packets Buffer.new_ChartsManager)
    "v_data"
  = Buffer.point <$> [1; 2; 3]%float.
Proof.
  intros packets.
  assert (Buffer.cm_bounded Buffer.new_ChartsManager) as Hb
    by (split; apply (bool_decide_unpack _); vm_compute; reflexivity).
  assert (Forall (fun data => Buffer.plain_packet data = true) packets)
    as Hplain by (repeat constructor).
  exact (proj1 (proj1 (proj2 (series_buffer_eviction Buffer.new_ChartsManager
                                packets ltac:(vm_compute; discriminate)
                                (conj eq_refl (conj eq_refl eq_refl))
                                Hb Hplain))
                  "v_data" [] eq_refl)).
Defined.

(** ** The connection manager *)

Section SocketFacts.
Import JS Json Socket.

Lemma scheduleReconnect_schedules (s : WebSocketManager) :
  (reconnectAttempts s < maxReconnectAttempts s)%Z ->
  let delay :=
    Z.min (reconnectDelay s * 2 ^ reconnectAttempts s) (maxReconnectDelay s) in
  scheduleReconnect s
  = with_timers (timers s ++ [delay])
      (updateConnectionStatus Reconnecting
         (log (LogReconnect delay (reconnectAttempts s + 1))
              (with_attempts (reconnectAttempts s + 1) s))).
Proof.
  intros Hlt. unfold scheduleReconnect, backoff_delay.
  destruct (Z.leb_spec (maxReconnectAttempts s) (reconnectAttempts s)); [lia|].
  simpl. by replace (reconnectAttempts s + 1 - 1)%Z with (reconnectAttempts s)
    by lia.
Qed.

Lemma scheduleReconnect_exhausted (s : WebSocketManager) :
  (maxReconnectAttempts s <= reconnectAttempts s)%Z ->
  scheduleReconnect s = updateConnectionStatus Failed (log ErrorMaxReconnect s).
Proof.
  intros Hge. unfold scheduleReconnect.
  by destruct (Z.leb_spec (maxReconnectAttempts s) (reconnectAttempts s));
    [|lia].
Qed.

End SocketFacts.

(** C4. The delay scheduled before the k-th automatic reconnect is
    [min(baseDelay * 2^(k-1), maxDelay)]; once the attempts are used up a
    failure schedules nothing and shows [failed].  With the defaults the
    delays of ten failures in a row are 1000, 2000, 4000, 8000, 16000 and
    then 30000, and the eleventh failure ends in [failed]. *)
Theorem reconnect_backoff_schedule (s : Socket.WebSocketManager) (k : Z) :
  (1 <= k)%Z ->
  Socket.reconnectAttempts s = (k - 1)%Z ->
  (k <= Socket.maxReconnectAttempts s)%Z ->
  let delay :=
    Z.min (Socket.reconnectDelay s * 2 ^ (k - 1)) (Socket.maxReconnectDelay s) in
  let s' := Socket.scheduleReconnect s in
  Socket.timers s' = Socket.timers s ++ [delay]
  /\ Socket.reconnect_delays s' = Socket.reconnect_delays s ++ [delay]
  /\ Socket.reconnectAttempts s' = k
  /\ Socket.lastStatus s' = Some Socket.Reconnecting
  /\ (forall f : Socket.WebSocketManager,
        (Socket.maxReconnectAttempts f <= Socket.reconnectAttempts f)%Z ->
        Socket.lastStatus (Socket.scheduleReconnect f) = Some Socket.Failed
        /\ Socket.timers (Socket.scheduleReconnect f) = Socket.timers f
        /\ Socket.reconnect_delays (Socket.scheduleReconnect f)
           = Socket.reconnect_delays f)
  /\ (forall n : nat,
        n <= 10 ->
        Socket.reconnect_delays
          (Socket.run Socket.new_WebSocketManager (Socket.failures n))
        = take n [1000; 2000; 4000; 8000; 16000; 30000; 30000; 30000; 30000;
                  30000]%Z)
  /\ (let s10 :=
        Socket.run Socket.new_WebSocketManager (Socket.failures 10) in
      let s11 :=
        Socket.run Socket.new_WebSocketManager (Socket.failures 11) in
      Socket.lastStatus s10 = Some Socket.Reconnecting
      /\ Socket.timers s10 = [30000%Z]
      /\ Socket.lastStatus s11 = Some Socket.Failed
      /\ Socket.timers s11 = []
      /\ Socket.reconnect_delays s11 = Socket.reconnect_delays s10).
Proof.
  intros Hk Hattempts Hmax delay s'. subst delay s'.
  rewrite scheduleReconnect_schedules by lia.
  rewrite Hattempts. replace (k - 1 + 1)%Z with k by lia.
  split; [done|]. split.
  { unfold Socket.reconnect_delays. simpl. by rewrite omap_app. }
  split; [done|]. split; [done|]. split; [|split].
  - intros f Hf. rewrite scheduleReconnect_exhausted by done.
    split; [done|]. split; [done|].
    unfold Socket.reconnect_delays. simpl. rewrite omap_app. simpl.
    by rewrite app_nil_r.
  - intros n Hn.
    do 11 (destruct n as [|n]; [vm_compute; reflexivity|]). lia.
  - vm_compute. repeat split.
Qed.

(** The theorem at the sixth attempt of the default configuration, where
    the cap first applies. *)
Lemma reconnect_backoff_schedule_witness :
  let s := Socket.with_attempts 5 Socket.new_WebSocketManager in
  Socket.timers (Socket.scheduleReconnect s) = [30000%Z].
Proof.
  intros s.
  exact (proj1 (reconnect_backoff_schedule s 6 ltac:(lia) eq_refl
                  ltac:(simpl; lia))).
Defined.

Section FailedFacts.
Import JS Json Socket.

Lemma step_failed_at_rest (s : WebSocketManager) (i : input) :
  failed_at_rest s -> without_connect i = true ->
  failed_at_rest (step s i)
  /\ reconnectAttempts (step s i) = reconnectAttempts s.
Proof.
  intros (Hst & Hc & Hg & Hmax & Ht) Hi.
  destruct i as [| |now|reason| |]; try discriminate Hi; cbn [step].
  - unfold disconnect. rewrite Hc, Hg. cbn [negb andb].
    by repeat split.
  - unfold on_disconnect. cbn [without_connect] in Hi. rewrite Hi.
    rewrite scheduleReconnect_exhausted by (simpl; lia).
    by repeat split.
  - unfold on_connect_error.
    rewrite scheduleReconnect_exhausted by (simpl; lia).
    by repeat split.
  - unfold timer_fired. rewrite Ht. by repeat split.
Qed.

Lemma run_failed_at_rest (inputs : list input) :
  forall s : WebSocketManager,
    failed_at_rest s ->
    Forall (fun i => without_connect i = true) inputs ->
    failed_at_rest (run s inputs)
    /\ reconnectAttempts (run s inputs) = reconnectAttempts s.
Proof.
  induction inputs as [|i inputs IH]; intros s Hs Hin; [done|].
  apply Forall_cons in Hin as [Hi Hin].
  destruct (step_failed_at_rest s i Hs Hi) as [Hs1 Ha1].
  unfold run. cbn [fold_left]. fold (run (step s i) inputs).
  destruct (IH (step s i) Hs1 Hin) as [Hs2 Ha2].
  split; [done|]. by rewrite Ha2.
Qed.

End FailedFacts.

(** C5, as the code has it.  From the failed state, [connect()] starts a
    new attempt but leaves the retry counter where it was; the counter is
    reset to 0 by the transport's [connect] event, that is, once the manual
    attempt succeeds.  If the manual attempt fails, the manager is back in
    [failed] with no retry scheduled.  The failed state is not terminal
    until an explicit call: a reconnect timer that is still pending from an
    earlier schedule calls [connect()] itself when it fires and takes the
    manager out of [failed].  With no timer pending, the manager stays
    failed, with its counter, through every later connection error,
    unrequested disconnect, timer and [disconnect()] call. *)
Theorem connect_after_failed (s : Socket.WebSocketManager) :
  Socket.lastStatus s = Some Socket.Failed ->
  Socket.isConnected s = false ->
  Socket.isConnecting s = false ->
  (Socket.maxReconnectAttempts s <= Socket.reconnectAttempts s)%Z ->
  let s1 := Socket.connect s in
  Socket.reconnectAttempts s1 = Socket.reconnectAttempts s
  /\ Socket.lastStatus s1 = Some Socket.Connecting
  /\ Socket.isConnecting s1 = true
  /\ (forall now : Z,
        Socket.reconnectAttempts (Socket.on_connect now s1) = 0%Z
        /\ Socket.lastStatus (Socket.on_connect now s1)
           = Some Socket.Connected)
  /\ (let s2 := Socket.on_connect_error s1 in
      Socket.lastStatus s2 = Some Socket.Failed
      /\ Socket.timers s2 = Socket.timers s
      /\ Socket.reconnect_delays s2 = Socket.reconnect_delays s
      /\ Socket.reconnectAttempts s2 = Socket.reconnectAttempts s)
  /\ (forall (d : Z) (rest : list Z),
        Socket.timers s = d :: rest ->
        let s3 := Socket.timer_fired s in
        s3 = Socket.connect (Socket.with_timers rest s)
        /\ Socket.lastStatus s3 = Some Socket.Connecting
        /\ Socket.isConnecting s3 = true
        /\ Socket.timers s3 = rest
        /\ Socket.reconnectAttempts s3 = Socket.reconnectAttempts s)
  /\ (Socket.timers s = [] ->
      Socket.timer_fired s = s
      /\ Socket.disconnect s = s
      /\ forall inputs : list Socket.input,
           Forall (fun i => Socket.without_connect i = true) inputs ->
           let s4 := Socket.run s inputs in
           Socket.lastStatus s4 = Some Socket.Failed
           /\ Socket.isConnected s4 = false
           /\ Socket.isConnecting s4 = false
           /\ Socket.timers s4 = []
           /\ Socket.reconnectAttempts s4 = Socket.reconnectAttempts s).
Proof.
  intros Hfailed Hconn Hconning Hmax s1. subst s1.
  assert (Socket.connect s
          = Socket.updateConnectionStatus Socket.Connecting
              (Socket.with_flags (Socket.isConnected s) true s)) as Hconnect
    by (unfold Socket.connect; by rewrite Hconn, Hconning).
  rewrite Hconnect. cbn [Socket.reconnectAttempts Socket.lastStatus
                         Socket.isConnecting Socket.updateConnectionStatus
                         Socket.with_flags].
  split; [done|]. split; [done|]. split; [done|].
  split; [by intros now|].
  split.
  { unfold Socket.on_connect_error.
    rewrite scheduleReconnect_exhausted by (simpl; lia).
    repeat split; try done.
    unfold Socket.reconnect_delays. simpl. rewrite omap_app. simpl.
    by rewrite app_nil_r. }
  split.
  - intros d rest Ht. cbv zeta. unfold Socket.timer_fired.
    rewrite Ht. cbn [Socket.isConnected Socket.with_timers].
    rewrite Hconn. cbn [negb]. split; [done|].
    unfold Socket.connect. cbn [Socket.isConnected Socket.isConnecting
                                Socket.with_timers].
    rewrite Hconn, Hconning. by repeat split.
  - intros Ht. split; [unfold Socket.timer_fired; by rewrite Ht|].
    split; [unfold Socket.disconnect; by rewrite Hconn, Hconning|].
    intros inputs Hin. cbv zeta.
    destruct (run_failed_at_rest inputs s
                (conj Hfailed (conj Hconn (conj Hconning (conj Hmax Ht))))
                Hin) as [(H1 & H2 & H3 & _ & H5) H6].
    by repeat split.
Qed.

(** The theorem on the default manager in a failed state that still has a
    reconnect timer pending: nine failures, a [connect()] by hand during the
    back-off, and two more failures. *)
Lemma connect_after_failed_witness :
  let s :=
    Socket.run Socket.new_WebSocketManager
      (Socket.failures 9
       ++ [Socket.CallConnect; Socket.SockConnectError;
           Socket.TimerFired; Socket.SockConnectError]) in
  Socket.reconnectAttempts (Socket.connect s) = 10%Z
  /\ Socket.lastStatus (Socket.connect s) = Some Socket.Connecting
  /\ Socket.lastStatus (Socket.timer_fired s) = Some Socket.Connecting
  /\ Socket.isConnecting (Socket.timer_fired s) = true.
Proof.
  intros s.
  destruct (connect_after_failed s eq_refl eq_refl eq_refl
              ltac:(vm_compute; discriminate))
    as (H1 & H2 & _ & _ & _ & Htimer & _).
  destruct (Htimer 30000%Z [] eq_refl) as (_ & H3 & H4 & _).
  split; [exact H1|]. split; [exact H2|]. split; [exact H3|exact H4].
Defined.

(** C5, as stated, fails twice.  After eleven failures in a row the
    default manager is failed with its counter at 10, and [connect()]
    leaves the counter at 10, not 0; when that manual attempt fails too, the
    manager is failed again at once, with no retry scheduled.  And the
    failed state is left without any call to [connect()]: after nine
    failures, a [connect()] by hand during the back-off and two more
    failures, the manager is failed with a timer of 30000 ms still pending,
    and that timer takes it to connecting. *)
Lemma connect_keeps_attempt_counter :
  let s := Socket.run Socket.new_WebSocketManager (Socket.failures 11) in
  let pending :=
    Socket.run Socket.new_WebSocketManager
      (Socket.failures 9
       ++ [Socket.CallConnect; Socket.SockConnectError;
           Socket.TimerFired; Socket.SockConnectError]) in
  Socket.lastStatus s = Some Socket.Failed
  /\ Socket.reconnectAttempts s = 10%Z
  /\ Socket.reconnectAttempts (Socket.connect s) = 10%Z
  /\ Socket.reconnectAttempts (Socket.connect s) <> 0%Z
  /\ Socket.lastStatus (Socket.on_connect_error (Socket.connect s))
     = Some Socket.Failed
  /\ Socket.timers (Socket.on_connect_error (Socket.connect s)) = []
  /\ Socket.lastStatus pending = Some Socket.Failed
  /\ Socket.timers pending = [30000%Z]
  /\ Socket.lastStatus (Socket.run pending [Socket.TimerFired])
     = Some Socket.Connecting
  /\ Socket.lastStatus (Socket.run pending [Socket.TimerFired])
     <> Some Socket.Failed.
Proof. vm_compute. repeat split; discriminate. Qed.

(** ** Packet validation *)

Section ValidationFacts.
Import JS Json Socket.

Lemma prop_truthy (v : jsval) (name : string) :
  truthy v = true -> prop v name = Some (prop_opt v name).
Proof. by destruct v. Qed.

Lemma every_isArray_forallb (grp : jsval) (fields : list string) :
  truthy grp = true ->
  every_isArray grp fields
  = Some (forallb (fun field => has grp field isArray) fields).
Proof.
  intros Hgrp. induction fields as [|field fields IH]; [done|].
  simpl. unfold has at 1. rewrite (prop_truthy grp field Hgrp). simpl.
  by destruct (isArray (prop_opt grp field)).
Qed.

Local Ltac step :=
  cbn -[every_isArray forallb requiredPpieFields requiredVvieFields].

(** The validator never raises, and accepts exactly the packets described
    by [accepts]. *)
Lemma validateRealtimeData_accepts (data : jsval) :
  validateRealtimeData data = Some (accepts data).
Proof.
  unfold validateRealtimeData, accepts.
  destruct (truthy data) eqn:Hdata; [|done].
  destruct (typeof_object data); [|done]. step.
  unfold has at 1 2 3.
  rewrite !(prop_truthy data _ Hdata). step.
  destruct (truthy (prop_opt data "metadata")) eqn:Hm; [|done]. step.
  destruct (truthy (prop_opt data "ppie_group")) eqn:Hp; [|done]. step.
  destruct (truthy (prop_opt data "vvie_group")) eqn:Hv; [|done]. step.
  unfold has at 1 2.
  rewrite !(prop_truthy (prop_opt data "metadata") _ Hm). step.
  destruct (truthy (prop_opt (prop_opt data "metadata") "timestamp"));
    [|done]. step.
  destruct (truthy (prop_opt (prop_opt data "metadata") "sequence_id"));
    [|done]. step.
  rewrite (every_isArray_forallb _ _ Hp). step.
  destruct (forallb _ requiredPpieFields); [|done]. step.
  by rewrite (every_isArray_forallb _ _ Hv).
Qed.

End ValidationFacts.

Section StreamFacts.
Import JS Json Socket.

Context {X : Type} (onData : jsval -> X -> X).

Lemma receive_step (p : WebSocketManager * X) (e : transport_event) :
  let p' := receive onData p e in
  dataEvents p'.1 = dataEvents p.1 ++ option_list (delivered e)
  /\ p'.2 = fold_left (fun x data => onData data x)
                      (option_list (delivered e)) p.2
  /\ receivedDataCount p'.1
     = (receivedDataCount p.1 + (if is_accepted_realtime e then 1 else 0))%Z.
Proof.
  destruct p as [ws x]. destruct e as [now data|response]; simpl.
  - unfold handleRealtimeData. rewrite validateRealtimeData_accepts. simpl.
    destruct (accepts data); simpl.
    + done.
    + rewrite app_nil_r. split; [done|]. split; [done|]. lia.
  - unfold handleHistoryResponse, prop_opt.
    destruct (prop response "status") as [st|]; simpl.
    + destruct (is_string st "success"); simpl.
      * split; [done|]. split; [done|]. lia.
      * rewrite app_nil_r. split; [done|]. split; [done|]. lia.
    + rewrite app_nil_r. split; [done|]. split; [done|]. lia.
Qed.

Lemma receive_stream (events : list transport_event) :
  forall p : WebSocketManager * X,
    let p' := fold_left (receive onData) events p in
    dataEvents p'.1 = dataEvents p.1 ++ omap delivered events
    /\ p'.2 = fold_left (fun x data => onData data x)
                        (omap delivered events) p.2
    /\ receivedDataCount p'.1
       = (receivedDataCount p.1
          + Z.of_nat (length (filter (fun e => is_accepted_realtime e = true)
                                     events)))%Z.
Proof.
  induction events as [|e events IH]; intros p.
  - simpl. rewrite app_nil_r. split; [done|]. split; [done|]. lia.
  - cbn [fold_left]. destruct (IH (receive onData p e)) as (I1 & I2 & I3).
    destruct (receive_step p e) as (S1 & S2 & S3).
    cbv zeta. rewrite I1, I2, I3, S1, S2, S3.
    assert (omap delivered (e :: events)
            = option_list (delivered e) ++ omap delivered events) as ->
      by (simpl; by destruct (delivered e)).
    rewrite fold_left_app, app_assoc. split; [done|]. split; [done|].
    rewrite filter_cons.
    destruct (is_accepted_realtime e);
      destruct (decide _); simpl; try done; lia.
Qed.

End StreamFacts.

(** C6, as the code has it.  A received realtime packet is accepted if
    and only if it is an object whose metadata block and both groups are
    present, whose timestamp and sequence id are present and truthy (their
    type is not checked), and whose groups hold each of their four expected
    series as an array; validation never raises.  A rejected packet is
    logged and dropped: no data event, no counter change, and the page
    behind the [onData] listener is left as it was.  An accepted packet is
    handed to the listeners once.  The data event does not fire for
    accepted packets only: the data of a history response whose status is
    "success" is handed to the same listeners without any validation.  Over
    any stream the listeners receive exactly the accepted realtime packets
    and the data of the successful history responses, in arrival order. *)
Theorem packet_validation {X : Type} (onData : Json.jsval -> X -> X)
    (now : Z) (data : Json.jsval) (ws : Socket.WebSocketManager) (x : X) :
  let r := Socket.handleRealtimeData onData now data (ws, x) in
  Socket.validateRealtimeData data = Some (Socket.accepts data)
  /\ (Socket.accepts data = false ->
      r = (Socket.log (Socket.WarnInvalidData data) ws, x)
      /\ Socket.dataEvents r.1 = Socket.dataEvents ws
      /\ Socket.errorEvents r.1 = Socket.errorEvents ws
      /\ Socket.receivedDataCount r.1 = Socket.receivedDataCount ws)
  /\ (Socket.accepts data = true ->
      Socket.dataEvents r.1 = Socket.dataEvents ws ++ [data]
      /\ r.2 = onData data x
      /\ Socket.receivedDataCount r.1 = (Socket.receivedDataCount ws + 1)%Z)
  /\ (Socket.dataEvents r.1 <> Socket.dataEvents ws ->
      Socket.accepts data = true)
  /\ (forall app : App.Application,
        Socket.accepts data = false ->
        (App.on_realtime_data now data (ws, app)).2 = app)
  /\ (forall response : Json.jsval,
        let h := Socket.handleHistoryResponse onData response (ws, x) in
        let carried := Json.prop_opt response "data" in
        (Socket.is_string (Json.prop_opt response "status") "success" = true ->
         h = (Socket.emit_onData carried ws, onData carried x)
         /\ Socket.dataEvents h.1 = Socket.dataEvents ws ++ [carried]
         /\ Socket.receivedDataCount h.1 = Socket.receivedDataCount ws)
        /\ (Socket.is_string (Json.prop_opt response "status") "success"
            = false ->
            h = (Socket.emit_onError ws, x)
            /\ Socket.dataEvents h.1 = Socket.dataEvents ws))
  /\ (forall events : list Socket.transport_event,
        let p := fold_left (Socket.receive onData) events (ws, x) in
        Socket.dataEvents p.1
        = Socket.dataEvents ws ++ omap Socket.delivered events
        /\ p.2 = fold_left (fun x data => onData data x)
                           (omap Socket.delivered events) x).
Proof.
  intros r. subst r. unfold App.on_realtime_data, Socket.handleRealtimeData.
  rewrite validateRealtimeData_accepts.
  split; [done|].
  assert (forall response : Json.jsval,
    let h := Socket.handleHistoryResponse onData response (ws, x) in
    let carried := Json.prop_opt response "data" in
    (Socket.is_string (Json.prop_opt response "status") "success" = true ->
     h = (Socket.emit_onData carried ws, onData carried x)
     /\ Socket.dataEvents h.1 = Socket.dataEvents ws ++ [carried]
     /\ Socket.receivedDataCount h.1 = Socket.receivedDataCount ws)
    /\ (Socket.is_string (Json.prop_opt response "status") "success" = false ->
        h = (Socket.emit_onError ws, x)
        /\ Socket.dataEvents h.1 = Socket.dataEvents ws)) as Hhistory.
  { intros response h carried. subst h carried.
    unfold Socket.handleHistoryResponse, Json.prop_opt.
    destruct (Json.prop response "status") as [st|]; simpl.
    - destruct (Socket.is_string st "success"); simpl;
        split; try discriminate; done.
    - split; [discriminate|done]. }
  assert (forall events : list Socket.transport_event,
    let p := fold_left (Socket.receive onData) events (ws, x) in
    Socket.dataEvents p.1 = Socket.dataEvents ws ++ omap Socket.delivered events
    /\ p.2 = fold_left (fun x data => onData data x)
                       (omap Socket.delivered events) x) as Hstream.
  { intros events p.
    destruct (receive_stream onData events (ws, x)) as (H1 & H2 & _).
    by split. }
  destruct (Socket.accepts data); simpl.
  - split; [discriminate|]. split; [done|]. split; [done|].
    split; [discriminate|]. by split.
  - split; [done|]. split; [discriminate|]. split; [congruence|].
    split; [done|]. by split.
Qed.

(** C6, as stated, fails three times: a packet whose timestamp and
    sequence id are strings is accepted; a packet with a numeric timestamp
    and the numeric sequence id 0 is rejected; and a packet that is not
    accepted (it has no metadata and no volume group) still reaches the
    [onData] listeners, and through them the price buffer of the page, as
    the data of a successful history response. *)
Lemma validation_checks_truthiness_not_type :
  let stringly := App.packet_with (Json.VStr "now") (Json.VStr "first") in
  let zero_seq := App.packet_with (Json.VNum 1700000000000) (Json.VNum 0) in
  let bare := Buffer.ppie_packet "p_data" [Buffer.point 1] in
  let response :=
    Json.VObj [("status", Json.VStr "success"); ("data", bare)] in
  let page :=
    Socket.handleHistoryResponse App.handleRealtimeData response
      (Socket.new_WebSocketManager, App.new_Application) in
  Socket.spec_valid stringly = false
  /\ Socket.validateRealtimeData stringly = Some true
  /\ Socket.dataEvents
       (Socket.handleRealtimeData (fun _ (u : unit) => u) 0 stringly
          (Socket.new_WebSocketManager, tt)).1 = [stringly]
  /\ Socket.spec_valid zero_seq = true
  /\ Socket.validateRealtimeData zero_seq = Some false
  /\ Socket.spec_valid bare = false
  /\ Socket.validateRealtimeData bare = Some false
  /\ Socket.dataEvents page.1 = [bare]
  /\ (fun cm => Buffer.ppie_series cm "p_data") <$> App.charts page.2
     = Some [Buffer.point 1].
Proof. vm_compute. repeat split. Qed.

(** ** The update cycle of the grid controller *)

Section CycleFacts.
Import JS Json Grid.

Lemma cycle_body_isUpdating (now : float) (s : GridController) (data : jsval) :
  isUpdating (cycle_body now s data).2 = isUpdating s.
Proof.
  unfold cycle_body. destruct (validateDataFormat data); simpl; [|done].
  destruct (truthy (prop_opt data "ppie") && grid1Chart s && grid1Visible s);
    by destruct (truthy (prop_opt data "vvie") && _ && _).
Qed.

(** A call made while a cycle is in flight returns [false] and changes
    nothing, whatever the fuel left. *)
Lemma updateChartsData_busy (fuel : nat) (listeners : list jsval)
    (now : float) (s : GridController) (data : jsval) :
  busy s = true -> updateChartsData (S fuel) listeners now s data = Some (false, s).
Proof. intros Hbusy. simpl. by rewrite Hbusy. Qed.

(** The packets that listeners submit during a cycle are all dropped. *)
Lemma nested_requests_dropped (fuel : nat) (listeners requests : list jsval)
    (now : float) (s : GridController) :
  isUpdating s = true ->
  foldl (fun acc request =>
           a ← acc;
           snd <$> updateChartsData (S fuel) listeners now a request)
        (Some s) requests
  = Some s.
Proof.
  intros Hupd. induction requests as [|request requests IH]; [done|].
  cbn [foldl mbind option_bind].
  rewrite updateChartsData_busy
    by (unfold busy; rewrite Hupd; apply orb_true_r).
  exact IH.
Qed.

Lemma updateChartsData_unfold (fuel : nat) (listeners : list jsval)
    (now : float) (s : GridController) (data : jsval) :
  updateChartsData (S fuel) listeners now s data
  = if busy s then Some (false, s)
    else
      let '(ok, s1) := cycle_body now (set_isUpdating true s) data in
      if ok then
        s2 ← foldl (fun acc request =>
                      a ← acc;
                      snd <$> updateChartsData fuel listeners now a request)
                   (Some (emit_onDataUpdate s1)) listeners;
        Some (true, set_isUpdating false s2)
      else Some (false, set_isUpdating false s1).
Proof. reflexivity. Qed.

Lemma updateChartsData_plain_eq (fuel : nat) (listeners : list jsval)
    (now : float) (s : GridController) (data : jsval) :
  updateChartsData (S (S fuel)) listeners now s data
  = Some (updateChartsData_plain now s data).
Proof.
  rewrite updateChartsData_unfold. unfold updateChartsData_plain.
  destruct (busy s); [done|].
  pose proof (cycle_body_isUpdating now (set_isUpdating true s) data) as Hupd.
  destruct (cycle_body now (set_isUpdating true s) data) as [ok s1].
  destruct ok; [|done].
  rewrite nested_requests_dropped by exact Hupd. done.
Qed.

End CycleFacts.

(** C9. While a cycle is in flight ([isUpdating] set), a call to
    [updateChartsData] returns [false] and leaves the controller, all its
    series buffers included, exactly as it was: the packet is kept nowhere.
    So the packets that listeners submit during a cycle are all dropped,
    and a cycle ends in the same state whatever was submitted during it:
    one cycle runs at a time and nothing is replayed. *)
Theorem reentrant_update_dropped (fuel : nat) (listeners : list Json.jsval)
    (now : float) (s : Grid.GridController) (data : Json.jsval) :
  Grid.isUpdating s = true ->
  Grid.updateChartsData (S fuel) listeners now s data = Some (false, s)
  /\ Grid.updateChartsData_plain now s data = (false, s)
  /\ (forall (s0 : Grid.GridController) (data0 : Json.jsval),
        Grid.updateChartsData (S (S fuel)) listeners now s0 data0
        = Some (Grid.updateChartsData_plain now s0 data0)
        /\ (Grid.isUpdating s0 = false ->
            Grid.isUpdating (Grid.updateChartsData_plain now s0 data0).2
            = false)).
Proof.
  intros Hupd.
  assert (Grid.busy s = true) as Hbusy
    by (unfold Grid.busy; rewrite Hupd; apply orb_true_r).
  split; [by apply updateChartsData_busy|].
  split; [unfold Grid.updateChartsData_plain; by rewrite Hbusy|].
  intros s0 data0. split; [apply updateChartsData_plain_eq|].
  intros Hidle. unfold Grid.updateChartsData_plain.
  destruct (Grid.busy s0); [done|].
  by destruct (Grid.cycle_body now (Grid.set_isUpdating true s0) data0)
    as [[] s1].
Qed.

(** The theorem on a controller caught in the middle of a cycle, with one
    listener that resubmits a tick. *)
Lemma reentrant_update_dropped_witness :
  let s := Grid.set_isUpdating true Grid.new_GridController in
  let t := Grid.tick (Json.VNum 1) (Json.VNum 2) in
  Grid.updateChartsData 1 [t] 0 s t = Some (false, s).
Proof.
  intros s t.
  exact (proj1 (reentrant_update_dropped 0 [t] 0 s t eq_refl)).
Defined.

(** ** Pause *)

Section PauseFacts.
Import JS Json App.

Lemma feed_paused (packets : list jsval) (a : Application) :
  paused a = true -> feed packets a = a.
Proof.
  intros Hp. induction packets as [|data packets IH]; [done|].
  unfold feed in *. simpl. unfold handleRealtimeData at 2. by rewrite Hp.
Qed.

Lemma dg_feed_paused (packets : list (float * jsval))
    (a : DualGridApplication) :
  dg_paused a = true -> dg_feed packets a = a.
Proof.
  intros Hp. induction packets as [|data packets IH]; [done|].
  unfold dg_feed in *. simpl. unfold dg_handleRealtimeData at 2.
  by rewrite Hp.
Qed.

Lemma resume_pause (a : Application) : paused a = false -> resume (pause a) = a.
Proof. destruct a. simpl. by intros ->. Qed.

Lemma dg_resume_pause (a : DualGridApplication) :
  dg_paused a = false -> dg_resume (dg_pause a) = a.
Proof. destruct a. simpl. by intros ->. Qed.

End PauseFacts.

(** C8. While the pause flag is set, any number of packets leaves the
    page, its series buffers and its persistent cache included, exactly as
    it was when pause was set, also when the packets come through the
    validating transport handler; the packets are kept nowhere, so after
    resuming, the same packets (or any others) lead to the state they would
    have led to had pause never been set.  This holds for both pages. *)
Theorem paused_packets_dropped (a : App.Application)
    (d : App.DualGridApplication) (packets later : list Json.jsval)
    (dpackets dlater : list (float * Json.jsval)) :
  App.paused a = false -> App.dg_paused d = false ->
  App.feed packets (App.pause a) = App.pause a
  /\ App.charts (App.feed packets (App.pause a)) = App.charts a
  /\ App.database (App.feed packets (App.pause a)) = App.database a
  /\ App.feed later (App.resume (App.feed packets (App.pause a)))
     = App.feed later a
  /\ App.dg_feed dpackets (App.dg_pause d) = App.dg_pause d
  /\ App.gridController (App.dg_feed dpackets (App.dg_pause d))
     = App.gridController d
  /\ App.dg_database (App.dg_feed dpackets (App.dg_pause d))
     = App.dg_database d
  /\ App.dg_feed dlater (App.dg_resume (App.dg_feed dpackets (App.dg_pause d)))
     = App.dg_feed dlater d
  /\ (forall (ws : Socket.WebSocketManager) (now : Z) (data : Json.jsval),
        (App.on_realtime_data now data (ws, App.pause a)).2 = App.pause a).
Proof.
  intros Ha Hd.
  rewrite (feed_paused packets (App.pause a)) by done.
  rewrite (dg_feed_paused dpackets (App.dg_pause d)) by done.
  rewrite resume_pause, dg_resume_pause by done.
  repeat split.
  intros ws now data. unfold App.on_realtime_data, Socket.handleRealtimeData.
  by destruct (Socket.validateRealtimeData data) as [[]|].
Qed.

(** The theorem on the two fresh pages, with five packets fed while
    paused and replayed after resuming. *)
Lemma paused_packets_dropped_witness :
  let ps := (fun t => App.sample_packet t t) <$> [1; 2; 3; 4; 5]%float in
  App.feed ps (App.pause App.new_Application)
  = App.pause App.new_Application
  /\ App.feed ps (App.resume (App.feed ps (App.pause App.new_Application)))
     = App.feed ps App.new_Application.
Proof.
  intros ps.
  destruct (paused_packets_dropped App.new_Application
              App.new_DualGridApplication ps ps [] [] eq_refl eq_refl)
    as (H1 & _ & _ & H2 & _).
  split; [exact H1|exact H2].
Defined.

(** * Further properties *)

(** ** The simple moving average *)

Section MaFacts.
Import JS Indicators.

Variable prices : list jsnum.
Variable period : Z.

Lemma ma_pushes (result : list jsnum) (n : nat) :
  exists x, ma_body prices period result n = result ++ [x].
Proof. unfold ma_body. destruct (_ <? _)%Z; by eexists. Qed.

Lemma calculateMA_lookup (i : nat) :
  i < length prices ->
  calculateMA prices period !! i
  = ma_body prices period (for_loop (ma_body prices period) [] i) i !! i.
Proof.
  intros Hi. unfold calculateMA.
  pose proof (loop_lookup (ma_body prices period) id [] ma_pushes eq_refl
                i (length prices) Hi) as Hcell.
  unfold id in Hcell. rewrite Hcell.
  by rewrite (loop_S (ma_body prices period) []).
Qed.

Lemma calculateMA_cell (i : nat) :
  i < length prices ->
  calculateMA prices period !! i
  = Some (if (Z.of_nat i <? period - 1)%Z then JNull
          else JNumber
                 (sum_from_zero
                    (slice prices (Z.of_nat i - period + 1) (Z.of_nat i + 1))
                  / num_of_Z period)%float).
Proof.
  intros Hi. rewrite calculateMA_lookup by done.
  pose proof (loop_length (ma_body prices period) id [] ma_pushes eq_refl i)
    as Hlen. unfold id in Hlen.
  unfold ma_body at 1.
  destruct (_ <? _)%Z; rewrite lookup_app_r by lia;
    by rewrite Hlen, Nat.sub_diag.
Qed.

End MaFacts.

Lemma slice_empty {A} (a : list A) (s e : Z) :
  (0 <= e)%Z -> (e <= s)%Z -> JS.slice a s e = [].
Proof.
  intros He Hs. unfold JS.slice, JS.rel_index.
  destruct (Z.ltb_spec s 0), (Z.ltb_spec e 0); try lia.
  replace (Z.to_nat _) with 0 by lia. done.
Qed.

(** X1. [calculateMA] returns one cell per price; the cells before index
    [period - 1] are [null], and every later cell is the sum of its window,
    accumulated from 0 in array order, divided by the period, which enters
    the division as the double [p] that holds it (the integer [period]
    itself below 2^53 in absolute value); for a period of at least 1 the
    window is the [period] prices ending at that index. *)
Theorem calculateMA_window_mean (prices : list JS.jsnum) (period : Z)
    (i : nat) :
  i < length prices ->
  let out := Indicators.calculateMA prices period in
  let window :=
    JS.slice prices (Z.of_nat i - period + 1) (Z.of_nat i + 1) in
  let p := JS.num_of_Z period in
  length out = length prices
  /\ ((Z.of_nat i < period - 1)%Z -> out !! i = Some JS.JNull)
  /\ ((period - 1 <= Z.of_nat i)%Z ->
      out !! i
      = Some (JS.JNumber
                (fold_left (fun a b => (a + JS.to_number b)%float) window
                           0%float
                 / p)%float))
  /\ ((- 2 ^ 53 < period < 2 ^ 53)%Z -> JS.is_integer p period)
  /\ ((1 <= period)%Z -> (period - 1 <= Z.of_nat i)%Z ->
      window
      = take (Z.to_nat period)
             (drop (Z.to_nat (Z.of_nat i - period + 1)) prices)
      /\ length window = Z.to_nat period).
Proof.
  intros Hi out window p. subst out window p.
  split.
  { exact (loop_length (Indicators.ma_body prices period) id []
             (ma_pushes prices period) eq_refl (length prices)). }
  rewrite calculateMA_cell by done.
  split; [|split; [|split]].
  - intros Hlt. by destruct (Z.ltb_spec (Z.of_nat i) (period - 1)); [|lia].
  - intros Hge. by destruct (Z.ltb_spec (Z.of_nat i) (period - 1)); [lia|].
  - apply num_of_Z_exact.
  - intros Hp Hge. apply slice_window; lia.
Qed.

(** The theorem at the last index of a five-point series, period 3. *)
Lemma calculateMA_window_mean_witness :
  Indicators.calculateMA (JS.JNumber <$> [10; 12; 11; 13; 15]%float) 3 !! 4
  = Some (JS.JNumber 13).
Proof.
  destruct (calculateMA_window_mean
              (JS.JNumber <$> [10; 12; 11; 13; 15]%float) 3 4
              ltac:(rewrite length_fmap; simpl; lia)) as (_ & _ & H & _).
  exact (H ltac:(lia)).
Defined.

(** X2. With a period of 0 or less there is no warm-up and every window
    is empty, so every cell is [0 / p], where [p] is the period as a double
    (the integer [period] itself above -2^53): NaN for period 0 and the
    negative zero for a negative period above -2^53, whatever the prices;
    no cell is [null]. *)
Theorem calculateMA_nonpositive_period (prices : list JS.jsnum) (period : Z) :
  (period <= 0)%Z ->
  let p := JS.num_of_Z period in
  Indicators.calculateMA prices period
  = replicate (length prices) (JS.JNumber (0 / p)%float)
  /\ ((- 2 ^ 53 < period)%Z -> JS.is_integer p period)
  /\ (period = 0%Z ->
      Indicators.calculateMA prices period
      = replicate (length prices) (JS.JNumber nan))
  /\ ((- 2 ^ 53 < period < 0)%Z ->
      Indicators.calculateMA prices period
      = replicate (length prices) (JS.JNumber (-0)%float)).
Proof.
  intros Hp p. subst p.
  assert (Indicators.calculateMA prices period
          = replicate (length prices)
                      (JS.JNumber (0 / JS.num_of_Z period)%float)) as Heq.
  { apply list_eq_same_length with (length prices).
    - rewrite length_replicate. done.
    - exact (loop_length (Indicators.ma_body prices period) id []
               (ma_pushes prices period) eq_refl (length prices)).
    - intros i x y Hi Hx Hy.
      rewrite calculateMA_cell in Hx by done.
      apply lookup_replicate in Hy as [-> _].
      destruct (Z.ltb_spec (Z.of_nat i) (period - 1)); [lia|].
      rewrite slice_empty in Hx by lia. by injection Hx as <-. }
  split; [exact Heq|]. split; [|split].
  - intros Hlow. apply num_of_Z_exact. lia.
  - intros ->. exact Heq.
  - intros Hneg. rewrite Heq. by rewrite zero_div_negative.
Qed.

(** The theorem at the periods 0 and -3 on a two-point series. *)
Lemma calculateMA_nonpositive_period_witness :
  Indicators.calculateMA [JS.JNumber 1; JS.JNumber 2] 0
  = [JS.JNumber nan; JS.JNumber nan]
  /\ Indicators.calculateMA [JS.JNumber 1; JS.JNumber 2] (-3)
     = [JS.JNumber (-0)%float; JS.JNumber (-0)%float].
Proof.
  split.
  - exact (proj1 (calculateMA_nonpositive_period
                    [JS.JNumber 1; JS.JNumber 2] 0 ltac:(lia))).
  - exact (proj2 (proj2 (proj2 (calculateMA_nonpositive_period
                                  [JS.JNumber 1; JS.JNumber 2] (-3)
                                  ltac:(lia)))) ltac:(lia)).
Defined.

(** ** The exponential moving average on inputs with gaps *)

(** X3. [calculateEMA] returns one cell per price, [null] exactly where the
    price is [null]; in particular an empty input gives an empty output. *)
Theorem calculateEMA_shape (prices : list JS.jsnum) (period : Z) :
  length (Indicators.calculateEMA prices period) = length prices
  /\ (forall i : nat,
        Indicators.calculateEMA prices period !! i = Some JS.JNull
        <-> prices !! i = Some JS.JNull)
  /\ Indicators.calculateEMA [] period = [].
Proof.
  split; [apply calculateEMA_length|].
  split; [intros i; apply calculateEMA_null|reflexivity].
Qed.

Section EmaGaps.
Import JS Indicators.

Lemma find_not_null_after_nulls (n : nat) (p : float) (rest : list jsnum) :
  find_not_null (replicate n JNull ++ JNumber p :: rest) = JNumber p.
Proof.
  unfold find_not_null. induction n as [|n IH]; [done|].
  simpl. rewrite filter_cons_False by (simpl; discriminate). exact IH.
Qed.

(** The loop over the leading nulls pushes nulls and leaves [ema] alone. *)
Lemma ema_loop_leading_nulls (n : nat) (p : float) (rest : list jsnum)
    (multiplier : float) (e : jsnum) (m : nat) :
  m <= n ->
  for_loop (ema_body (replicate n JNull ++ JNumber p :: rest) multiplier)
           (EmaState [] e) m
  = EmaState (replicate m JNull) e.
Proof.
  induction m as [|m IH]; intros Hm; [done|].
  rewrite loop_S, IH by lia. unfold ema_body.
  rewrite (index_lookup _ m JNull)
    by (rewrite lookup_app_l by (rewrite length_replicate; lia);
        apply lookup_replicate_2; lia).
  cbn [not_null negb ema_result ema_value]. by rewrite replicate_S_end.
Qed.

Lemma ema_pushes (prices : list jsnum) (multiplier : float) (st : ema_state)
    (i : nat) :
  exists x, ema_result (ema_body prices multiplier st i) = ema_result st ++ [x].
Proof.
  destruct (ema_body_appends prices multiplier st i) as (x & H & _).
  by exists x.
Qed.

End EmaGaps.

(** X4. When the prices start with one or more [null]s, the first number
    [p] is not copied as the seed: since the result array is no longer
    empty, the cell is the blend [p*α + p*(1-α)] of [p] with itself, with
    [α = 2/(q+1)] for the period [q] as a double (the integer [period]
    itself below 2^53 in absolute value); rounding can move the blend off
    [p] (for [null, 3] and period 9 the cell is above 3). *)
Theorem calculateEMA_leading_nulls (n : nat) (p : float)
    (rest : list JS.jsnum) (period : Z) :
  1 <= n ->
  let prices := replicate n JS.JNull ++ JS.JNumber p :: rest in
  let q := JS.num_of_Z period in
  let α := (2 / (q + 1))%float in
  let out := Indicators.calculateEMA prices period in
  ((- 2 ^ 53 < period < 2 ^ 53)%Z -> JS.is_integer q period)
  /\ (forall i : nat, i < n -> out !! i = Some JS.JNull)
  /\ out !! n = Some (JS.JNumber (p * α + p * (1 - α))%float)
  /\ (exists x : float,
        Indicators.calculateEMA [JS.JNull; JS.JNumber 3] 9 !! 1
        = Some (JS.JNumber x)
        /\ (3 <? x)%float = true).
Proof.
  intros Hn prices q α out. subst q.
  fold (Indicators.ema_multiplier period) in α.
  split; [apply num_of_Z_exact|]. split; [|split].
  - intros i Hi. apply calculateEMA_null. subst prices.
    rewrite lookup_app_l by (rewrite length_replicate; lia).
    apply lookup_replicate_2. lia.
  - subst out. unfold Indicators.calculateEMA.
    assert (length prices = n + S (length rest)) as Hlen
      by (subst prices; rewrite length_app, length_replicate; reflexivity).
    rewrite (loop_lookup _ Indicators.ema_result
               (Indicators.EmaState [] (Indicators.find_not_null prices))
               (ema_pushes prices (Indicators.ema_multiplier period))
               eq_refl n (length prices)) by lia.
    rewrite loop_S. subst prices.
    rewrite ema_loop_leading_nulls, find_not_null_after_nulls by lia.
    unfold Indicators.ema_body.
    rewrite (index_lookup _ n (JS.JNumber p))
      by (rewrite lookup_app_r by (rewrite length_replicate; lia);
          by rewrite length_replicate, Nat.sub_diag).
    cbn [JS.not_null negb Indicators.ema_result Indicators.ema_value
         JS.to_number].
    rewrite length_replicate.
    destruct (Nat.eqb_spec n 0) as [->|_]; [lia|].
    cbn [Indicators.ema_result].
    rewrite lookup_app_r by (rewrite length_replicate; lia).
    by rewrite length_replicate, Nat.sub_diag.
  - eexists. split; [vm_compute; reflexivity|vm_compute; reflexivity].
Qed.

(** The theorem on two leading nulls. *)
Lemma calculateEMA_leading_nulls_witness :
  Indicators.calculateEMA [JS.JNull; JS.JNull; JS.JNumber 8; JS.JNumber 4] 3
    !! 2
  = Some (JS.JNumber 8).
Proof.
  exact (proj1 (proj2 (proj2 (calculateEMA_leading_nulls 2 8 [JS.JNumber 4] 3
                                ltac:(lia))))).
Defined.

(** ** The MACD on inputs with gaps *)

(** X5. The difference line and the histogram have one cell per price;
    the signal line has one cell per price that is not [null].  Where both
    EMAs are numbers the difference is fast minus slow, and where the signal
    line holds a number at the same index the histogram is twice the
    difference of the two. *)
Theorem calculateMACD_shape (prices : list JS.jsnum) (fast slow signal : Z) :
  let r := Indicators.calculateMACD prices fast slow signal in
  length (Indicators.dif r) = length prices
  /\ length (Indicators.macd r) = length prices
  /\ length (Indicators.dea r)
     = length (filter (fun v => JS.not_null v = true) prices)
  /\ (forall (i : nat) (f s : float),
        Indicators.calculateEMA prices fast !! i = Some (JS.JNumber f) ->
        Indicators.calculateEMA prices slow !! i = Some (JS.JNumber s) ->
        Indicators.dif r !! i = Some (JS.JNumber (f - s)%float)
        /\ forall e : float,
             Indicators.dea r !! i = Some (JS.JNumber e) ->
             Indicators.macd r !! i
             = Some (JS.JNumber (2 * ((f - s) - e))%float)).
Proof.
  intros r. subst r. split; [apply dif_length|]. split.
  { unfold Indicators.calculateMACD. simpl.
    by rewrite !length_imap, calculateEMA_length. }
  split; [apply dea_length|].
  intros i f s Hf Hs.
  assert (Indicators.dif (Indicators.calculateMACD prices fast slow signal)
            !! i = Some (JS.JNumber (f - s)%float)) as Hdif.
  { rewrite (dif_cell _ _ _ _ _ _ Hf), (index_lookup _ _ _ Hs). done. }
  split; [exact Hdif|]. intros e He.
  rewrite (macd_cell _ _ _ _ _ _ Hdif).
  by rewrite (index_lookup _ _ _ He).
Qed.

(** X6. The signal line is computed on the difference line with its
    [null]s removed and is read back at the indices of the full line.  So
    at every index whose price is not [null] and which is at or beyond the
    number of prices that are not [null], the signal read is [undefined] and
    the histogram cell is NaN. *)
Theorem calculateMACD_nan_after_gap (prices : list JS.jsnum)
    (fast slow signal : Z) (i : nat) (v : JS.jsnum) :
  prices !! i = Some v ->
  v <> JS.JNull ->
  length (filter (fun v => JS.not_null v = true) prices) <= i ->
  let r := Indicators.calculateMACD prices fast slow signal in
  JS.index (Indicators.dea r) (Z.of_nat i) = JS.JUndefined
  /\ Indicators.macd r !! i = Some (JS.JNumber nan).
Proof.
  intros Hv Hnn Hcount r. subst r.
  assert (JS.index
            (Indicators.dea (Indicators.calculateMACD prices fast slow signal))
            (Z.of_nat i) = JS.JUndefined) as Hdea.
  { unfold JS.index.
    destruct (Z.ltb_spec (Z.of_nat i) 0); [done|].
    rewrite Nat2Z.id, lookup_ge_None_2; [done|].
    by rewrite dea_length. }
  split; [exact Hdea|].
  destruct (dif_number prices fast slow signal i v Hv Hnn) as [x Hx].
  rewrite (macd_cell _ _ _ _ _ _ Hx), Hdea. simpl.
  by rewrite sub_nan.
Qed.

(** The theorem on a series whose first price is missing. *)
Lemma calculateMACD_nan_after_gap_witness :
  Indicators.macd
    (Indicators.calculateMACD [JS.JNull; JS.JNumber 3; JS.JNumber 4] 12 26 9)
    !! 2
  = Some (JS.JNumber nan).
Proof.
  exact (proj2 (calculateMACD_nan_after_gap
                  [JS.JNull; JS.JNumber 3; JS.JNumber 4] 12 26 9 2
                  (JS.JNumber 4) eq_refl ltac:(discriminate)
                  ltac:(simpl; lia))).
Defined.

(** ** The stochastic oscillator: warm-up and seeding *)

Section KdjShape.
Import JS Indicators.

Variables highs lows closes : list jsnum.
Variable period : Z.

Let body := kdj_body highs lows closes period.
Let init := KdjResult [] [] [] [].

Lemma calculateKDJ_lengths :
  let out := calculateKDJ highs lows closes period in
  length (k out) = length closes /\ length (d out) = length closes
  /\ length (j out) = length closes /\ length (rsv out) = length closes.
Proof.
  intros out. subst out. unfold calculateKDJ.
  repeat split.
  - exact (loop_length body k init (kdj_pushes_k _ _ _ _) eq_refl _).
  - exact (loop_length body d init (kdj_pushes_d _ _ _ _) eq_refl _).
  - exact (loop_length body j init (kdj_pushes_j _ _ _ _) eq_refl _).
  - exact (loop_length body rsv init (kdj_pushes_rsv _ _ _ _) eq_refl _).
Qed.

Lemma calculateKDJ_warmup_cells (i : nat) :
  i < length closes -> (Z.of_nat i < period - 1)%Z ->
  let out := calculateKDJ highs lows closes period in
  rsv out !! i = Some JNull /\ k out !! i = Some JNull
  /\ d out !! i = Some JNull /\ j out !! i = Some JNull.
Proof.
  intros Hi Hw out. subst out.
  change (calculateKDJ highs lows closes period)
    with (for_loop body init (length closes)).
  rewrite (loop_lookup body rsv init (kdj_pushes_rsv _ _ _ _) eq_refl i _ Hi).
  rewrite (loop_lookup body k init (kdj_pushes_k _ _ _ _) eq_refl i _ Hi).
  rewrite (loop_lookup body d init (kdj_pushes_d _ _ _ _) eq_refl i _ Hi).
  rewrite (loop_lookup body j init (kdj_pushes_j _ _ _ _) eq_refl i _ Hi).
  exact (kdj_warmup highs lows closes period i Hw).
Qed.

End KdjShape.

(** X7. The four arrays of [calculateKDJ] have one cell per close.  The
    cell at [i] is [null] in all four when [i < period - 1] and a number in
    all four otherwise; so with fewer than [period] closes every cell is
    [null]. *)
Theorem calculateKDJ_shape (highs lows closes : list JS.jsnum) (period : Z)
    (i : nat) :
  i < length closes ->
  let out := Indicators.calculateKDJ highs lows closes period in
  let is_null (cells : list JS.jsnum) := cells !! i = Some JS.JNull in
  let is_number (cells : list JS.jsnum) :=
    exists x : float, cells !! i = Some (JS.JNumber x) in
  (length (Indicators.k out) = length closes
   /\ length (Indicators.d out) = length closes
   /\ length (Indicators.j out) = length closes
   /\ length (Indicators.rsv out) = length closes)
  /\ ((Z.of_nat i < period - 1)%Z ->
      is_null (Indicators.rsv out) /\ is_null (Indicators.k out)
      /\ is_null (Indicators.d out) /\ is_null (Indicators.j out))
  /\ ((period - 1 <= Z.of_nat i)%Z ->
      is_number (Indicators.rsv out) /\ is_number (Indicators.k out)
      /\ is_number (Indicators.d out) /\ is_number (Indicators.j out))
  /\ ((Z.of_nat (length closes) < period)%Z ->
      is_null (Indicators.rsv out) /\ is_null (Indicators.k out)
      /\ is_null (Indicators.d out) /\ is_null (Indicators.j out)).
Proof.
  intros Hi out is_null is_number.
  split; [apply calculateKDJ_lengths|]. split; [|split].
  - intros Hw. by apply calculateKDJ_warmup_cells.
  - intros Hv.
    destruct (calculateKDJ_cells highs lows closes period i Hv Hi)
      as (Hr & Hk & Hd & Hj).
    repeat split; by eexists.
  - intros Hshort. apply calculateKDJ_warmup_cells; [done|lia].
Qed.

(** The theorem on two candles with the default period 9. *)
Lemma calculateKDJ_shape_witness :
  let c := [JS.JNumber 10; JS.JNumber 11] in
  Indicators.k (Indicators.calculateKDJ c c c 9) !! 1 = Some JS.JNull.
Proof.
  intros c.
  destruct (calculateKDJ_shape c c c 9 1 ltac:(simpl; lia))
    as (_ & H & _).
  exact (proj1 (proj2 (H ltac:(lia)))).
Defined.

(** X8. At the first valid index, that is [i = period - 1], or [i = 0] for
    a period below 1, there is no previous K or D number, and both start
    from the seed 50: [K = (2*50 + RSV)/3] and [D = (2*50 + K)/3]. *)
Theorem calculateKDJ_seed (highs lows closes : list JS.jsnum) (period : Z)
    (i : nat) :
  i < length closes ->
  (period - 1 <= Z.of_nat i)%Z ->
  i = 0 \/ (Z.of_nat i - 1 < period - 1)%Z ->
  let out := Indicators.calculateKDJ highs lows closes period in
  let r := Indicators.kdj_rsv highs lows closes period (Z.of_nat i) in
  let kv := ((2 * 50 + r) / 3)%float in
  let dv := ((2 * 50 + kv) / 3)%float in
  Indicators.rsv out !! i = Some (JS.JNumber r)
  /\ Indicators.k out !! i = Some (JS.JNumber kv)
  /\ Indicators.d out !! i = Some (JS.JNumber dv)
  /\ Indicators.j out !! i = Some (JS.JNumber (3 * kv - 2 * dv)%float).
Proof.
  intros Hi Hv Hfirst out r kv dv.
  pose proof (calculateKDJ_cells highs lows closes period i Hv Hi) as Hcells.
  cbv zeta in Hcells. fold out in Hcells.
  assert (JS.or_default (JS.index (Indicators.k out) (Z.of_nat i - 1)) 50
          = 50%float
          /\ JS.or_default (JS.index (Indicators.d out) (Z.of_nat i - 1)) 50
             = 50%float) as [HK HD].
  { destruct Hfirst as [->|Hprev]; [done|].
    destruct i as [|i]; [done|].
    replace (Z.of_nat (S i) - 1)%Z with (Z.of_nat i) in * by lia.
    destruct (calculateKDJ_warmup_cells highs lows closes period i
                ltac:(lia) Hprev) as (_ & Hk & Hd & _).
    fold out in Hk, Hd.
    by rewrite (index_lookup _ _ _ Hk), (index_lookup _ _ _ Hd). }
  rewrite HK, HD in Hcells. exact Hcells.
Qed.

(** The theorem on closes [10, 11, 9, 12] with highs and lows equal to the
    closes and period 3: the first valid index is 2. *)
Lemma calculateKDJ_seed_witness :
  let c := [JS.JNumber 10; JS.JNumber 11; JS.JNumber 9; JS.JNumber 12] in
  let out := Indicators.calculateKDJ c c c 3 in
  Indicators.rsv out !! 2 = Some (JS.JNumber 0)
  /\ Indicators.k out !! 2 = Some (JS.JNumber ((2 * 50 + 0) / 3)%float).
Proof.
  intros c out.
  destruct (calculateKDJ_seed c c c 3 2 ltac:(simpl; lia) ltac:(lia)
              ltac:(right; lia)) as (Hr & Hk & _).
  split; [exact Hr|exact Hk].
Defined.

(** ** The chart manager: frame, memory estimate, clearing, teardown *)

Section BufferFrame.
Import JS Json Buffer.

Lemma push_entries_dom (maxPoints : Z) (es : list (string * jsval)) :
  forall g, dom (state_of (push_entries maxPoints g es)) = dom g.
Proof.
  induction es as [|[key value] es IH]; intros g; [done|].
  simpl. destruct (g !! key) as [buf|] eqn:Hkey.
  - destruct value; try by apply IH.
    rewrite IH. apply dom_insert_lookup_L. by rewrite Hkey.
  - destruct (inherited key && isArray value); [done|]. by apply IH.
Qed.

Lemma push_entries_frame (maxPoints : Z) (name : string)
    (es : list (string * jsval)) :
  name ∉ es.*1 ->
  forall g, state_of (push_entries maxPoints g es) !! name = g !! name.
Proof.
  induction es as [|[key value] es IH]; intros Hname g; [done|].
  rewrite fmap_cons in Hname. apply not_elem_of_cons in Hname as [Hne Hname].
  simpl in Hne. simpl. destruct (g !! key) as [buf|] eqn:Hkey.
  - destruct value; try by apply IH.
    rewrite IH by done. by rewrite lookup_insert_ne.
  - destruct (inherited key && isArray value); [done|]. by apply IH.
Qed.

(** What [updatePPIEData] does to the manager, whether it throws or not. *)
Lemma updatePPIEData_state (cm : ChartsManager) (pg : jsval) :
  exists g,
    state_of (updatePPIEData cm pg) = set_ppie g cm
    /\ dom g = dom (ppie cm)
    /\ (forall name, (forall es, entries pg = Some es -> name ∉ es.*1) ->
                     g !! name = ppie cm !! name).
Proof.
  unfold updatePPIEData. destruct (entries pg) as [es|] eqn:Hes.
  - exists (state_of (push_entries (maxDataPoints cm) (ppie cm) es)).
    split; [|split].
    + destruct (push_entries _ _ _); [destruct (ppieChart cm)|]; done.
    + apply push_entries_dom.
    + intros name Hname. apply push_entries_frame. by apply Hname.
  - exists (ppie cm). split; [by destruct cm|done].
Qed.

Lemma updateVVIEData_state (cm : ChartsManager) (vg : jsval) :
  exists g,
    state_of (updateVVIEData cm vg) = set_vvie g cm
    /\ dom g = dom (vvie cm)
    /\ (forall name, (forall es, entries vg = Some es -> name ∉ es.*1) ->
                     g !! name = vvie cm !! name).
Proof.
  unfold updateVVIEData. destruct (entries vg) as [es|] eqn:Hes.
  - exists (state_of (push_entries (maxDataPoints cm) (vvie cm) es)).
    split; [|split].
    + destruct (push_entries _ _ _); [destruct (vvieChart cm)|]; done.
    + apply push_entries_dom.
    + intros name Hname. apply push_entries_frame. by apply Hname.
  - exists (vvie cm). split; [by destruct cm|done].
Qed.

(** What [updateChartsData] can change: the two groups, and within them
    only the contents of series that exist. *)
Lemma updateChartsData_state (cm : ChartsManager) (data : jsval) :
  let cm' := updateChartsData cm data in
  isInitialized cm' = isInitialized cm
  /\ ppieChart cm' = ppieChart cm /\ vvieChart cm' = vvieChart cm
  /\ maxDataPoints cm' = maxDataPoints cm
  /\ dom (ppie cm') = dom (ppie cm) /\ dom (vvie cm') = dom (vvie cm)
  /\ (forall name,
        (forall pg es, prop data "ppie_group" = Some pg ->
                       entries pg = Some es -> name ∉ es.*1) ->
        ppie cm' !! name = ppie cm !! name)
  /\ (forall name,
        (forall vg es, prop data "vvie_group" = Some vg ->
                       entries vg = Some es -> name ∉ es.*1) ->
        vvie cm' !! name = vvie cm !! name).
Proof.
  intros cm'. subst cm'. unfold updateChartsData, caught, updateChartsData_try.
  destruct (isInitialized cm) eqn:Hinit; simpl; [|by rewrite Hinit].
  destruct (prop data "ppie_group") as [pg|]; [|simpl; by rewrite Hinit].
  destruct (updatePPIEData_state cm pg) as (g & Hg & Hdom & Hframe).
  assert (exists g1,
    state_of (if truthy pg then updatePPIEData cm pg else Normal cm)
    = set_ppie g1 cm /\ dom g1 = dom (ppie cm)
    /\ (forall name, (forall es, entries pg = Some es -> name ∉ es.*1) ->
                     g1 !! name = ppie cm !! name)) as (g1 & Hg1 & Hdom1 & Hframe1).
  { destruct (truthy pg); [by exists g|].
    exists (ppie cm). split; [by destruct cm|done]. }
  destruct (if truthy pg then updatePPIEData cm pg else Normal cm)
    as [cm1|cm1]; simpl in Hg1; subst cm1; simpl.
  - destruct (prop data "vvie_group") as [vg|]; simpl.
    + destruct (updateVVIEData_state (set_ppie g1 cm) vg)
        as (g2 & Hg2 & Hdom2 & Hframe2).
      assert (exists g3,
        state_of (if truthy vg then updateVVIEData (set_ppie g1 cm) vg
                  else Normal (set_ppie g1 cm))
        = set_vvie g3 (set_ppie g1 cm) /\ dom g3 = dom (vvie cm)
        /\ (forall name, (forall es, entries vg = Some es -> name ∉ es.*1) ->
                         g3 !! name = vvie cm !! name))
        as (g3 & Hg3 & Hdom3 & Hframe3).
      { destruct (truthy vg); [by exists g2|]. by exists (vvie cm). }
      rewrite Hg3. simpl. repeat split; try done.
      * intros name Hname. apply Hframe1. intros es. by apply Hname.
      * intros name Hname. apply Hframe3. intros es. by apply Hname.
    + repeat split; try done.
      intros name Hname. apply Hframe1. intros es. by apply Hname.
  - repeat split; try done.
    intros name Hname. apply Hframe1. intros es. by apply Hname.
Qed.

Lemma feed_state (packets : list jsval) :
  forall cm : ChartsManager,
    let cm' := fold_left updateChartsData packets cm in
    isInitialized cm' = isInitialized cm
    /\ maxDataPoints cm' = maxDataPoints cm
    /\ dom (ppie cm') = dom (ppie cm) /\ dom (vvie cm') = dom (vvie cm).
Proof.
  induction packets as [|data packets IH]; intros cm; [done|].
  cbn [fold_left].
  destruct (updateChartsData_state cm data) as (H1 & _ & _ & H2 & H3 & H4 & _).
  destruct (IH (updateChartsData cm data)) as (I1 & I2 & I3 & I4).
  cbv zeta. rewrite I1, I2, I3, I4. done.
Qed.

Lemma feed_bounded (packets : list jsval) :
  forall cm : ChartsManager,
    (1 <= maxDataPoints cm)%Z -> cm_bounded cm ->
    cm_bounded (fold_left updateChartsData packets cm).
Proof.
  induction packets as [|data packets IH]; intros cm Hmax Hcm; [done|].
  cbn [fold_left]. apply IH.
  - destruct (updateChartsData_state cm data) as (_ & _ & _ & -> & _). done.
  - by apply updateChartsData_bounded.
Qed.

Lemma group_points_bound (maxPoints : Z) (g : group) :
  (0 <= maxPoints)%Z -> bounded maxPoints g ->
  (0 <= group_points g <= Z.of_nat (size g) * maxPoints)%Z.
Proof.
  intros Hmax. unfold group_points.
  apply (map_fold_weak_ind
           (fun (r : Z) (m : group) =>
              bounded maxPoints m -> (0 <= r <= Z.of_nat (size m) * maxPoints)%Z)).
  - intros _. rewrite map_size_empty. lia.
  - intros name series m r Hnone IH Hb.
    apply map_Forall_insert in Hb as [Hs Hm]; [|done].
    specialize (IH Hm). rewrite map_size_insert_None by done. nia.
Qed.

Lemma group_points_clear (g : group) : group_points (clear_group g) = 0%Z.
Proof.
  pose proof (group_points_bound 0 (clear_group g) ltac:(lia)) as H.
  assert (bounded 0 (clear_group g)) as Hb.
  { intros name series. unfold clear_group. rewrite lookup_fmap.
    destruct (g !! name); intros [= <-]. simpl. lia. }
  specialize (H Hb). lia.
Qed.

End BufferFrame.

(** X9. A packet never adds or removes a series of the chart manager, and
    never changes the capacity or the initialised flag; a series whose name
    is not a key of the packet's group keeps its points.  So a packet with
    unknown series names only, or with no groups at all, changes nothing
    that the charts show. *)
Theorem updateChartsData_frame (cm : Buffer.ChartsManager) (data : Json.jsval)
    (name : string) :
  (forall pg es, Json.prop data "ppie_group" = Some pg ->
                 Json.entries pg = Some es -> name ∉ es.*1) ->
  let cm' := Buffer.updateChartsData cm data in
  Buffer.ppie cm' !! name = Buffer.ppie cm !! name
  /\ dom (Buffer.ppie cm') = dom (Buffer.ppie cm)
  /\ dom (Buffer.vvie cm') = dom (Buffer.vvie cm)
  /\ Buffer.maxDataPoints cm' = Buffer.maxDataPoints cm
  /\ Buffer.isInitialized cm' = Buffer.isInitialized cm.
Proof.
  intros Hname cm'.
  destruct (updateChartsData_state cm data)
    as (H1 & _ & _ & H2 & H3 & H4 & H5 & _).
  split; [by apply H5|done].
Qed.

(** The theorem on a packet that carries a batch for a series the manager
    does not have: the price series [p_data] is still empty. *)
Lemma updateChartsData_frame_witness :
  Buffer.ppie
    (Buffer.updateChartsData Buffer.new_ChartsManager
       (Buffer.ppie_packet "volume" [Buffer.point 1])) !! "p_data"
  = Some [].
Proof.
  refine (eq_trans
            (proj1 (updateChartsData_frame Buffer.new_ChartsManager
                      (Buffer.ppie_packet "volume" [Buffer.point 1])
                      "p_data" _)) _).
  - intros pg es [= <-] [= <-]. simpl.
    intros H. apply list_elem_of_singleton in H. discriminate H.
  - reflexivity.
Defined.

(** X10. Whatever packets arrive, the memory estimate counts at most
    capacity points per series: [points <= (number of series) * capacity],
    which is [8 * capacity] for the manager the constructor builds, and
    [bytes] is 16 times [points]. *)
Theorem calculateMemoryUsage_bound (cm : Buffer.ChartsManager)
    (packets : list Json.jsval) :
  (1 <= Buffer.maxDataPoints cm)%Z -> Buffer.cm_bounded cm ->
  let cm' := fold_left Buffer.updateChartsData packets cm in
  let usage := Buffer.calculateMemoryUsage cm' in
  (0 <= Buffer.points usage
   <= Z.of_nat (size (Buffer.ppie cm) + size (Buffer.vvie cm))
      * Buffer.maxDataPoints cm)%Z
  /\ Buffer.bytes usage = (16 * Buffer.points usage)%Z
  /\ (dom (Buffer.ppie cm) = dom (Buffer.ppie Buffer.new_ChartsManager) ->
      dom (Buffer.vvie cm) = dom (Buffer.vvie Buffer.new_ChartsManager) ->
      (Buffer.points usage <= 8 * Buffer.maxDataPoints cm)%Z).
Proof.
  intros Hmax Hcm cm' usage.
  destruct (feed_state packets cm) as (_ & Hm & Hdp & Hdv).
  destruct (feed_bounded packets cm Hmax Hcm) as [Hbp Hbv].
  fold cm' in Hm, Hdp, Hdv, Hbp, Hbv. rewrite Hm in Hbp, Hbv.
  assert (0 <= Buffer.maxDataPoints cm)%Z as Hmax0 by lia.
  pose proof (group_points_bound _ _ Hmax0 Hbp) as Hp.
  pose proof (group_points_bound _ _ Hmax0 Hbv) as Hv.
  rewrite <- (size_dom (Buffer.ppie cm')), Hdp, size_dom in Hp.
  rewrite <- (size_dom (Buffer.vvie cm')), Hdv, size_dom in Hv.
  assert (Buffer.points usage
          = (Buffer.group_points (Buffer.ppie cm')
             + Buffer.group_points (Buffer.vvie cm'))%Z) as Hpoints by done.
  split; [rewrite Hpoints; lia|]. split; [subst usage; simpl; lia|].
  intros Ep Ev.
  assert (size (Buffer.ppie cm) = 4) as Sp.
  { rewrite <- size_dom, Ep, size_dom. by vm_compute. }
  assert (size (Buffer.vvie cm) = 4) as Sv.
  { rewrite <- size_dom, Ev, size_dom. by vm_compute. }
  rewrite Hpoints. rewrite Sp in Hp. rewrite Sv in Hv. lia.
Qed.

(** The theorem on a fresh manager of capacity 2 that receives three
    points for one series: two are counted. *)
Lemma calculateMemoryUsage_bound_witness :
  let cm := Buffer.with_capacity 2 Buffer.new_ChartsManager in
  let packets :=
    [Buffer.ppie_packet "p_data"
       [Buffer.point 1; Buffer.point 2; Buffer.point 3]] in
  (Buffer.points
     (Buffer.calculateMemoryUsage (fold_left Buffer.updateChartsData packets cm))
   <= 16)%Z.
Proof.
  intros cm packets.
  assert (Buffer.cm_bounded cm) as Hb
    by (split; apply (bool_decide_unpack _); vm_compute; reflexivity).
  exact (proj2 (proj2 (calculateMemoryUsage_bound cm packets
                         ltac:(vm_compute; discriminate) Hb))
           eq_refl eq_refl).
Defined.

(** X11. [clearChartsData] empties every series and keeps the series
    names, so the memory estimate drops to zero; packets that arrive
    afterwards are buffered as on a fresh manager: every series, price or
    volume, holds the last [capacity] points of what the packets since the
    clearing carry for it. *)
Theorem clearChartsData_then_feed (cm : Buffer.ChartsManager)
    (packets : list Json.jsval) :
  (1 <= Buffer.maxDataPoints cm)%Z ->
  Buffer.cm_ready cm ->
  Forall (fun data => Buffer.plain_packet data = true) packets ->
  let C := Z.to_nat (Buffer.maxDataPoints cm) in
  let cleared := Buffer.clearChartsData cm in
  let cm' := fold_left Buffer.updateChartsData packets cleared in
  dom (Buffer.ppie cleared) = dom (Buffer.ppie cm)
  /\ dom (Buffer.vvie cleared) = dom (Buffer.vvie cm)
  /\ Buffer.points (Buffer.calculateMemoryUsage cleared) = 0%Z
  /\ (forall name,
        is_Some (Buffer.ppie cm !! name) ->
        Buffer.ppie_series cleared name = []
        /\ Buffer.ppie_series cm' name
           = Buffer.last_n C
               (List.concat
                  (Buffer.packet_batch "ppie_group" name <$> packets)))
  /\ (forall name,
        is_Some (Buffer.vvie cm !! name) ->
        Buffer.vvie_series cleared name = []
        /\ Buffer.vvie_series cm' name
           = Buffer.last_n C
               (List.concat
                  (Buffer.packet_batch "vvie_group" name <$> packets))).
Proof.
  intros Hmax Hready Hplain C cleared cm'.
  split; [apply dom_fmap_L|]. split; [apply dom_fmap_L|].
  split.
  { subst cleared. unfold Buffer.calculateMemoryUsage, Buffer.clearChartsData.
    simpl. by rewrite !group_points_clear. }
  destruct (feed_exact packets cleared Hmax Hready Hplain) as [Hp Hv].
  fold cm' in Hp, Hv.
  split.
  - intros name [buf Hbuf].
    assert (Buffer.ppie cleared !! name = Some []) as Hempty.
    { subst cleared. unfold Buffer.clearChartsData, Buffer.clear_group.
      simpl. by rewrite lookup_fmap, Hbuf. }
    unfold Buffer.ppie_series. rewrite Hempty.
    rewrite (Hp name [] Hempty ltac:(simpl; lia)). done.
  - intros name [buf Hbuf].
    assert (Buffer.vvie cleared !! name = Some []) as Hempty.
    { subst cleared. unfold Buffer.clearChartsData, Buffer.clear_group.
      simpl. by rewrite lookup_fmap, Hbuf. }
    unfold Buffer.vvie_series. rewrite Hempty.
    rewrite (Hv name [] Hempty ltac:(simpl; lia)). done.
Qed.

(** The theorem on a manager that holds one point per series, is cleared,
    and then receives two well-formed packets. *)
Lemma clearChartsData_then_feed_witness :
  let cm :=
    Buffer.updateChartsData Buffer.new_ChartsManager (App.full_packet 1) in
  Buffer.vvie_series
    (fold_left Buffer.updateChartsData (App.full_packet <$> [2; 3]%float)
       (Buffer.clearChartsData cm)) "v_data"
  = Buffer.point <$> [2; 3]%float.
Proof.
  intros cm.
  exact (proj2 (proj2 (proj2 (proj2 (proj2
           (clearChartsData_then_feed cm (App.full_packet <$> [2; 3]%float)
              ltac:(vm_compute; discriminate)
              (conj eq_refl (conj eq_refl eq_refl))
              ltac:(repeat constructor)))))
           "v_data" (ex_intro _ _ eq_refl))).
Defined.

(** X12. After [destroy] every packet is ignored; the buffered points are
    not released: the memory estimate is what it was before. *)
Theorem destroy_ignores_packets (cm : Buffer.ChartsManager)
    (packets : list Json.jsval) :
  fold_left Buffer.updateChartsData packets (Buffer.destroy cm)
  = Buffer.destroy cm
  /\ Buffer.ppie (Buffer.destroy cm) = Buffer.ppie cm
  /\ Buffer.vvie (Buffer.destroy cm) = Buffer.vvie cm
  /\ Buffer.calculateMemoryUsage (Buffer.destroy cm)
     = Buffer.calculateMemoryUsage cm.
Proof.
  split; [|done].
  induction packets as [|data packets IH]; [done|].
  cbn [fold_left]. exact IH.
Qed.

(** X13. On a page without the price chart's container the manager is
    still initialised.  A packet with a price group then updates the price
    buffers as usual, the redraw throws, the error is swallowed, and the
    volume group of the packet is never looked at: the volume buffers stay
    as they were. *)
Theorem missing_price_chart_blocks_volume (cm : Buffer.ChartsManager)
    (data pg : Json.jsval) :
  Buffer.isInitialized cm = true ->
  Json.prop data "ppie_group" = Some pg ->
  Json.truthy pg = true ->
  let broken := Buffer.without_ppieChart cm in
  Buffer.vvie (Buffer.updateChartsData broken data) = Buffer.vvie cm
  /\ Buffer.ppie (Buffer.updateChartsData broken data)
     = Buffer.ppie (Buffer.updateChartsData (Buffer.with_ppieChart cm) data).
Proof.
  intros Hinit Hpg Htruthy broken. subst broken.
  unfold Buffer.updateChartsData, caught, Buffer.updateChartsData_try.
  cbn [Buffer.isInitialized Buffer.without_ppieChart Buffer.with_ppieChart].
  rewrite Hinit, Hpg, Htruthy. cbn [negb].
  unfold Buffer.updatePPIEData.
  cbn [Buffer.maxDataPoints Buffer.ppie Buffer.ppieChart
       Buffer.without_ppieChart Buffer.with_ppieChart].
  destruct (Json.entries pg) as [es|]; [|done].
  destruct (Buffer.push_entries _ _ es) as [g|g]; cbn [state_of]; [|done].
  split; [done|].
  destruct (Json.prop data "vvie_group") as [vg|]; [|done].
  destruct (Json.truthy vg); [|done].
  unfold Buffer.updateVVIEData.
  destruct (Json.entries vg) as [es'|]; [|done].
  cbn [Buffer.maxDataPoints Buffer.vvie Buffer.set_ppie].
  destruct (Buffer.push_entries _ _ es') as [g'|g']; cbn [state_of]; [|done].
  by destruct (Buffer.vvieChart _).
Qed.

(** The theorem on a packet that carries one point for each group: the
    volume point is lost. *)
Lemma missing_price_chart_blocks_volume_witness :
  let data :=
    Json.VObj [("ppie_group", Json.VObj [("p_data", Json.VArr [Buffer.point 1])]);
               ("vvie_group", Json.VObj [("v_data", Json.VArr [Buffer.point 1])])] in
  Buffer.vvie
    (Buffer.updateChartsData
       (Buffer.without_ppieChart Buffer.new_ChartsManager) data)
  = Buffer.vvie Buffer.new_ChartsManager.
Proof.
  intros data.
  exact (proj1 (missing_price_chart_blocks_volume Buffer.new_ChartsManager data
                  _ eq_refl eq_refl eq_refl)).
Defined.

(** ** The grid controller: return value, fields, visibility, teardown *)


(** A packet that fails the format check leaves the controller as it
    was. *)
Lemma plain_invalid_unchanged (now : float) (s : Grid.GridController)
    (data : Json.jsval) :
  Grid.validateDataFormat data = false ->
  (Grid.updateChartsData_plain now s data).2 = s.
Proof.
  intros Hinvalid. unfold Grid.updateChartsData_plain.
  destruct (Grid.busy s) eqn:Hbusy; [done|].
  rewrite cycle_body_invalid by done. simpl.
  apply set_isUpdating_idle.
  unfold Grid.busy in Hbusy. by apply orb_false_elim in Hbusy as [_ ?].
Qed.

(** X14. The return value of the grid controller's [updateChartsData]
    tells whether anything happened.  It is [true] exactly when the
    controller is initialised and idle and the packet is an object with a
    truthy [ppie] or [vvie]; then both counters advance by one.  When it is
    [false] the controller is left exactly as it was, buffers included. *)
Theorem grid_update_return_value (now : float) (s : Grid.GridController)
    (data : Json.jsval) :
  let r := Grid.updateChartsData_plain now s data in
  r.1 = negb (Grid.busy s) && Grid.validateDataFormat data
  /\ (r.1 = false -> r.2 = s)
  /\ (r.1 = true ->
      Grid.updateCount r.2 = (Grid.updateCount s + 1)%Z
      /\ Grid.dataUpdates r.2 = (Grid.dataUpdates s + 1)%Z
      /\ Grid.isUpdating r.2 = false).
Proof.
  intros r. subst r.
  destruct (Grid.validateDataFormat data) eqn:Hvalid.
  - unfold Grid.updateChartsData_plain.
    destruct (Grid.busy s) eqn:Hbusy; [done|].
    pose proof (cycle_body_ok now (Grid.set_isUpdating true s) data) as Hok.
    destruct (cycle_body_counters now (Grid.set_isUpdating true s) data Hvalid)
      as [Hc Hd].
    destruct (Grid.cycle_body now (Grid.set_isUpdating true s) data)
      as [ok s1]. simpl in Hok. rewrite Hvalid in Hok. subst ok. simpl in *.
    split; [done|]. split; [done|]. intros _. by rewrite Hc, Hd.
  - pose proof (plain_invalid_unchanged now s data Hvalid) as Hsame.
    assert ((Grid.updateChartsData_plain now s data).1 = false) as Hfalse.
    { unfold Grid.updateChartsData_plain.
      destruct (Grid.busy s); [done|]. by rewrite cycle_body_invalid. }
    rewrite Hfalse, andb_false_r. split; [done|]. split; [done|]. done.
Qed.

(** X15. One tick of the upper grid pushes one point per field that is
    present: for each of [P], [PIB], [PSD], [PEB] the series of that field
    gets the point [[timestamp, value]] unless the value is [undefined] (a
    [null] value is pushed), all with the same timestamp, the packet's or,
    when that is missing or falsy, the clock reading; then the series is
    cut down to the capacity. *)
Theorem grid_tick_fields (now : float) (s : Grid.GridController)
    (data : Json.jsval) (F key : string) (buf : list Json.jsval) :
  Grid.gc_ready s ->
  Json.truthy (Json.prop_opt data "ppie") = true ->
  Json.typeof_object data = true ->
  (F, key) ∈ Grid.grid1_fields ->
  Grid.grid1 s !! key = Some buf ->
  let s' := (Grid.updateChartsData_plain now s data).2 in
  let v := Json.prop_opt (Json.prop_opt data "ppie") F in
  let t := Json.prop_opt (Json.prop_opt data "metadata") "timestamp" in
  let timestamp := if Json.truthy t then t else Json.VNum now in
  Grid.grid1 s' !! key
  = Some (Buffer.limit (Grid.maxDataPoints s)
            (buf ++ (if Json.not_undefined v
                     then [Json.VArr [timestamp; v]] else []))).
Proof.
  intros (Hinit & Hupd & Hchart & Hvis) Hppie Hobj Hin Hbuf s' v t timestamp.
  subst s'. unfold Grid.updateChartsData_plain, Grid.busy.
  rewrite Hinit, Hupd. cbn [negb orb].
  assert (Grid.validateDataFormat data = true) as Hvalid.
  { unfold Grid.validateDataFormat. rewrite Hobj, Hppie.
    by destruct data. }
  unfold Grid.cycle_body. rewrite Hvalid, Hppie.
  cbn [negb Grid.grid1Chart Grid.grid1Visible Grid.set_isUpdating].
  rewrite Hchart, Hvis. cbn [andb].
  set (s1 := Grid.updateGrid1Data _ _ _ _).
  assert (Grid.grid1 s1 !! key
          = Some (Buffer.limit (Grid.maxDataPoints s)
                    (buf ++ (if Json.not_undefined v
                             then [Json.VArr [timestamp; v]] else []))))
    as Hs1.
  { subst s1. unfold Grid.updateGrid1Data, Grid.updateGridBuffer,
      Grid.limitDataBuffer.
    cbn [Grid.grid1 Grid.set_grid1 Grid.maxDataPoints Grid.set_isUpdating].
    rewrite lookup_fmap.
    rewrite (push_fields_lookup _ _ Grid.grid1_fields
               ltac:(apply (bool_decide_unpack _); vm_compute; reflexivity)
               _ F key Hin).
    by rewrite Hbuf. }
  destruct (Json.truthy (Json.prop_opt data "vvie") && Grid.grid2Chart s1
            && Grid.grid2Visible s1); exact Hs1.
Qed.

(** The theorem on a tick whose [P] is [null] and whose timestamp is 0: the
    point [[now, null]] is pushed, stamped by the clock. *)
Lemma grid_tick_fields_witness :
  Grid.grid1
    (Grid.updateChartsData_plain 7 Grid.new_GridController
       (Grid.tick (Json.VNum 0) Json.VNull)).2 !! "p_data"
  = Some [Json.VArr [Json.VNum 7; Json.VNull]].
Proof.
  exact (grid_tick_fields 7 Grid.new_GridController
           (Grid.tick (Json.VNum 0) Json.VNull) "P" "p_data" []
           (conj eq_refl (conj eq_refl (conj eq_refl eq_refl)))
           eq_refl eq_refl
           ltac:(apply (bool_decide_unpack _); vm_compute; reflexivity)
           eq_refl).
Defined.

(** X16. While the upper grid is hidden, or has no chart, the packets for
    it are dropped, not buffered: its series are not changed by any run of
    packets, and showing the grid again brings back what it held before it
    was hidden, without the points that arrived in between. *)
Theorem hidden_grid_drops_packets (now : float) (s : Grid.GridController)
    (packets : list Json.jsval) :
  let hidden := Grid.setGridVisibility "grid1" false s in
  let after := Grid.feed now packets hidden in
  Grid.grid1 after = Grid.grid1 s
  /\ Grid.grid1 (Grid.setGridVisibility "grid1" true after) = Grid.grid1 s
  /\ Grid.grid1Visible (Grid.setGridVisibility "grid1" true after) = true
  /\ (Grid.grid1Chart s = false ->
      Grid.grid1 (Grid.feed now packets s) = Grid.grid1 s).
Proof.
  intros hidden after.
  destruct (feed_grid1_off now packets hidden) as (H1 & _ & _).
  { subst hidden. simpl. apply andb_false_r. }
  fold after in H1. split; [exact H1|]. split; [exact H1|]. split; [done|].
  intros Hchart.
  destruct (feed_grid1_off now packets s) as (H2 & _ & _); [|done].
  by rewrite Hchart.
Qed.

(** X17. After [destroy] the grid controller holds no point, and refuses
    every packet: the call returns [false] and changes nothing. *)
Theorem grid_destroy_is_final (now : float) (s : Grid.GridController)
    (packets : list Json.jsval) (data : Json.jsval) :
  Grid.totalDataPoints (Grid.destroy s) = 0%Z
  /\ Grid.updateChartsData_plain now (Grid.destroy s) data
     = (false, Grid.destroy s)
  /\ Grid.feed now packets (Grid.destroy s) = Grid.destroy s.
Proof.
  split; [|split].
  - unfold Grid.totalDataPoints, Grid.destroy. simpl.
    by rewrite !group_points_clear.
  - done.
  - induction packets as [|d packets IH]; [done|].
    unfold Grid.feed in *. cbn [fold_left]. exact IH.
Qed.

(** X18. [clearChartsData] on the grid controller empties every series of
    both grids; the ticks that follow are buffered from empty: the price
    series holds the points of the last [capacity] ticks since the
    clearing. *)
Theorem grid_clear_then_ticks (now : float) (s : Grid.GridController)
    (ticks : list (Json.jsval * Json.jsval)) :
  (1 <= Grid.maxDataPoints s)%Z ->
  Grid.gc_ready s ->
  is_Some (Grid.grid1 s !! "p_data") ->
  Forall (fun t => Json.not_undefined t.2 = true) ticks ->
  let cleared := Grid.clearChartsData s in
  Grid.totalDataPoints cleared = 0%Z
  /\ dom (Grid.grid1 cleared) = dom (Grid.grid1 s)
  /\ dom (Grid.grid2 cleared) = dom (Grid.grid2 s)
  /\ Grid.grid1_series (Grid.feed_ticks now ticks cleared) "p_data"
     = Buffer.last_n (Z.to_nat (Grid.maxDataPoints s))
                     (Grid.tick_point now <$> ticks).
Proof.
  intros Hmax Hready [buf Hbuf] Hticks cleared.
  split.
  { unfold Grid.totalDataPoints. subst cleared. simpl.
    by rewrite !group_points_clear. }
  split; [apply dom_fmap_L|]. split; [apply dom_fmap_L|].
  assert (Grid.grid1 cleared !! "p_data" = Some []) as Hempty.
  { subst cleared. unfold Grid.clearChartsData, Buffer.clear_group. simpl.
    by rewrite lookup_fmap, Hbuf. }
  unfold Grid.grid1_series.
  rewrite (grid_feed_ticks now ticks cleared [] Hmax Hready Hticks Hempty
             ltac:(simpl; lia)).
  done.
Qed.

(** The theorem on a controller of the default capacity that holds one
    point, is cleared, and then takes one tick. *)
Lemma grid_clear_then_ticks_witness :
  let s :=
    (Grid.updateChartsData_plain 0 Grid.new_GridController
       (Grid.tick (Json.VNum 1) (Json.VNum 10))).2 in
  Grid.grid1_series
    (Grid.feed_ticks 0 [(Json.VNum 2, Json.VNum 20)] (Grid.clearChartsData s))
    "p_data"
  = [Json.VArr [Json.VNum 2; Json.VNum 20]].
Proof.
  intros s.
  exact (proj2 (proj2 (proj2
           (grid_clear_then_ticks 0 s [(Json.VNum 2, Json.VNum 20)]
              ltac:(vm_compute; discriminate)
              (conj eq_refl (conj eq_refl (conj eq_refl eq_refl)))
              (ex_intro _ _ eq_refl)
              ltac:(repeat constructor))))).
Defined.

(** ** The connection manager: invariants, manual disconnect, streams *)

Section SocketInvariants.
Import JS Json Socket.

Local Ltac inv_intro :=
  unfold socket_inv; intros (H1 & H2 & H3 & H4 & H5 & H6 & H7).

Lemma connect_inv (s0 s : WebSocketManager) :
  socket_inv s0 s -> socket_inv s0 (connect s).
Proof.
  inv_intro. unfold connect.
  destruct (isConnected s || isConnecting s) eqn:Hbusy; simpl.
  - repeat split; try done; lia.
  - apply orb_false_elim in Hbusy as [-> _]. repeat split; try done; lia.
Qed.

Lemma scheduleReconnect_inv (s0 s : WebSocketManager) :
  socket_inv s0 s -> socket_inv s0 (scheduleReconnect s).
Proof.
  inv_intro. unfold scheduleReconnect.
  destruct (Z.leb_spec (maxReconnectAttempts s) (reconnectAttempts s)).
  - simpl. repeat split; try done; lia.
  - simpl. repeat split; try done; try lia.
    apply Forall_app. split; [done|]. apply Forall_singleton.
    unfold backoff_delay. simpl. lia.
Qed.

Lemma step_inv (s0 s : WebSocketManager) (i : input) :
  socket_inv s0 s -> socket_inv s0 (step s i).
Proof.
  intros Hs. pose proof Hs as Hs'. revert Hs'. inv_intro.
  destruct i as [| |now|reason| |]; simpl.
  - by apply connect_inv.
  - unfold disconnect.
    destruct (negb (isConnected s) && negb (isConnecting s)); [done|].
    unfold socket_inv. simpl. repeat split; try done; lia.
  - unfold on_connect, socket_inv. simpl. repeat split; try done; lia.
  - unfold on_disconnect.
    assert (socket_inv s0
              (updateConnectionStatus Disconnected (with_flags false false s)))
      as Hs1 by (unfold socket_inv; simpl; repeat split; try done; lia).
    destruct (negb (String.eqb reason "io client disconnect")); [|done].
    by apply scheduleReconnect_inv.
  - unfold on_connect_error. apply scheduleReconnect_inv.
    unfold socket_inv. simpl.
    repeat split; try done; try lia; apply andb_false_r.
  - unfold timer_fired. destruct (timers s) as [|d rest] eqn:Ht; [done|].
    apply Forall_cons in H6 as [_ H6].
    assert (socket_inv s0 (with_timers rest s)) as Hs1
      by (unfold socket_inv; simpl; repeat split; try done; lia).
    destruct (negb (isConnected (with_timers rest s))); [|done].
    by apply connect_inv.
Qed.

Lemma run_inv (inputs : list input) :
  forall s0 s, socket_inv s0 s -> socket_inv s0 (run s inputs).
Proof.
  induction inputs as [|i inputs IH]; intros s0 s Hs; [done|].
  unfold run. cbn [fold_left]. apply IH. by apply step_inv.
Qed.

End SocketInvariants.

(** X19. Whatever the user and the transport do, in any order, the
    connection manager keeps its configuration, its attempt counter stays
    between 0 and the maximum, it is never connected and connecting at
    once, every pending reconnect waits at most the maximum delay, and it
    shows "failed" only with the counter at the maximum. *)
Theorem reconnect_invariants (s : Socket.WebSocketManager)
    (inputs : list Socket.input) :
  (0 <= Socket.reconnectAttempts s <= Socket.maxReconnectAttempts s)%Z ->
  Socket.isConnected s && Socket.isConnecting s = false ->
  Forall (fun d => (d <= Socket.maxReconnectDelay s)%Z) (Socket.timers s) ->
  (Socket.lastStatus s = Some Socket.Failed ->
   Socket.reconnectAttempts s = Socket.maxReconnectAttempts s) ->
  let s' := Socket.run s inputs in
  Socket.maxReconnectAttempts s' = Socket.maxReconnectAttempts s
  /\ Socket.reconnectDelay s' = Socket.reconnectDelay s
  /\ Socket.maxReconnectDelay s' = Socket.maxReconnectDelay s
  /\ (0 <= Socket.reconnectAttempts s' <= Socket.maxReconnectAttempts s)%Z
  /\ Socket.isConnected s' && Socket.isConnecting s' = false
  /\ Forall (fun d => (d <= Socket.maxReconnectDelay s)%Z) (Socket.timers s')
  /\ (Socket.lastStatus s' = Some Socket.Failed ->
      Socket.reconnectAttempts s' = Socket.maxReconnectAttempts s).
Proof.
  intros H1 H2 H3 H4 s'. apply (run_inv inputs s s).
  unfold Socket.socket_inv. repeat split; try done; lia.
Qed.

(** The theorem on the default manager and a trace with a failed attempt,
    a manual disconnect, the reconnect timer and a second failure. *)
Lemma reconnect_invariants_witness :
  let s' :=
    Socket.run Socket.new_WebSocketManager
      [Socket.CallConnect; Socket.SockConnectError; Socket.CallDisconnect;
       Socket.TimerFired; Socket.SockConnectError] in
  (0 <= Socket.reconnectAttempts s' <= 10)%Z.
Proof.
  intros s'.
  exact (proj1 (proj2 (proj2 (proj2
           (reconnect_invariants Socket.new_WebSocketManager
              [Socket.CallConnect; Socket.SockConnectError;
               Socket.CallDisconnect; Socket.TimerFired;
               Socket.SockConnectError]
              ltac:(simpl; lia) eq_refl (Forall_nil_2 _)
              ltac:(simpl; discriminate)))))).
Defined.

(** X20. [disconnect()] does not cancel a pending reconnect.  While the
    manager waits for a reconnect timer it is neither connected nor
    connecting, so [disconnect()] returns at its guard and changes nothing;
    when the timer fires the manager starts connecting again. *)
Theorem disconnect_keeps_pending_reconnect (s : Socket.WebSocketManager)
    (d : Z) (rest : list Z) :
  Socket.isConnected s = false ->
  Socket.isConnecting s = false ->
  Socket.timers s = d :: rest ->
  Socket.disconnect s = s
  /\ (let s' := Socket.run s [Socket.CallDisconnect; Socket.TimerFired] in
      Socket.isConnecting s' = true
      /\ Socket.lastStatus s' = Some Socket.Connecting
      /\ Socket.timers s' = rest
      /\ Socket.reconnectAttempts s' = Socket.reconnectAttempts s).
Proof.
  intros Hc Hg Ht.
  assert (Socket.disconnect s = s) as Hd
    by (unfold Socket.disconnect; by rewrite Hc, Hg).
  split; [exact Hd|].
  unfold Socket.run. cbn [fold_left Socket.step]. rewrite Hd.
  unfold Socket.timer_fired. rewrite Ht. simpl. rewrite Hc. simpl.
  unfold Socket.connect. simpl. rewrite Hc, Hg. done.
Qed.

(** The theorem on the default manager after one failed attempt. *)
Lemma disconnect_keeps_pending_reconnect_witness :
  let s :=
    Socket.run Socket.new_WebSocketManager
      [Socket.CallConnect; Socket.SockConnectError] in
  Socket.disconnect s = s.
Proof.
  intros s.
  exact (proj1 (disconnect_keeps_pending_reconnect s 1000 []
                  eq_refl eq_refl eq_refl)).
Defined.

(** X21. A manual disconnect of a live connection schedules nothing: after
    [disconnect()] and the transport's event with the reason
    "io client disconnect" the manager is disconnected with the timers and
    the attempt counter it had.  A disconnect for any other reason, with
    attempts left, schedules exactly one reconnect, after the back-off delay
    of the next attempt. *)
Theorem manual_disconnect_schedules_nothing (s : Socket.WebSocketManager)
    (reason : string) :
  Socket.isConnected s = true ->
  (let s' :=
     Socket.run s [Socket.CallDisconnect;
                   Socket.SockDisconnect "io client disconnect"] in
   Socket.timers s' = Socket.timers s
   /\ Socket.reconnectAttempts s' = Socket.reconnectAttempts s
   /\ Socket.isConnected s' = false /\ Socket.isConnecting s' = false
   /\ Socket.lastStatus s' = Some Socket.Disconnected)
  /\ (reason <> "io client disconnect" ->
      (Socket.reconnectAttempts s < Socket.maxReconnectAttempts s)%Z ->
      let s' := Socket.run s [Socket.SockDisconnect reason] in
      Socket.timers s'
      = Socket.timers s
        ++ [Socket.backoff_delay s (Socket.reconnectAttempts s + 1)]
      /\ Socket.reconnectAttempts s' = (Socket.reconnectAttempts s + 1)%Z
      /\ Socket.lastStatus s' = Some Socket.Reconnecting).
Proof.
  intros Hc. split.
  - unfold Socket.run. cbn [fold_left Socket.step].
    unfold Socket.disconnect. rewrite Hc. simpl. done.
  - intros Hreason Hleft s'. subst s'.
    unfold Socket.run. cbn [fold_left Socket.step].
    unfold Socket.on_disconnect.
    destruct (String.eqb_spec reason "io client disconnect") as [|_]; [done|].
    cbn [negb]. unfold Socket.scheduleReconnect. simpl.
    destruct (Z.leb_spec (Socket.maxReconnectAttempts s)
                (Socket.reconnectAttempts s)); [lia|].
    simpl. done.
Qed.

(** The theorem on the default manager once connected. *)
Lemma manual_disconnect_schedules_nothing_witness :
  let s := Socket.run Socket.new_WebSocketManager
             [Socket.CallConnect; Socket.SockConnect 0] in
  Socket.timers
    (Socket.run s [Socket.CallDisconnect;
                   Socket.SockDisconnect "io client disconnect"]) = [].
Proof.
  intros s.
  exact (proj1 (proj1 (manual_disconnect_schedules_nothing s "transport close"
                         eq_refl))).
Defined.


(** X22. Over any stream of realtime packets and history responses, the
    [onData] listeners see exactly the accepted realtime packets and the
    [data] of the history responses whose status is "success", in arrival
    order.  History data is handed over without validation, and only
    accepted realtime packets are counted as received. *)
Theorem listeners_see_delivered_stream {X : Type}
    (onData : Json.jsval -> X -> X) (events : list Socket.transport_event)
    (ws : Socket.WebSocketManager) (x : X) :
  let p' := fold_left (Socket.receive onData) events (ws, x) in
  Socket.dataEvents p'.1
  = Socket.dataEvents ws ++ omap Socket.delivered events
  /\ p'.2 = fold_left (fun x data => onData data x)
                      (omap Socket.delivered events) x
  /\ Socket.receivedDataCount p'.1
     = (Socket.receivedDataCount ws
        + Z.of_nat (length (filter
                              (fun e => Socket.is_accepted_realtime e = true)
                              events)))%Z
  /\ (forall response data,
        Json.prop response "status" = Some (Json.VStr "success") ->
        Json.prop_opt response "data" = data ->
        Socket.handleHistoryResponse onData response (ws, x)
        = (Socket.emit_onData data ws, onData data x)).
Proof.
  intros p'. destruct (receive_stream onData events (ws, x)) as (H1 & H2 & H3).
  split; [exact H1|]. split; [exact H2|]. split; [exact H3|].
  intros response data Hst <-. unfold Socket.handleHistoryResponse.
  by rewrite Hst.
Qed.

(** X23. The network quality measures the time since the last accepted
    packet.  On a connected manager, after an accepted packet at time [t0]
    the quality at time [t] is good up to 5000 ms, fair up to 10000 ms and
    poor beyond; a rejected packet does not refresh it; and after
    [resetStatistics] the quality is good at every time, until the next
    accepted packet. *)
Theorem network_quality_since_last_packet {X : Type}
    (onData : Json.jsval -> X -> X) (ws : Socket.WebSocketManager) (x : X)
    (t0 t : Z) (data : Json.jsval) :
  Socket.isConnected ws = true ->
  let ws' := (Socket.handleRealtimeData onData t0 data (ws, x)).1 in
  (Socket.accepts data = true ->
   Socket.getNetworkQuality t ws'
   = (if (10000 <? t - t0)%Z then Socket.QualityPoor
      else if (5000 <? t - t0)%Z then Socket.QualityFair
      else Socket.QualityGood, Some (t - t0)%Z))
  /\ (Socket.accepts data = false ->
      Socket.getNetworkQuality t ws' = Socket.getNetworkQuality t ws)
  /\ Socket.getNetworkQuality t (Socket.resetStatistics ws)
     = (Socket.QualityGood, None)
  /\ Socket.getNetworkQuality t (Socket.disconnect ws)
     = (Socket.QualityDisconnected, None).
Proof.
  intros Hc ws'. subst ws'. unfold Socket.handleRealtimeData.
  rewrite validateRealtimeData_accepts. simpl.
  split; [|split; [|split]].
  - intros ->. unfold Socket.getNetworkQuality. simpl. by rewrite Hc.
  - intros ->. unfold Socket.getNetworkQuality. simpl. done.
  - unfold Socket.getNetworkQuality. simpl. by rewrite Hc.
  - unfold Socket.getNetworkQuality, Socket.disconnect. rewrite Hc. done.
Qed.

(** The theorem on the default manager once connected, six seconds after
    an accepted packet. *)
Lemma network_quality_since_last_packet_witness :
  let ws := Socket.on_connect 0 Socket.new_WebSocketManager in
  Socket.getNetworkQuality 7000
    (Socket.handleRealtimeData (fun _ (u : unit) => u) 1000
       (App.sample_packet 1 2) (ws, tt)).1
  = (Socket.QualityFair, Some 6000%Z).
Proof.
  intros ws.
  exact (proj1 (network_quality_since_last_packet (fun _ (u : unit) => u)
                  ws tt 1000 7000 (App.sample_packet 1 2) eq_refl)
           eq_refl).
Defined.

(** ** Listener registries *)

Section RegistryFacts.
Import Callbacks.

Lemma indexOf_snoc_fresh (callback : nat) (listeners : list nat) :
  callback ∉ listeners ->
  indexOf callback (listeners ++ [callback]) = Some (length listeners).
Proof.
  induction listeners as [|c listeners IH]; intros Hfresh; simpl.
  - by rewrite Nat.eqb_refl.
  - apply not_elem_of_cons in Hfresh as [Hne Hfresh].
    destruct (Nat.eqb_spec c callback) as [->|_]; [done|].
    by rewrite IH.
Qed.

Lemma indexOf_Some (callback : nat) (listeners : list nat) (i : nat) :
  indexOf callback listeners = Some i ->
  listeners !! i = Some callback
  /\ callback ∉ take i listeners.
Proof.
  revert i. induction listeners as [|c listeners IH]; intros i; [done|].
  simpl. destruct (Nat.eqb_spec c callback) as [->|Hne].
  - intros [= <-]. split; [done|]. simpl. apply not_elem_of_nil.
  - destruct (indexOf callback listeners) as [k|]; [|done].
    intros [= <-]. destruct (IH k eq_refl) as [Hk Hfresh].
    split; [done|]. simpl. apply not_elem_of_cons. split; [congruence|done].
Qed.

Lemma indexOf_None (callback : nat) (listeners : list nat) :
  indexOf callback listeners = None <-> callback ∉ listeners.
Proof.
  induction listeners as [|c listeners IH]; simpl.
  - split; [intros _; apply not_elem_of_nil|done].
  - destruct (Nat.eqb_spec c callback) as [->|Hne].
    + split; [done|]. intros H. exfalso. apply H. left.
    + rewrite not_elem_of_cons.
      destruct (indexOf callback listeners); simpl.
      * split; [done|]. intros [_ H]. by apply IH in H.
      * split; [|done]. intros _. split; [congruence|]. by apply IH.
Qed.

Lemma delete_snoc (i : nat) (listeners : list nat) (callback : nat) :
  i < length listeners ->
  delete i (listeners ++ [callback]) = delete i listeners ++ [callback].
Proof.
  intros Hi. rewrite !delete_take_drop.
  rewrite take_app_le, drop_app_le by lia. by rewrite app_assoc.
Qed.

End RegistryFacts.

(** X24. Registering a listener and removing it again restores the
    registry, when the listener was not registered for that event before.
    In general [off] removes the first registration only, so a listener
    registered twice is still called once; an event name the registry does
    not know is ignored by both, and removing a listener that is not
    registered changes nothing. *)
Theorem on_off_round_trip (reg : Callbacks.registry) (event : string)
    (callback : nat) (listeners : list nat) :
  reg !! event = Some listeners ->
  (callback ∉ listeners ->
   Callbacks.on event callback reg ≫= Callbacks.off event callback = Some reg
   /\ Callbacks.off event callback reg = Some reg)
  /\ (forall i, Callbacks.indexOf callback listeners = Some i ->
        Callbacks.on event callback reg ≫= Callbacks.off event callback
        = Some (<[event := delete i listeners ++ [callback]]> reg)
        /\ callback ∈ delete i listeners ++ [callback])
  /\ (forall unknown,
        reg !! unknown = None -> Buffer.inherited unknown = false ->
        Callbacks.on unknown callback reg = Some reg
        /\ Callbacks.off unknown callback reg = Some reg).
Proof.
  intros Hreg. split; [|split].
  - intros Hfresh. unfold Callbacks.on, Callbacks.off. rewrite Hreg. simpl.
    rewrite lookup_insert_eq, indexOf_snoc_fresh by done.
    rewrite insert_insert_eq.
    replace (delete (length listeners) (listeners ++ [callback]))
      with listeners.
    + rewrite insert_id by done.
      by rewrite (proj2 (indexOf_None callback listeners) Hfresh).
    + by rewrite delete_middle, app_nil_r.
  - intros i Hi. destruct (indexOf_Some _ _ _ Hi) as [Hlookup Hbefore].
    unfold Callbacks.on, Callbacks.off. rewrite Hreg. simpl.
    rewrite lookup_insert_eq.
    assert (Callbacks.indexOf callback (listeners ++ [callback]) = Some i)
      as ->.
    { clear Hreg Hlookup Hbefore. revert i Hi.
      induction listeners as [|c listeners IH]; intros i; [done|].
      simpl. destruct (Nat.eqb c callback); [done|].
      destruct (Callbacks.indexOf callback listeners) as [k|]; [|done].
      intros [= <-]. by rewrite (IH k eq_refl). }
    rewrite insert_insert_eq. split.
    + do 2 f_equal. apply delete_snoc. by eapply lookup_lt_Some.
    + apply elem_of_app. right. apply list_elem_of_singleton. done.
  - intros unknown Hnone Hinh. unfold Callbacks.on, Callbacks.off.
    by rewrite Hnone, Hinh.
Qed.

(** The theorem on the registry [{onData: [1, 2]}] and the new
    listener 3. *)
Lemma on_off_round_trip_witness :
  let reg : Callbacks.registry := {[ "onData" := [1; 2] ]} in
  Callbacks.on "onData" 3 reg ≫= Callbacks.off "onData" 3 = Some reg.
Proof.
  intros reg.
  refine (proj1 (proj1 (on_off_round_trip reg "onData" 3 [1; 2] _) _)).
  - apply lookup_singleton_eq.
  - apply (bool_decide_unpack _). vm_compute. reflexivity.
Defined.

(** ** The persistent cache: streams of packets and the rows of a packet *)

Section DatabaseFacts.
Import JS Json Database.

Lemma saveRealtimeData_rows (db : DatabaseManager) (dataPacket : jsval) :
  isInitialized db = true ->
  saveRealtimeData db dataPacket
  = MkDatabaseManager true (realtime_series db ++ rows_of dataPacket)
      (totalRecords db + Z.of_nat (length (rows_of dataPacket))).
Proof.
  intros Hinit. unfold saveRealtimeData, rows_of. rewrite Hinit. simpl.
  destruct (packet_records dataPacket) as [rows|]; simpl; [done|].
  destruct db; simpl in *. subst. by rewrite app_nil_r, Z.add_0_r.
Qed.

Lemma save_stream (packets : list jsval) :
  forall db : DatabaseManager,
    isInitialized db = true ->
    let db' := fold_left saveRealtimeData packets db in
    isInitialized db' = true
    /\ realtime_series db'
       = realtime_series db ++ List.concat (rows_of <$> packets)
    /\ totalRecords db'
       = (totalRecords db
          + Z.of_nat (length (List.concat (rows_of <$> packets))))%Z.
Proof.
  induction packets as [|data packets IH]; intros db Hinit.
  - simpl. rewrite app_nil_r. split; [done|]. split; [done|]. lia.
  - cbn [fold_left]. rewrite saveRealtimeData_rows by done.
    destruct (IH (MkDatabaseManager true (realtime_series db ++ rows_of data)
                    (totalRecords db + Z.of_nat (length (rows_of data))))
                eq_refl) as (I1 & I2 & I3).
    cbv zeta. rewrite I1, I2, I3, fmap_cons.
    cbn [List.concat realtime_series totalRecords isInitialized].
    rewrite length_app, <- app_assoc. split; [done|]. split; [done|]. lia.
Qed.

Lemma save_uninitialised (packets : list jsval) (db : DatabaseManager) :
  isInitialized db = false -> fold_left saveRealtimeData packets db = db.
Proof.
  intros Hinit. induction packets as [|data packets IH]; [done|].
  cbn [fold_left]. unfold saveRealtimeData at 2. by rewrite Hinit.
Qed.

Lemma series_records_rows (grp : string) (session seq : jsval)
    (entry : string * jsval) (rows : list record) :
  series_records grp session seq entry = Some rows ->
  length rows = length (default [] (iterate entry.2))
  /\ Forall (row_of grp session seq) rows
  /\ Forall (fun r => series_name r = series_label entry.1) rows.
Proof.
  unfold series_records. destruct (iterate entry.2) as [dataPoints|]; [|done].
  simpl. intros Hrows. apply mapM_Some in Hrows.
  induction Hrows as [|point r dataPoints rows Hr _ IH]; [done|].
  destruct IH as (IH1 & IH2 & IH3).
  destruct (iterate point) as [items|]; [|done]. simpl in Hr.
  injection Hr as <-. simpl. split; [by rewrite IH1|].
  split; apply Forall_cons; done.
Qed.

Lemma group_records_rows (grp : string) (session seq : jsval)
    (groupData : jsval) (rows : list record) :
  group_records grp session seq groupData = Some rows ->
  length rows = group_size groupData
  /\ Forall (row_of grp session seq) rows.
Proof.
  unfold group_records, group_size.
  destruct (entries groupData) as [es|]; [|done]. simpl.
  destruct (mapM (series_records grp session seq) es) as [rss|] eqn:Hm;
    [|done].
  simpl. intros [= <-]. apply mapM_Some in Hm.
  induction Hm as [|entry rs es rss Hrs _ IH]; [done|].
  destruct IH as [IH1 IH2].
  destruct (series_records_rows _ _ _ _ _ Hrs) as (H1 & H2 & _).
  simpl. rewrite length_app, H1, IH1. split; [done|].
  apply Forall_app. done.
Qed.

End DatabaseFacts.

(** X25. The cache is append-only and its counter tracks the table: over
    any stream of packets an initialised cache ends with the rows it had,
    followed by the rows of each packet in arrival order, and
    [totalRecords] grows by exactly the number of rows added; a packet
    whose rows cannot be built adds nothing.  A cache that is not
    initialised ignores every packet. *)
Theorem saveRealtimeData_stream (db : Database.DatabaseManager)
    (packets : list Json.jsval) :
  let db' := fold_left Database.saveRealtimeData packets db in
  (Database.isInitialized db = true ->
   Database.realtime_series db'
   = Database.realtime_series db
     ++ List.concat (Database.rows_of <$> packets)
   /\ Database.totalRecords db'
      = (Database.totalRecords db
         + Z.of_nat (length (List.concat (Database.rows_of <$> packets))))%Z
   /\ (Database.totalRecords db'
       - Z.of_nat (length (Database.realtime_series db')))%Z
      = (Database.totalRecords db
         - Z.of_nat (length (Database.realtime_series db)))%Z)
  /\ (Database.isInitialized db = false -> db' = db)
  /\ (forall data, Database.packet_records data = None ->
                   Database.saveRealtimeData db data = db).
Proof.
  intros db'. split; [|split].
  - intros Hinit. destruct (save_stream packets db Hinit) as (_ & H1 & H2).
    fold db' in H1, H2. rewrite H1, H2, length_app. repeat split. lia.
  - intros Hinit. by apply save_uninitialised.
  - intros data Hnone. unfold Database.saveRealtimeData. rewrite Hnone.
    by destruct (negb _).
Qed.

(** X26. The rows of a packet: one row per point of every series of the
    price group, then one per point of every series of the volume group;
    each row is tagged with its group, the packet's sequence id and the
    packet's trading session, or the empty string when the session is
    missing or falsy. *)
Theorem packet_records_rows (dataPacket : Json.jsval)
    (rows : list Database.record) :
  Database.packet_records dataPacket = Some rows ->
  let metadata := Json.prop_opt dataPacket "metadata" in
  let session := Json.prop_opt metadata "trading_session" in
  let trading_session :=
    if Json.truthy session then session else Json.VStr EmptyString in
  let sequence_id := Json.prop_opt metadata "sequence_id" in
  let n := Database.group_size (Json.prop_opt dataPacket "ppie_group") in
  length rows
  = n + Database.group_size (Json.prop_opt dataPacket "vvie_group")
  /\ Forall (fun r => Database.data_group r = "PPIE"
                      /\ Database.trading_session r = trading_session
                      /\ Database.sequence_id r = sequence_id)
            (take n rows)
  /\ Forall (fun r => Database.data_group r = "VVIE"
                      /\ Database.trading_session r = trading_session
                      /\ Database.sequence_id r = sequence_id)
            (drop n rows).
Proof.
  intros Hrec. unfold Database.packet_records in Hrec.
  destruct (Json.prop dataPacket "metadata") as [metadata|] eqn:Hm; [|done].
  destruct (Json.prop dataPacket "ppie_group") as [pg|] eqn:Hpg; [|done].
  destruct (Json.prop dataPacket "vvie_group") as [vg|] eqn:Hvg; [|done].
  cbn [mbind option_bind] in Hrec.
  destruct (Json.prop metadata "timestamp") as [ts|]; [|done].
  destruct (Json.prop metadata "trading_session") as [session|] eqn:Hs;
    [|done].
  destruct (Json.prop metadata "sequence_id") as [seq|] eqn:Hq; [|done].
  cbn [mbind option_bind] in Hrec.
  destruct (Database.group_records "PPIE" _ seq pg) as [prow|] eqn:Hp; [|done].
  destruct (Database.group_records "VVIE" _ seq vg) as [vrow|] eqn:Hv; [|done].
  cbn [mbind option_bind] in Hrec. injection Hrec as <-.
  destruct (group_records_rows _ _ _ _ _ Hp) as [Lp Fp].
  destruct (group_records_rows _ _ _ _ _ Hv) as [Lv Fv].
  unfold Json.prop_opt. rewrite Hm, Hpg, Hvg. cbn [default from_option id].
  rewrite Hs, Hq. cbn [default from_option id].
  rewrite <- Lp, length_app, Lv, take_app_length, drop_app_length. done.
Qed.

(** The theorem on a well-formed packet with one price point. *)
Lemma packet_records_rows_witness :
  exists rows,
    Database.packet_records (App.sample_packet 1 2) = Some rows
    /\ length rows = 1.
Proof.
  eexists. split; [reflexivity|].
  exact (proj1 (packet_records_rows (App.sample_packet 1 2) _ eq_refl)).
Defined.

(** ** Pages: what reaches the grid, and the toolbar's pause flag *)

Section PageFacts.
Import JS Json App.

Lemma handleRealtimeData_running (data : jsval) (a : Application) :
  paused a = false ->
  let a' := handleRealtimeData data a in
  paused a' = false
  /\ totalDataReceived a' = (totalDataReceived a + 1)%Z
  /\ charts a' = (fun cm => Buffer.updateChartsData cm data) <$> charts a
  /\ database a'
     = (fun db => Database.saveRealtimeData db data) <$> database a
  /\ totalErrors a'
     = (totalErrors a
        + (if bool_decide (prop data "metadata" = None) then 1 else 0))%Z.
Proof.
  intros Hp. unfold handleRealtimeData. rewrite Hp. simpl.
  repeat split; try done.
  destruct (prop data "metadata"); simpl; [lia|done].
Qed.

End PageFacts.

(** X27. A page that is not paused hands every packet to both of its
    modules: after any stream of packets its chart manager is the chart
    manager fed with the stream, its cache is the cache fed with the stream,
    the received counter has grown by the number of packets, valid or not,
    and the error counter by the number of packets that are [undefined] or
    [null]. *)
Theorem feed_reaches_both_modules (a : App.Application)
    (packets : list Json.jsval) :
  App.paused a = false ->
  let a' := App.feed packets a in
  App.paused a' = false
  /\ App.totalDataReceived a'
     = (App.totalDataReceived a + Z.of_nat (length packets))%Z
  /\ App.charts a'
     = (fun cm => fold_left Buffer.updateChartsData packets cm)
         <$> App.charts a
  /\ App.database a'
     = (fun db => fold_left Database.saveRealtimeData packets db)
         <$> App.database a
  /\ App.totalErrors a'
     = (App.totalErrors a
        + Z.of_nat (length (filter
                              (fun data => Json.prop data "metadata" = None)
                              packets)))%Z.
Proof.
  revert a. induction packets as [|data packets IH]; intros a Hp.
  - simpl. repeat split; try done; try lia;
      [by destruct (App.charts a)|by destruct (App.database a)].
  - unfold App.feed. cbn [fold_left].
    fold (App.feed packets (App.handleRealtimeData data a)).
    destruct (handleRealtimeData_running data a Hp) as (S1 & S2 & S3 & S4 & S5).
    destruct (IH _ S1) as (I1 & I2 & I3 & I4 & I5).
    cbv zeta. rewrite I1, I2, I3, I4, I5, S2, S3, S4, S5.
    rewrite <- !option_fmap_compose, filter_cons.
    split; [done|]. split; [simpl length; lia|].
    split; [done|]. split; [done|].
    rewrite bool_decide_decide. destruct (decide _); simpl; lia.
Qed.

(** The theorem on a fresh page and the stream [undefined], one valid
    packet: two packets received, one error. *)
Lemma feed_reaches_both_modules_witness :
  let a' :=
    App.feed [Json.VUndefined; App.sample_packet 1 2] App.new_Application in
  App.totalDataReceived a' = 2%Z /\ App.totalErrors a' = 1%Z.
Proof.
  intros a'.
  destruct (feed_reaches_both_modules App.new_Application
              [Json.VUndefined; App.sample_packet 1 2] eq_refl)
    as (_ & H1 & _ & _ & H2).
  split; [exact H1|exact H2].
Defined.

(** X28. The grid controller looks for the groups under the names [ppie]
    and [vvie], the connection manager's validator under [ppie_group] and
    [vvie_group].  A packet without a truthy [ppie] or [vvie] leaves the
    grid controller of the dual-grid page exactly as it was, while the
    packet is still counted and written to the cache; the sample packet,
    which the validator accepts, is such a packet. *)
Theorem grid_page_ignores_group_packets (now : float) (data : Json.jsval)
    (a : App.DualGridApplication) :
  Json.truthy (Json.prop_opt data "ppie") = false ->
  Json.truthy (Json.prop_opt data "vvie") = false ->
  let a' := App.dg_handleRealtimeData now data a in
  App.gridController a' = App.gridController a
  /\ (App.dg_paused a = false ->
      App.dg_totalDataReceived a' = (App.dg_totalDataReceived a + 1)%Z
      /\ App.dg_database a'
         = (fun db => Database.saveRealtimeData db data) <$> App.dg_database a)
  /\ (forall t v : float,
        JS.float_truthy t = true ->
        Socket.accepts (App.sample_packet t v) = true
        /\ Grid.validateDataFormat (App.sample_packet t v) = false).
Proof.
  intros Hp Hv a'. subst a'. unfold App.dg_handleRealtimeData.
  assert (Grid.validateDataFormat data = false) as Hinvalid.
  { unfold Grid.validateDataFormat. rewrite Hp, Hv.
    by destruct (negb _ || negb _). }
  split; [|split].
  - destruct (App.dg_paused a); [done|]. simpl.
    destruct (App.gridController a) as [gc|]; [|done]. simpl. f_equal.
    by apply plain_invalid_unchanged.
  - by intros ->.
  - intros t v Ht. split; [|done].
    unfold Socket.accepts, App.sample_packet, Socket.has, Json.prop_opt.
    simpl. by rewrite Ht.
Qed.

(** The theorem on a fresh dual-grid page and the sample packet. *)
Lemma grid_page_ignores_group_packets_witness :
  App.gridController
    (App.dg_handleRealtimeData 0 (App.sample_packet 1 2)
       App.new_DualGridApplication)
  = Some Grid.new_GridController.
Proof.
  exact (proj1 (grid_page_ignores_group_packets 0 (App.sample_packet 1 2)
                  App.new_DualGridApplication eq_refl eq_refl)).
Defined.

Section ToolbarFacts.
Import Toolbar.

Lemma act_inv (p : ToolbarManager * window) (a : action) :
  toolbar_inv p -> toolbar_inv (act p a).
Proof.
  intros [Hc Hp]. destruct a as [|state]; simpl.
  - unfold handleDataFlowToggle, toolbar_inv. rewrite Hc. simpl. done.
  - unfold updateConnectionState, toolbar_inv. simpl. split; [done|].
    by destruct (resets_pause state).
Qed.

Lemma run_toolbar_inv (actions : list action) :
  forall p, toolbar_inv p -> toolbar_inv (run p actions).
Proof.
  induction actions as [|a actions IH]; intros p Hp; [done|].
  unfold run. cbn [fold_left]. apply IH. by apply act_inv.
Qed.

End ToolbarFacts.

(** X29. The pause flag of the toolbar and the global flag that the page
    obeys can drift apart.  On a page with a chart manager, whenever the
    toolbar shows "paused" the global flag is set, whatever happened
    before.  The converse fails: a status change to disconnected, error or
    failed during a pause clears the toolbar's flag and leaves the global
    flag set, also after the connection is back.  The page then drops
    every packet while the toolbar shows the data as flowing; the next
    click pauses again, and only the click after that resumes. *)
Theorem toolbar_pause_drift (toolbar : Toolbar.ToolbarManager)
    (w : Toolbar.window) (state : string) (actions : list Toolbar.action)
    (a : App.Application) (packets : list Json.jsval) :
  Toolbar.chartsManager w = true ->
  Toolbar.isDataFlowPaused toolbar = false ->
  Toolbar.resets_pause state = true ->
  (let p := Toolbar.run (toolbar, w) actions in
   Toolbar.isDataFlowPaused p.1 = true ->
   Toolbar.isDataUpdatePaused p.2 = true)
  /\ (let p :=
        Toolbar.run (toolbar, w)
          [Toolbar.ClickDataFlow; Toolbar.StatusChange state;
           Toolbar.StatusChange "connected"] in
      Toolbar.isDataFlowPaused p.1 = false
      /\ Toolbar.isDataUpdatePaused p.2 = true
      /\ App.feed packets (App.set_paused (Toolbar.isDataUpdatePaused p.2) a)
         = App.set_paused true a
      /\ Toolbar.isDataUpdatePaused
           (Toolbar.run p [Toolbar.ClickDataFlow]).2 = true
      /\ Toolbar.isDataUpdatePaused
           (Toolbar.run p [Toolbar.ClickDataFlow; Toolbar.ClickDataFlow]).2
         = false).
Proof.
  intros Hc Hp Hstate. split.
  - intros p. apply (run_toolbar_inv actions (toolbar, w)).
    split; [done|]. simpl. by rewrite Hp.
  - unfold Toolbar.run. cbn [fold_left Toolbar.act].
    unfold Toolbar.handleDataFlowToggle, Toolbar.updateConnectionState.
    simpl. rewrite Hc, Hp, Hstate. simpl.
    repeat split. by apply feed_paused.
Qed.

(** The theorem on the toolbar the constructor builds and a
    disconnection. *)
Lemma toolbar_pause_drift_witness :
  let p :=
    Toolbar.run (Toolbar.new_ToolbarManager, Toolbar.MkWindow false true)
      [Toolbar.ClickDataFlow; Toolbar.StatusChange "disconnected";
       Toolbar.StatusChange "connected"] in
  Toolbar.isDataFlowPaused p.1 = false
  /\ Toolbar.isDataUpdatePaused p.2 = true.
Proof.
  intros p.
  destruct (proj2 (toolbar_pause_drift Toolbar.new_ToolbarManager
                     (Toolbar.MkWindow false true) "disconnected" []
                     App.new_Application [] eq_refl eq_refl eq_refl))
    as (H1 & H2 & _).
  split; [exact H1|exact H2].
Defined.

(** ** The stochastic oscillator with a non-positive period *)

Section KdjEmptyWindow.
Import JS Indicators.

(** The raw value over two empty windows: the maximum of nothing is
    -Infinity and the minimum of nothing is +Infinity. *)
Lemma empty_window_rsv (c : float) :
  ((c - infinity) / (neg_infinity - infinity) * 100)%float = nan.
Proof.
  rewrite <- (SF2Prim_Prim2SF (_ * 100)), FloatAxioms.mul_spec,
    FloatAxioms.div_spec, FloatAxioms.sub_spec.
  change (Prim2SF (neg_infinity - infinity)) with (S754_infinity true).
  change (Prim2SF infinity) with (S754_infinity false).
  change (Prim2SF 100) with (S754_finite false 7036874417766400 (-46)).
  destruct (Prim2SF c) as [s|s| |s m e]; try done; by destruct s.
Qed.

Lemma add_nan (x : float) : (x + nan)%float = nan.
Proof.
  rewrite <- (SF2Prim_Prim2SF (x + nan)), FloatAxioms.add_spec.
  change (Prim2SF nan) with S754_nan.
  by destruct (Prim2SF x).
Qed.

Lemma kdj_rsv_empty (highs lows closes : list jsnum) (period : Z) (i : nat) :
  (period <= 0)%Z ->
  kdj_rsv highs lows closes period (Z.of_nat i) = nan.
Proof.
  intros Hp. unfold kdj_rsv.
  rewrite !slice_empty by lia.
  change (math_max []) with neg_infinity.
  change (math_min []) with infinity.
  apply empty_window_rsv.
Qed.

End KdjEmptyWindow.

(** X30. With a period of 0 or less every window of [calculateKDJ] is
    empty, so the highest high is -Infinity and the lowest low +Infinity,
    and every cell of RSV, K, D and J is NaN: no cell is [null] and no cell
    is a usable number, whatever the prices. *)
Theorem calculateKDJ_nonpositive_period (highs lows closes : list JS.jsnum)
    (period : Z) (i : nat) :
  (period <= 0)%Z -> i < length closes ->
  let out := Indicators.calculateKDJ highs lows closes period in
  Indicators.rsv out !! i = Some (JS.JNumber nan)
  /\ Indicators.k out !! i = Some (JS.JNumber nan)
  /\ Indicators.d out !! i = Some (JS.JNumber nan)
  /\ Indicators.j out !! i = Some (JS.JNumber nan).
Proof.
  intros Hp Hi out.
  destruct (calculateKDJ_cells highs lows closes period i ltac:(lia) Hi)
    as (Hr & Hk & Hd & Hj).
  fold out in Hr, Hk, Hd, Hj.
  rewrite kdj_rsv_empty in Hr, Hk, Hd, Hj by done.
  rewrite add_nan in Hk, Hd, Hj.
  change (nan / 3)%float with nan in Hk, Hd, Hj.
  rewrite add_nan in Hd, Hj.
  change (nan / 3)%float with nan in Hd, Hj.
  done.
Qed.

(** The theorem on three candles and period 0. *)
Lemma calculateKDJ_nonpositive_period_witness :
  let c := [JS.JNumber 10; JS.JNumber 11; JS.JNumber 9] in
  Indicators.k (Indicators.calculateKDJ c c c 0) !! 2
  = Some (JS.JNumber nan).
Proof.
  intros c.
  exact (proj1 (proj2 (calculateKDJ_nonpositive_period c c c 0 2
                         ltac:(lia) ltac:(simpl; lia)))).
Defined.
